(** * FSC symbol catalogs: the record encoder and the grouping policy

    A shallow embedding of [FSCtypes.py] and of
    [FSC_create_symbol_catalog.py].

    The Python code builds every record as a [ctypes] structure: a zeroed
    byte buffer of [ctypes.sizeof] bytes, with fields written in place at
    the offsets the packed layout ([_pack_ = 1]) gives them.  A nested
    structure ([self.symbol_definition], [self.CStuff]) is a view on the
    bytes of its owner, so an [__init__] called on it writes into the
    owner's buffer.  The embedding keeps exactly that: one buffer per
    object, views given by a type and a base offset, and [__init__]
    methods as programs of a state-and-exception monad over the buffer. *)

From Stdlib Require Import ZArith List String Ascii Bool Lia PeanoNat.
From Stdlib Require Import Floats.SpecFloat.
Import ListNotations.

Local Open Scope Z_scope.

(* ------------------------------------------------------------------ *)
(** * Python exceptions and results *)

Inductive exn : Type :=
| TypeError
| ValueError
| FileNotFoundError
| StructError            (* struct.error *)
| AttributeError.

Inductive result (A : Type) : Type :=
| Ok (a : A)
| Raise (e : exn).
Arguments Ok {A} a.
Arguments Raise {A} e.

Definition rbind {A B} (r : result A) (k : A -> result B) : result B :=
  match r with
  | Ok a => k a
  | Raise e => Raise e
  end.

(** [try: body except h]: [h e = Some r] when an [except] clause catches [e]. *)
Definition try_except {A} (body : result A) (h : exn -> option (result A))
  : result A :=
  match body with
  | Ok a => Ok a
  | Raise e => match h e with
               | Some r => r
               | None => Raise e
               end
  end.

(* ------------------------------------------------------------------ *)
(** * Bytes and buffers *)

(** A byte is a [Z] in [0, 256); [bytes] is Python's [bytes]. *)
Definition bytes := list Z.

Definition zeros (n : nat) : bytes := repeat 0 n.

(** Little-endian encoding on [n] bytes, wrapping modulo [256^n] as the
    integer setters of ctypes do. *)
Fixpoint le_bytes (n : nat) (v : Z) : bytes :=
  match n with
  | O => []
  | S k => (v mod 256) :: le_bytes k (v / 256)
  end.

Fixpoint le_value (bs : bytes) : Z :=
  match bs with
  | [] => 0
  | b :: bs' => b + 256 * le_value bs'
  end.

(** Big-endian value, for [struct.unpack('>LL', ...)]. *)
Definition be_value (bs : bytes) : Z := le_value (rev bs).

Fixpoint overwrite (bs buf : bytes) : bytes :=
  match bs, buf with
  | b :: bs', _ :: buf' => b :: overwrite bs' buf'
  | _, _ => buf
  end.

(** [poke off bs buf]: the buffer with [bs] stored from offset [off] on.
    The length of the buffer never changes. *)
Fixpoint poke (off : nat) (bs buf : bytes) : bytes :=
  match off, buf with
  | O, _ => overwrite bs buf
  | S k, b :: buf' => b :: poke k bs buf'
  | S _, [] => []
  end.

(** [peek off n buf]: the [n] bytes of [buf] from offset [off] on. *)
Definition peek (off n : nat) (buf : bytes) : bytes :=
  firstn n (skipn off buf).

Fixpoint bytes_eqb (a b : bytes) : bool :=
  match a, b with
  | [], [] => true
  | x :: a', y :: b' => (x =? y) && bytes_eqb a' b'
  | _, _ => false
  end.

(** [data.startswith(prefix)] *)
Fixpoint startswith (prefix data : bytes) : bool :=
  match prefix, data with
  | [], _ => true
  | p :: prefix', d :: data' => (p =? d) && startswith prefix' data'
  | _ :: _, [] => false
  end.

(** [data[i:j]] for [0 <= i <= j]. *)
Definition slice (i j : nat) (data : bytes) : bytes :=
  firstn (j - i) (skipn i data).

(* ------------------------------------------------------------------ *)
(** * Python strings

    A [str] is modelled by a [string] whose characters are the code points
    below 256; that covers every name the catalog script lets through, since
    it keeps ASCII file names only. *)

Definition code (c : ascii) : Z := Z.of_nat (nat_of_ascii c).

Fixpoint codes (s : string) : list Z :=
  match s with
  | EmptyString => []
  | String c s' => code c :: codes s'
  end.

(** [s.encode('utf-8')] *)
Definition utf8_char (c : Z) : bytes :=
  if c <? 128 then [c] else [192 + c / 64; 128 + c mod 64].

Definition encode_utf8 (s : string) : bytes := flat_map utf8_char (codes s).

(** [s.encode('ascii', errors='strict')] succeeds. *)
Definition ascii_encodable (s : string) : bool :=
  forallb (fun c => c <? 128) (codes s).

(* ------------------------------------------------------------------ *)
(** * Python floats and the C [float]

    A Python [float] is a binary64 number; a [c_float] field holds its
    rounding to binary32, stored as the four bytes of the IEEE bit pattern. *)

Definition float64 := spec_float.

(** [float(n)] for an [int] *)
Definition float_of_int (n : Z) : float64 := binary_normalize 53 1024 n 0 false.

(** [a / b] on floats ([b] is never zero where the code divides). *)
Definition float_div (a b : float64) : float64 := SFdiv 53 1024 a b.

(** The C conversion [(float)x]. *)
Definition to_binary32 (d : float64) : spec_float :=
  match d with
  | S754_finite s m e => binary_round 24 128 s m e
  | _ => d
  end.

Definition sign_bit (s : bool) : Z := if s then 2147483648 else 0.

(** The bit pattern of a binary32 number. *)
Definition bits_of_binary32 (f : spec_float) : Z :=
  match f with
  | S754_zero s => sign_bit s
  | S754_infinity s => sign_bit s + 2139095040
  | S754_nan => 2143289344
  | S754_finite s m e =>
      if Z.pos m <? 8388608
      then sign_bit s + Z.pos m
      else sign_bit s + (e + 150) * 8388608 + (Z.pos m - 8388608)
  end.

(** Byte [i] of the little-endian encoding of [v]. *)
Definition byte_at (v : Z) (i : nat) : Z := (v / 256 ^ Z.of_nat i) mod 256.

(** The four bytes a [c_float] field holds for the Python float [d]. *)
Definition c_float_bytes (d : float64) : bytes :=
  let bits := bits_of_binary32 (to_binary32 d) in
  [byte_at bits 0; byte_at bits 1; byte_at bits 2; byte_at bits 3].

(* ------------------------------------------------------------------ *)
(** * Python values *)

Inductive pyval : Type :=
| PyNone
| PyInt (n : Z)
| PyFloat (d : float64)
| PyBytes (bs : bytes).

(** [float(x)] *)
Definition py_float (x : pyval) : result float64 :=
  match x with
  | PyInt n => Ok (float_of_int n)
  | PyFloat d => Ok d
  | _ => Raise TypeError
  end.

(* ------------------------------------------------------------------ *)
(** * ctypes: types, layout, views *)

#[local] Unset Elimination Schemes.
Inductive ctype : Type :=
| c_ubyte | c_char
| c_short | c_ushort
| c_int | c_uint | c_uint32
| c_float
| c_array (t : ctype) (n : nat)                 (* [t * n] *)
| c_struct (fields : list (string * ctype)).    (* [_fields_], [_pack_ = 1] *)
#[local] Set Elimination Schemes.

(** [ctypes.sizeof]: with [_pack_ = 1] a structure is the sum of its fields. *)
Fixpoint sizeof (t : ctype) : nat :=
  match t with
  | c_ubyte | c_char => 1
  | c_short | c_ushort => 2
  | c_int | c_uint | c_uint32 | c_float => 4
  | c_array t' n => n * sizeof t'
  | c_struct fields =>
      (fix total (l : list (string * ctype)) : nat :=
         match l with
         | [] => 0
         | (_, ft) :: l' => sizeof ft + total l'
         end) fields
  end%nat.

(** Offset and type of the field [name]: fields follow one another. *)
Fixpoint field_at (fields : list (string * ctype)) (name : string) (off : nat)
  : option (nat * ctype) :=
  match fields with
  | [] => None
  | (n, ft) :: fields' =>
      if String.eqb n name then Some (off, ft)
      else field_at fields' name (off + sizeof ft)%nat
  end.

(** A view: a ctypes object living at [vbase] in its owner's buffer. *)
Record view : Type := View { vtype : ctype; vbase : nat }.

Definition lookup_field (v : view) (name : string) : option (nat * ctype) :=
  match vtype v with
  | c_struct fields =>
      match field_at fields name 0 with
      | Some (off, ft) => Some ((vbase v + off)%nat, ft)
      | None => None
      end
  | _ => None
  end.

(** [v.name] for a field that is itself a structure or an array. *)
Definition attr (v : view) (name : string) : view :=
  match lookup_field v name with
  | Some (addr, ft) => View ft addr
  | None => View (c_struct []) 0
  end.

(** [arr[i]] *)
Definition item (v : view) (i : nat) : view :=
  match vtype v with
  | c_array t _ => View t (vbase v + i * sizeof t)
  | _ => View (c_struct []) 0
  end.

(* ------------------------------------------------------------------ *)
(** * The monad of [__init__] methods: a buffer, and exceptions *)

Definition M (A : Type) : Type := bytes -> result (A * bytes).

Definition ret {A} (a : A) : M A := fun buf => Ok (a, buf).
Definition raise {A} (e : exn) : M A := fun _ => Raise e.
Definition bind {A B} (m : M A) (k : A -> M B) : M B :=
  fun buf => match m buf with
             | Ok (a, buf') => k a buf'
             | Raise e => Raise e
             end.
Definition lift {A} (r : result A) : M A :=
  fun buf => match r with
             | Ok a => Ok (a, buf)
             | Raise e => Raise e
             end.

Notation "x <- m ;; k" := (bind m (fun x => k))
  (at level 61, m at next level, right associativity).
Notation "m ;; k" := (bind m (fun _ => k))
  (at level 61, right associativity).

Definition store (addr : nat) (bs : bytes) : M unit :=
  fun buf => Ok (tt, poke addr bs buf).

Definition load (addr n : nat) : M bytes :=
  fun buf => Ok (peek addr n buf, buf).

(** [strlen] of the C string a [bytes] object holds. *)
Fixpoint strlen (data : bytes) : nat :=
  match data with
  | [] => O
  | b :: data' => if b =? 0 then O else S (strlen data')
  end.

(** One byte of a field after [memcpy(ptr, data, size)]. *)
Definition copied_byte (data : bytes) (size i : nat) (old : Z) : Z :=
  if (i <? size)%nat then nth i data 0 else old.

(** The field after [memcpy(ptr, data, size)], [old] being its bytes before. *)
Fixpoint memcpy (data : bytes) (size i : nat) (old : bytes) : bytes :=
  match old with
  | [] => []
  | o :: old' => copied_byte data size i o :: memcpy data size (S i) old'
  end.

(** The setter of a [c_char * length] field (ctypes [s_set]): the value is
    taken as a C string; it is copied with its terminating NUL when there is
    room for it, and refused when it is longer than the field. *)
Definition s_set (addr length : nat) (data : bytes) : M unit :=
  let size := strlen data in
  if (length <? size)%nat then raise ValueError
  else
    let size := if (size <? length)%nat then S size else size in
    old <- load addr length ;;
    store addr (memcpy data size 0 old).

Definition is_int_type (t : ctype) : bool :=
  match t with
  | c_ubyte | c_short | c_ushort | c_int | c_uint | c_uint32 => true
  | _ => false
  end.

Definition is_signed (t : ctype) : bool :=
  match t with
  | c_short | c_int => true
  | _ => false
  end.

(** Storing a Python value in a field of type [t] at [addr]. *)
Definition set_value (t : ctype) (addr : nat) (x : pyval) : M unit :=
  match t, x with
  | c_char, PyInt n =>
      if (0 <=? n) && (n <? 256) then store addr [n] else raise TypeError
  | c_char, PyBytes [b] => store addr [b]
  | c_float, PyInt n => store addr (c_float_bytes (float_of_int n))
  | c_float, PyFloat d => store addr (c_float_bytes d)
  | c_array c_char n, PyBytes data => s_set addr n data
  | _, PyInt n =>
      if is_int_type t then store addr (le_bytes (sizeof t) n)
      else raise TypeError
  | _, _ => raise TypeError
  end.

(** [v.name = x] *)
Definition setattr (v : view) (name : string) (x : pyval) : M unit :=
  match lookup_field v name with
  | Some (addr, ft) => set_value ft addr x
  | None => raise AttributeError
  end.

(** [v.name] for an integer field. *)
Definition getint (v : view) (name : string) : M Z :=
  match lookup_field v name with
  | Some (addr, ft) =>
      if is_int_type ft then
        bs <- load addr (sizeof ft) ;;
        let u := le_value bs in
        let half := 2 ^ (8 * Z.of_nat (sizeof ft) - 1) in
        ret (if is_signed ft && (half <=? u) then u - 2 * half else u)
      else raise TypeError
  | None => raise AttributeError
  end.

(** [v.name |= mask] *)
Definition or_attr (v : view) (name : string) (mask : Z) : M unit :=
  old <- getint v name ;;
  setattr v name (PyInt (Z.lor old mask)).

(** [Cls(args)] followed by [bytes(obj)]: a zeroed buffer of [sizeof Cls]
    bytes, initialised by [init]. *)
Definition construct (cls : ctype) (init : view -> M unit) : result bytes :=
  match init (View cls 0) (zeros (sizeof cls)) with
  | Ok (_, buf) => Ok buf
  | Raise e => Raise e
  end.

(* ------------------------------------------------------------------ *)
(** * FSCtypes.py *)

Local Open Scope string_scope.
Local Open Scope list_scope.
Local Open Scope Z_scope.

(** ** Constants *)

Definition ET_XP : Z := 4.
Definition ET_SYMDEF : Z := 28.

Definition RESINFO_COUNT : nat := 4.

Definition XPID_PICTR : Z := 0xA004.
Definition XT_PICTR : Z := 1.

Definition XPID_SYMINFO : Z := 0xA00B.
Definition XT_SYMINFO : Z := 97.

Definition PF_NO_OUTLINE : Z := 1.
Definition PF_RESINFO_VALID : Z := 4.
Definition PF_RESINFO_ONLY1 : Z := 8.

Definition PICTR_VERSION : Z := 0.
Definition SYMINFO_VERSION : Z := 1.

Definition SF_GROUPED : Z := 0x00000002.
Definition SF_VARICOLOR : Z := 0x00000004.

Definition SGF_VARICOLOR : Z := 0x00000080.
Definition SGF_RANDOM : Z := 0x00000100.

Definition IMGX_ALPHA : Z := 2.

Definition EF_CSREF : Z := 0x08.

(** ** FileID *)

Definition FileID : ctype := c_struct
  [ ("ProgID",     c_array c_char 26);
    ("VerText",    c_array c_char 4);
    ("VerTextS",   c_array c_char 2);
    ("Padding",    c_array c_char 12);
    ("Special",    c_array c_char 3);
    ("DBVer",      c_ubyte);
    ("Compressed", c_ubyte);
    ("Filler",     c_array c_char 78);
    ("EndMarker",  c_ubyte) ].

Definition bytes_of_string (s : string) : bytes := codes s.

Definition FileID_init (self : view) : M unit :=
  setattr self "ProgID" (PyBytes (bytes_of_string "FCW (FastCAD for Windows) ")) ;;
  setattr self "VerText" (PyBytes (bytes_of_string "6.20")) ;;
  setattr self "VerTextS" (PyBytes (bytes_of_string ".0")) ;;
  setattr self "Padding" (PyBytes
    [0x0D; 0x0A; 0x1A; 0x69; 0x6E; 0x67; 0x20; 0x66; 0x69; 0x6C; 0x65; 0x2E]) ;;
  setattr self "Special" (PyBytes [13; 10; 26]) ;;
  setattr self "DBVer" (PyInt 24) ;;
  setattr self "Filler" (PyBytes
    (zeros 15 ++ [0x7E]
     ++ repeat 0x7E 10 ++ zeros 6
     ++ zeros 16
     ++ zeros 16
     ++ zeros 14)) ;;
  setattr self "Compressed" (PyInt 0) ;;
  setattr self "EndMarker" (PyInt 0xFF).

(** ** CSTUFF, the entity header *)

Definition CSTUFF : ctype := c_struct
  [ ("ERLen",   c_int);
    ("EType",   c_ubyte);
    ("EFlags",  c_char);
    ("EFlags2", c_char);
    ("EColor",  c_ubyte);
    ("EColor2", c_ubyte);
    ("EThick",  c_char);
    ("WPlane",  c_short);
    ("ELayer",  c_short);
    ("ELStyle", c_short);
    ("GroupID", c_short);
    ("EFStyle", c_short);
    ("LWidth",  c_float);
    ("Tag",     c_int) ].

Definition float_zero : float64 := S754_zero false.

Definition CSTUFF_init (self : view) (len type : Z) : M unit :=
  setattr self "ERLen" (PyInt len) ;;
  setattr self "EType" (PyInt type) ;;
  setattr self "EFlags" (PyBytes [0]) ;;
  setattr self "EFlags2" (PyBytes [0]) ;;
  setattr self "EColor" (PyInt 224) ;;
  setattr self "EColor2" (PyInt 224) ;;
  setattr self "EThick" (PyBytes [0]) ;;
  setattr self "WPlane" (PyInt 0) ;;
  setattr self "ELayer" (PyInt 256) ;;
  setattr self "ELStyle" (PyInt 0) ;;
  setattr self "GroupID" (PyInt 0) ;;
  setattr self "EFStyle" (PyInt 1) ;;
  setattr self "LWidth" (PyFloat float_zero) ;;
  setattr self "Tag" (PyInt 0).

Definition GPOINT3 : ctype := c_struct
  [ ("x", c_float); ("y", c_float); ("z", c_float) ].

Definition GPOINT2 : ctype := c_struct
  [ ("x", c_float); ("y", c_float) ].

(** ** SYMDEF *)

Definition SYMDEF : ctype := c_struct
  [ ("CStuff", CSTUFF);
    ("Low",    GPOINT3);
    ("Hi",     GPOINT3);
    ("Flags",  c_uint);
    ("SName",  c_array c_char 32) ].

Definition SYMDEF_init (self : view) : M unit :=
  CSTUFF_init (attr self "CStuff") (Z.of_nat (sizeof SYMDEF)) ET_SYMDEF.

(** ** Markers *)

Definition Marker : ctype := c_struct
  [ ("ERLen", c_uint32);
    ("MType", c_ubyte) ].

Definition Marker_init (self : view) (m_type_value : Z) : M unit :=
  setattr self "ERLen" (PyInt (Z.of_nat (sizeof Marker))) ;;
  setattr self "MType" (PyInt m_type_value).

(** [Marker0] and [Marker1] inherit the fields of [Marker]. *)
Definition Marker0 : ctype := Marker.
Definition Marker0_init (self : view) : M unit := Marker_init self 0.

Definition Marker1 : ctype := Marker.
Definition Marker1_init (self : view) : M unit := Marker_init self 1.

(** ** PICTR *)

Definition RESINFO : ctype := c_struct
  [ ("Present", c_int);
    ("width",   c_uint);
    ("height",  c_uint) ].

Definition PICTR : ctype := c_struct
  [ ("CStuff",  CSTUFF);
    ("XPId",    c_ushort);
    ("XType",   c_char);
    ("Version", c_uint32);
    ("Flags",   c_uint32);
    ("Mode",    c_uint32);
    ("bmwid",   c_uint32);
    ("bmhgt",   c_uint32);
    ("Cen",     GPOINT2);
    ("Bearing", c_float);
    ("RWid",    c_float);
    ("RHgt",    c_float);
    ("TColor",  c_uint);
    ("Alpha",   c_int);
    ("ResInfo", c_array RESINFO RESINFO_COUNT);
    ("Reserve", c_array c_uint32 32);
    ("BMPName", c_array c_char 256) ].

Definition PICTR_init (self : view) : M unit :=
  CSTUFF_init (attr self "CStuff") (Z.of_nat (sizeof PICTR)) ET_XP ;;
  setattr self "XPId" (PyInt XPID_PICTR) ;;
  setattr self "XType" (PyInt XT_PICTR) ;;
  setattr self "Version" (PyInt PICTR_VERSION) ;;
  setattr self "Flags"
    (PyInt (Z.lor (Z.lor PF_NO_OUTLINE PF_RESINFO_ONLY1) PF_RESINFO_VALID)) ;;
  setattr self "Mode" (PyInt IMGX_ALPHA).

(** ** SYMINFO *)

Definition SYMINFO : ctype := c_struct
  [ ("CStuff",       CSTUFF);
    ("XPId",         c_ushort);
    ("XType",        c_char);
    ("Version",      c_short);
    ("Flags",        c_uint32);
    ("Flags2",       c_uint32);
    ("RotA",         c_float);
    ("RotB",         c_float);
    ("TFlags",       c_uint32);
    ("ScaleAX",      c_float);
    ("ScaleBX",      c_float);
    ("ScaleAY",      c_float);
    ("ScaleBY",      c_float);
    ("ShearA",       c_float);
    ("ShearB",       c_float);
    ("unused1",      c_array c_char 4);
    ("OffsetHiX",    c_float);
    ("OffsetHiY",    c_float);
    ("OffsetLowX",   c_float);
    ("OffsetLowY",   c_float);
    ("GFlags",       c_uint32);
    ("unused2",      c_array c_char 49);
    ("Sheet",        c_array c_char 64);
    ("DrawToolName", c_array c_char 128);
    ("unused3",      c_array c_char 64) ].

Definition SYMINFO_init (self : view) : M unit :=
  CSTUFF_init (attr self "CStuff") (Z.of_nat (sizeof SYMINFO)) ET_XP ;;
  setattr self "XPId" (PyInt XPID_SYMINFO) ;;
  setattr self "XType" (PyInt XT_SYMINFO) ;;
  setattr self "Version" (PyInt SYMINFO_VERSION).

(** ** png_dimensions *)

(** The files the script can open: their content, or [None] when there is
    no file at that path. *)
Definition filesystem : Type := string -> option bytes.

(** [open(file_path, 'rb')] then [f.read(n)]. *)
Definition read_file (fs : filesystem) (file_path : string) (n : nat)
  : result bytes :=
  match fs file_path with
  | Some content => Ok (firstn n content)
  | None => Raise FileNotFoundError
  end.

Definition PNG_MAGIC : bytes := [0x89; 80; 78; 71; 13; 10; 0x1a; 10].
Definition IHDR : bytes := [73; 72; 68; 82].

(** [struct.unpack(b'>LL', data)]: two big-endian 32-bit words out of
    exactly eight bytes, [struct.error] otherwise. *)
Definition unpack_LL (data : bytes) : result (pyval * pyval) :=
  if (List.length data =? 8)%nat
  then Ok (PyInt (be_value (firstn 4 data)), PyInt (be_value (skipn 4 data)))
  else Raise StructError.

Definition png_dimensions (fs : filesystem) (file_path : string)
  : result (pyval * pyval) :=
  try_except
    (rbind (read_file fs file_path 24) (fun data =>
     if startswith PNG_MAGIC data && bytes_eqb (slice 12 16 data) IHDR
     then unpack_LL (slice 16 24 data)
     else Raise ValueError))
    (fun e => match e with
              | FileNotFoundError => Some (Ok (PyNone, PyNone))
              | ValueError => Some (Ok (PyNone, PyNone))
              | _ => None
              end).

(** ** SimpleSymbol *)

Definition SimpleSymbol : ctype := c_struct
  [ ("symbol_definition", SYMDEF);
    ("start_marker",      Marker0);
    ("picture_info",      PICTR);
    ("symbol_info",       SYMINFO);
    ("end_marker",        Marker1) ].

(** The literal [1.0] and the divisor [40] of [float(x)/40]. *)
Definition float_one : float64 := float_of_int 1.
Definition float_40 : float64 := float_of_int 40.

(** [float(x)/40] *)
Definition scaled (x : pyval) : result pyval :=
  rbind (py_float x) (fun fx => Ok (PyFloat (float_div fx float_40))).

Definition SimpleSymbol_init (fs : filesystem) (self : view)
    (name file : string) (isGroup : bool) : M unit :=
  let symbol_definition := attr self "symbol_definition" in
  let picture_info := attr self "picture_info" in
  let symbol_info := attr self "symbol_info" in
  SYMDEF_init symbol_definition ;;
  setattr symbol_definition "SName" (PyBytes (encode_utf8 name)) ;;
  xy <- lift (png_dimensions fs file) ;;
  let '(x, y) := xy in
  v <- lift (scaled x) ;; setattr (attr symbol_definition "Hi") "x" v ;;
  v <- lift (scaled y) ;; setattr (attr symbol_definition "Hi") "y" v ;;
  setattr (attr symbol_definition "Hi") "z" (PyFloat (float_of_int 0)) ;;
  setattr (attr symbol_definition "Low") "x" (PyFloat (float_of_int 0)) ;;
  setattr (attr symbol_definition "Low") "y" (PyFloat (float_of_int 0)) ;;
  setattr (attr symbol_definition "Low") "z" (PyFloat (float_of_int 0)) ;;

  Marker0_init (attr self "start_marker") ;;

  PICTR_init picture_info ;;
  setattr picture_info "BMPName" (PyBytes (encode_utf8 file)) ;;
  v <- lift (scaled x) ;; setattr picture_info "RWid" v ;;
  v <- lift (scaled y) ;; setattr picture_info "RHgt" v ;;

  SYMINFO_init symbol_info ;;
  setattr symbol_info "ScaleAX" (PyFloat float_one) ;;
  setattr symbol_info "ScaleAY" (PyFloat float_one) ;;
  setattr symbol_info "ScaleBX" (PyFloat float_one) ;;
  setattr symbol_info "ScaleBY" (PyFloat float_one) ;;
  (if isGroup then
     or_attr symbol_info "Flags" SF_GROUPED ;;
     or_attr symbol_info "GFlags" SGF_RANDOM
   else ret tt) ;;

  Marker1_init (attr self "end_marker").

(** ** VaricolorSymbol *)

Definition VaricolorSymbol : ctype := c_struct
  [ ("symbol_definition", SYMDEF);
    ("start_marker",      Marker0);
    ("picture1_info",     PICTR);
    ("picture2_info",     PICTR);
    ("symbol_info",       SYMINFO);
    ("end_marker",        Marker1) ].

Definition VaricolorSymbol_init (fs : filesystem) (self : view)
    (name file1 file2 : string) (isGroup : bool) : M unit :=
  let symbol_definition := attr self "symbol_definition" in
  let picture1_info := attr self "picture1_info" in
  let picture2_info := attr self "picture2_info" in
  let symbol_info := attr self "symbol_info" in
  SYMDEF_init symbol_definition ;;
  setattr symbol_definition "SName" (PyBytes (encode_utf8 name)) ;;
  xy <- lift (png_dimensions fs file1) ;;
  let '(x, y) := xy in
  v <- lift (scaled x) ;; setattr (attr symbol_definition "Hi") "x" v ;;
  v <- lift (scaled y) ;; setattr (attr symbol_definition "Hi") "y" v ;;
  setattr (attr symbol_definition "Hi") "z" (PyFloat (float_of_int 0)) ;;
  setattr (attr symbol_definition "Low") "x" (PyFloat (float_of_int 0)) ;;
  setattr (attr symbol_definition "Low") "y" (PyFloat (float_of_int 0)) ;;
  setattr (attr symbol_definition "Low") "z" (PyFloat (float_of_int 0)) ;;

  Marker0_init (attr self "start_marker") ;;

  PICTR_init picture1_info ;;
  setattr picture1_info "BMPName" (PyBytes (encode_utf8 file1)) ;;
  v <- lift (scaled x) ;; setattr picture1_info "RWid" v ;;
  v <- lift (scaled y) ;; setattr picture1_info "RHgt" v ;;

  PICTR_init picture2_info ;;
  setattr picture2_info "BMPName" (PyBytes (encode_utf8 file2)) ;;
  xy <- lift (png_dimensions fs file2) ;;
  let '(x, y) := xy in
  v <- lift (scaled x) ;; setattr picture2_info "RWid" v ;;
  v <- lift (scaled y) ;; setattr picture2_info "RHgt" v ;;
  setattr (attr picture2_info "CStuff") "EFlags" (PyInt EF_CSREF) ;;

  SYMINFO_init symbol_info ;;
  setattr symbol_info "Flags" (PyInt SF_VARICOLOR) ;;
  setattr symbol_info "ScaleAX" (PyFloat float_one) ;;
  setattr symbol_info "ScaleAY" (PyFloat float_one) ;;
  setattr symbol_info "ScaleBX" (PyFloat float_one) ;;
  setattr symbol_info "ScaleBY" (PyFloat float_one) ;;
  (if isGroup then
     or_attr symbol_info "Flags" SF_GROUPED ;;
     or_attr symbol_info "GFlags" (Z.lor SGF_VARICOLOR SGF_RANDOM)
   else ret tt) ;;

  Marker1_init (attr self "end_marker").

(** [bytes(SimpleSymbol(name, file, isGroup))] *)
Definition SimpleSymbol_bytes (fs : filesystem) (name file : string)
    (isGroup : bool) : result bytes :=
  construct SimpleSymbol (fun self => SimpleSymbol_init fs self name file isGroup).

(** [bytes(VaricolorSymbol(name, file1, file2, isGroup))] *)
Definition VaricolorSymbol_bytes (fs : filesystem) (name file1 file2 : string)
    (isGroup : bool) : result bytes :=
  construct VaricolorSymbol
    (fun self => VaricolorSymbol_init fs self name file1 file2 isGroup).

(* ------------------------------------------------------------------ *)
(** * Strings as the catalog script uses them *)

Definition chr_newline : ascii := ascii_of_nat 10.

Definition is_newline (c : ascii) : bool := Ascii.eqb c chr_newline.

(** [\s] on a [str] pattern: the white space of Unicode, below 256. *)
Definition is_space (c : ascii) : bool :=
  let n := nat_of_ascii c in
  ((9 <=? n) && (n <=? 13) || (28 <=? n) && (n <=? 32)
   || (n =? 133) || (n =? 160))%nat.

(** [\d]: the decimal digits, which below 256 are [0-9]. *)
Definition is_digit (c : ascii) : bool :=
  let n := nat_of_ascii c in ((48 <=? n) && (n <=? 57))%nat.

(** [c.lower()] for a code point below 256. *)
Definition lower_char (c : ascii) : ascii :=
  let n := nat_of_ascii c in
  if ((65 <=? n) && (n <=? 90)
      || (192 <=? n) && (n <=? 222) && negb (n =? 215))%nat
  then ascii_of_nat (n + 32) else c.

Fixpoint lower (s : string) : string :=
  match s with
  | EmptyString => EmptyString
  | String c s' => String (lower_char c) (lower s')
  end.

(** [s.startswith(p)] *)
Fixpoint str_startswith (p s : string) : bool :=
  match p, s with
  | EmptyString, _ => true
  | String a p', String b s' => Ascii.eqb a b && str_startswith p' s'
  | String _ _, EmptyString => false
  end.

(** [s.endswith(suffix)]: some suffix of [s] is [suffix]. *)
Fixpoint str_endswith (suffix s : string) : bool :=
  String.eqb s suffix
  || match s with
     | EmptyString => false
     | String _ s' => str_endswith suffix s'
     end.

(** [p in s] *)
Fixpoint contains (p s : string) : bool :=
  str_startswith p s
  || match s with
     | EmptyString => false
     | String _ s' => contains p s'
     end.

(** [s.rfind(c)], [-1] when [c] does not occur. *)
Fixpoint rfind_from (c : ascii) (s : string) (i : Z) (found : Z) : Z :=
  match s with
  | EmptyString => found
  | String a s' => rfind_from c s' (i + 1) (if Ascii.eqb a c then i else found)
  end.

Definition rfind (c : ascii) (s : string) : Z := rfind_from c s 0 (-1).

(** [s[:i]] and [s[i:]] for [0 <= i]. *)
Definition str_take (i : Z) (s : string) : string :=
  substring 0 (Z.to_nat i) s.
Definition str_drop (i : Z) (s : string) : string :=
  substring (Z.to_nat i) (String.length s - Z.to_nat i) s.

(** ** os.path, as [posixpath] has it *)

(** The loop of [genericpath._splitext] that skips leading dots: whether
    some character at an index in [[filenameIndex, dotIndex)] is not a dot. *)
Fixpoint first_non_dot (s : string) (i filenameIndex dotIndex : Z) : bool :=
  match s with
  | EmptyString => false
  | String a s' =>
      if (filenameIndex <=? i) && (i <? dotIndex) && negb (Ascii.eqb a ".")
      then true
      else first_non_dot s' (i + 1) filenameIndex dotIndex
  end.

(** [os.path.splitext(p)] *)
Definition splitext (p : string) : string * string :=
  let sepIndex := rfind "/" p in
  let dotIndex := rfind "." p in
  if (sepIndex <? dotIndex) && first_non_dot p 0 (sepIndex + 1) dotIndex
  then (str_take dotIndex p, str_drop dotIndex p)
  else (p, EmptyString).

(** [os.path.join(a, b)] *)
Definition path_join (a b : string) : string :=
  if str_startswith "/" b then b
  else if String.eqb a "" || str_endswith "/" a then (a ++ b)%string
  else (a ++ "/" ++ b)%string.

(** [path.split('/')] *)
Fixpoint split_sep (s : string) (cur : string) : list string :=
  match s with
  | EmptyString => [cur]
  | String a s' =>
      if Ascii.eqb a "/" then cur :: split_sep s' EmptyString
      else split_sep s' (cur ++ String a EmptyString)%string
  end.

(** The loop of [posixpath.normpath] over the components. *)
Fixpoint norm_comps (initial_slashes : nat) (comps new_comps : list string)
  : list string :=
  match comps with
  | [] => new_comps
  | comp :: comps' =>
      if String.eqb comp "" || String.eqb comp "." then
        norm_comps initial_slashes comps' new_comps
      else if negb (String.eqb comp "..")
              || ((initial_slashes =? 0)%nat
                  && match new_comps with [] => true | _ => false end)
              || match rev new_comps with
                 | last :: _ => String.eqb last ".."
                 | [] => false
                 end
      then norm_comps initial_slashes comps' (new_comps ++ [comp])
      else norm_comps initial_slashes comps' (removelast new_comps)
  end.

(** ['/'.join(comps)] *)
Fixpoint join_sep (comps : list string) : string :=
  match comps with
  | [] => EmptyString
  | [c] => c
  | c :: comps' => (c ++ "/" ++ join_sep comps')%string
  end.

(** [os.path.normpath(path)] *)
Definition normpath (path : string) : string :=
  if String.eqb path "" then "."
  else
    let initial_slashes :=
      if str_startswith "/" path then
        if str_startswith "//" path && negb (str_startswith "///" path)
        then 2%nat else 1%nat
      else 0%nat in
    let comps := norm_comps initial_slashes (split_sep path EmptyString) [] in
    let path' := join_sep comps in
    let path' :=
      match initial_slashes with
      | O => path'
      | 1%nat => ("/" ++ path')%string
      | _ => ("//" ++ path')%string
      end in
    if String.eqb path' "" then "." else path'.

(** ** The two patterns *)

(** A lazy group [(.*?)] followed by [rest]: the shortest prefix, free of
    newlines, after which [rest] matches; the group is returned. *)
Fixpoint lazy_group (rest : string -> bool) (s : string) : option string :=
  if rest s then Some EmptyString
  else match s with
       | EmptyString => None
       | String c s' =>
           if is_newline c then None
           else option_map (String c) (lazy_group rest s')
       end.

(** [$]: the end of the string, or the place before a final newline. *)
Definition at_end (s : string) : bool :=
  match s with
  | EmptyString => true
  | String c EmptyString => is_newline c
  | _ => false
  end.

(** The characters of [lit], in any letter case, then [k]. *)
Fixpoint literal_ci (lit : string) (k : string -> bool) (s : string) : bool :=
  match lit with
  | EmptyString => k s
  | String l lit' =>
      match s with
      | String c s' => Ascii.eqb (lower_char c) l && literal_ci lit' k s'
      | EmptyString => false
      end
  end.

(** [p+ k] for a class [p] of characters. *)
Fixpoint one_or_more (p : ascii -> bool) (k : string -> bool) (s : string)
  : bool :=
  match s with
  | String c s' => p c && (one_or_more p k s' || k s')
  | EmptyString => false
  end.

(** [[1-2]{1}] then [k] *)
Definition one_or_two (k : string -> bool) (s : string) : bool :=
  match s with
  | String c s' => (Ascii.eqb c "1" || Ascii.eqb c "2") && k s'
  | EmptyString => false
  end.

(** [vari_0[1-2]{1}\.png$], letters in any case. *)
Definition variant_literal : string -> bool :=
  literal_ci "vari_0" (one_or_two (literal_ci ".png" at_end)).

(** [\s+vari_0[1-2]{1}\.png$] *)
Definition variant_suffix : string -> bool :=
  one_or_more is_space variant_literal.

(** [variant_pattern.match(s)] for
    [re.compile(r"(.*?)\s+vari_0[1-2]{1}\.png$", re.IGNORECASE)]:
    [group(1)] when the pattern matches. *)
Definition variant_pattern (s : string) : option string :=
  lazy_group variant_suffix s.

(** [subgroup_pattern.match(s)] for [re.compile(r"^(.*?)(\d+)$")]:
    [group(1)] when the pattern matches. *)
Definition subgroup_pattern (s : string) : option string :=
  lazy_group (one_or_more is_digit at_end) s.

(** ** [defaultdict(list)], in insertion order *)

Definition dict : Type := list (string * list string).

(** [d[k].append(v)] *)
Fixpoint dict_append (k v : string) (d : dict) : dict :=
  match d with
  | [] => [(k, [v])]
  | (k', vs) :: d' =>
      if String.eqb k' k then (k', vs ++ [v]) :: d'
      else (k', vs) :: dict_append k v d'
  end.

(** [d[k]] for [k in d] *)
Fixpoint dict_get (k : string) (d : dict) : option (list string) :=
  match d with
  | [] => None
  | (k', vs) :: d' => if String.eqb k' k then Some vs else dict_get k d'
  end.

(** ** [files.sort()] *)

Fixpoint insert_sorted (x : string) (l : list string) : list string :=
  match l with
  | [] => [x]
  | y :: l' => if String.leb x y then x :: l else y :: insert_sorted x l'
  end.

Definition sort (l : list string) : list string :=
  fold_right insert_sorted [] l.

(* ------------------------------------------------------------------ *)
(** * FSC_create_symbol_catalog.py *)

Definition check_filename_compatibility (filename : string) : bool :=
  ascii_encodable filename.

(** The state of the first pass. *)
Record grouping : Type := Grouping
  { groups : dict;
    subgroup_variant : dict;
    subgroup_normal : dict;
    skip_count : nat }.

Definition empty_grouping : grouping := Grouping [] [] [] 0.

(** One round of the first loop of [process_symbol_images]. *)
Definition first_pass_step (directory_path : string) (g : grouping)
    (filename : string) : grouping :=
  if negb (str_endswith ".png" (lower filename)) then g
  else if negb (check_filename_compatibility filename) then
    Grouping (groups g) (subgroup_variant g) (subgroup_normal g)
             (S (skip_count g))
  else
    let full_path := path_join directory_path filename in
    let match_ := variant_pattern filename in
    let base_symbol_name :=
      match match_ with
      | Some base => base
      | None => fst (splitext filename)
      end in
    let groups' := dict_append base_symbol_name full_path (groups g) in
    match subgroup_pattern base_symbol_name with
    | Some name_without_number =>
        match match_ with
        | Some _ =>
            Grouping groups'
              (dict_append name_without_number full_path (subgroup_variant g))
              (subgroup_normal g) (skip_count g)
        | None =>
            Grouping groups' (subgroup_variant g)
              (dict_append name_without_number full_path (subgroup_normal g))
              (skip_count g)
        end
    | None =>
        Grouping groups' (subgroup_variant g) (subgroup_normal g) (skip_count g)
    end.

Definition first_pass (directory_path : string) (listing : list string)
  : grouping :=
  fold_left (first_pass_step directory_path) listing empty_grouping.

(** What the second loop does with one group. *)
Inductive request : Type :=
| VariantPair (symbol_name file_01_path file_02_path : string) (isGroup : bool)
| SingleSymbol (symbol_name file_path : string) (isGroup : bool)
| Unhandled (symbol_name : string) (files : list string).

(** [len(sub[prefix]) > n] when [symbol_name] has a numbered prefix that is
    a key of [sub]. *)
Definition in_subgroup (sub : dict) (n : nat) (symbol_name : string) : bool :=
  match subgroup_pattern symbol_name with
  | Some prefix =>
      match dict_get prefix sub with
      | Some members => (n <? List.length members)%nat
      | None => false
      end
  | None => false
  end.

Definition request_of (g : grouping) (symbol_name : string)
    (files : list string) : request :=
  if (List.length files =? 2)%nat && forallb (contains "vari_") files then
    let files := sort files in
    VariantPair symbol_name (nth 0 files "") (nth 1 files "")
      (in_subgroup (subgroup_variant g) 2 symbol_name)
  else if (List.length files =? 1)%nat
          && negb (contains "vari_" (nth 0 files "")) then
    SingleSymbol symbol_name (nth 0 files "")
      (in_subgroup (subgroup_normal g) 1 symbol_name)
  else Unhandled symbol_name files.

Definition handle_variant_pair (fs : filesystem)
    (symbol_name file_01_path file_02_path : string) (isGroup : bool)
  : result bytes :=
  VaricolorSymbol_bytes fs symbol_name (normpath file_01_path)
    (normpath file_02_path) isGroup.

Definition handle_single_symbol (fs : filesystem)
    (symbol_name file_path : string) (isGroup : bool) : result bytes :=
  SimpleSymbol_bytes fs symbol_name (normpath file_path) isGroup.

(** The symbol a request appends to [all_symbols], if any. *)
Definition emit (fs : filesystem) (r : request) : result (list bytes) :=
  match r with
  | VariantPair n f1 f2 g =>
      rbind (handle_variant_pair fs n f1 f2 g) (fun b => Ok [b])
  | SingleSymbol n f g =>
      rbind (handle_single_symbol fs n f g) (fun b => Ok [b])
  | Unhandled _ _ => Ok []
  end.

(** The second loop of [process_symbol_images]. *)
Fixpoint second_pass (fs : filesystem) (g : grouping) (todo : dict)
    (all_symbols : list bytes) : result (list bytes) :=
  match todo with
  | [] => Ok all_symbols
  | (symbol_name, files) :: todo' =>
      rbind (emit fs (request_of g symbol_name files)) (fun new =>
      second_pass fs g todo' (all_symbols ++ new))
  end.

(** The symbols of a list of requests, in order; the first exception ends
    the run. *)
Fixpoint emit_all (fs : filesystem) (rs : list request)
  : result (list bytes) :=
  match rs with
  | [] => Ok []
  | r :: rs' =>
      rbind (emit fs r) (fun new =>
      rbind (emit_all fs rs') (fun rest => Ok (new ++ rest)))
  end.

(** The requests of a directory, in the order of the second loop. *)
Definition requests (directory_path : string) (listing : list string)
  : list request :=
  let g := first_pass directory_path listing in
  map (fun kv => request_of g (fst kv) (snd kv)) (groups g).

(** [process_symbol_images(directory_path)], [listdir] being [os.listdir]. *)
Definition process_symbol_images (fs : filesystem)
    (listdir : string -> list string) (directory_path : string)
  : result bytes :=
  let g := first_pass directory_path (listdir directory_path) in
  rbind (second_pass fs g (groups g) []) (fun all_symbols =>
  Ok (List.concat all_symbols)).

(** The loop of the main block over the source directories. *)
Fixpoint process_directories (fs : filesystem)
    (listdir : string -> list string) (dirs : list string)
    (symbol_list : list bytes) : result (list bytes) :=
  match dirs with
  | [] => Ok symbol_list
  | directory :: dirs' =>
      rbind (process_symbol_images fs listdir directory) (fun symbols_from_dir =>
      process_directories fs listdir dirs' (symbol_list ++ [symbols_from_dir]))
  end.

(** The bytes the main block writes to the catalog file: the header, the
    info blocks (built by [InfoBlocks.IB], which is not part of these
    sources and is taken as given), the symbols. *)
Definition catalog_file (fs : filesystem) (listdir : string -> list string)
    (expanded_source_dirs : list string) (infoblocks : bytes) : result bytes :=
  rbind (process_directories fs listdir expanded_source_dirs [])
    (fun symbol_list =>
  let symbols := List.concat symbol_list in
  rbind (construct FileID FileID_init) (fun fsc_header =>
  Ok (fsc_header ++ infoblocks ++ symbols))).

(* ------------------------------------------------------------------ *)
(** * Reading a finished record back *)

(** The view reached from [v] by a path of field names. *)
Fixpoint locate (v : view) (path : list string) : view :=
  match path with
  | [] => v
  | name :: path' => locate (attr v name) path'
  end.

(** The bytes a view covers. *)
Definition view_bytes (v : view) (buf : bytes) : bytes :=
  peek (vbase v) (sizeof (vtype v)) buf.

(** The bytes of the field [path] of an object of class [cls] whose bytes
    are [buf]. *)
Definition field_bytes (cls : ctype) (path : list string) (buf : bytes)
  : bytes :=
  view_bytes (locate (View cls 0) path) buf.

(** The integer field [name] of slot [i] of the array field [path]. *)
Definition slot_value (cls : ctype) (path : list string) (i : nat)
    (name : string) (buf : bytes) : Z :=
  le_value (view_bytes (attr (item (locate (View cls 0) path) i) name) buf).

(** The same field read as an unsigned little-endian integer. *)
Definition field_value (cls : ctype) (path : list string) (buf : bytes) : Z :=
  le_value (field_bytes cls path buf).

(** Walking a byte sequence by the self-declared lengths of its records:
    each record starts with its own length on four bytes. *)
Fixpoint split_records (fuel : nat) (buf : bytes) : option (list bytes) :=
  match buf with
  | [] => Some []
  | _ :: _ =>
      match fuel with
      | O => None
      | S fuel' =>
          let len := Z.to_nat (le_value (firstn 4 buf)) in
          if ((4 <=? len) && (len <=? List.length buf))%nat then
            option_map (cons (firstn len buf))
                       (split_records fuel' (skipn len buf))
          else None
      end
  end.

(* ------------------------------------------------------------------ *)
(** * Byte images of the records

    What each record looks like once built, field after field; the
    constructors are proved to produce exactly these. *)

(** A [c_char * n] field of a fresh object after [data] was assigned. *)
Definition char_array_image (n : nat) (data : bytes) : bytes :=
  memcpy data
    (if (strlen data <? n)%nat then S (strlen data) else strlen data)
    0 (zeros n).

Definition CSTUFF_image (len type eflags : Z) : bytes :=
  le_bytes 4 len ++ [type] ++ [eflags] ++ [0] ++ [224] ++ [224] ++ [0]
  ++ le_bytes 2 0 ++ le_bytes 2 256 ++ le_bytes 2 0 ++ le_bytes 2 0
  ++ le_bytes 2 1 ++ c_float_bytes float_zero ++ le_bytes 4 0.

Definition SYMDEF_image (name : bytes) (hi_x hi_y : float64) : bytes :=
  CSTUFF_image 88 ET_SYMDEF 0
  ++ zeros 12
  ++ c_float_bytes hi_x ++ c_float_bytes hi_y ++ zeros 4
  ++ le_bytes 4 0
  ++ char_array_image 32 name.

Definition Marker_image (m_type : Z) : bytes := le_bytes 4 5 ++ [m_type].

Definition PICTR_image (eflags : Z) (file : bytes) (rwid rhgt : float64)
  : bytes :=
  CSTUFF_image 511 ET_XP eflags
  ++ le_bytes 2 XPID_PICTR ++ [XT_PICTR]
  ++ le_bytes 4 PICTR_VERSION ++ le_bytes 4 13 ++ le_bytes 4 IMGX_ALPHA
  ++ le_bytes 4 0 ++ le_bytes 4 0
  ++ zeros 8 ++ zeros 4
  ++ c_float_bytes rwid ++ c_float_bytes rhgt
  ++ le_bytes 4 0 ++ le_bytes 4 0
  ++ zeros (4 * 12) ++ zeros (32 * 4)
  ++ char_array_image 256 file.

Definition SYMINFO_image (flags gflags : Z) : bytes :=
  CSTUFF_image 406 ET_XP 0
  ++ le_bytes 2 XPID_SYMINFO ++ [XT_SYMINFO]
  ++ le_bytes 2 SYMINFO_VERSION
  ++ le_bytes 4 flags ++ le_bytes 4 0
  ++ zeros 4 ++ zeros 4 ++ le_bytes 4 0
  ++ c_float_bytes float_one ++ c_float_bytes float_one
  ++ c_float_bytes float_one ++ c_float_bytes float_one
  ++ zeros 4 ++ zeros 4 ++ zeros 4
  ++ zeros 16
  ++ le_bytes 4 gflags
  ++ zeros 49 ++ zeros 64 ++ zeros 128 ++ zeros 64.

Definition SimpleSymbol_image (name file : bytes) (x y : float64)
    (isGroup : bool) : bytes :=
  SYMDEF_image name (float_div x float_40) (float_div y float_40)
  ++ Marker_image 0
  ++ PICTR_image 0 file (float_div x float_40) (float_div y float_40)
  ++ SYMINFO_image (if isGroup then SF_GROUPED else 0)
                   (if isGroup then SGF_RANDOM else 0)
  ++ Marker_image 1.

Definition VaricolorSymbol_image (name file1 file2 : bytes)
    (x1 y1 x2 y2 : float64) (isGroup : bool) : bytes :=
  SYMDEF_image name (float_div x1 float_40) (float_div y1 float_40)
  ++ Marker_image 0
  ++ PICTR_image 0 file1 (float_div x1 float_40) (float_div y1 float_40)
  ++ PICTR_image EF_CSREF file2 (float_div x2 float_40) (float_div y2 float_40)
  ++ SYMINFO_image
       (if isGroup then Z.lor SF_VARICOLOR SF_GROUPED else SF_VARICOLOR)
       (if isGroup then Z.lor SGF_VARICOLOR SGF_RANDOM else 0)
  ++ Marker_image 1.

(** The outcome of [SimpleSymbol(name, file, isGroup)], step by step: the
    name is stored first, the dimensions are looked up and converted next,
    the path is stored last. *)
Definition SimpleSymbol_outcome (fs : filesystem) (name file : string)
    (isGroup : bool) : result bytes :=
  if (32 <? strlen (encode_utf8 name))%nat then Raise ValueError else
  rbind (png_dimensions fs file) (fun xy =>
  rbind (py_float (fst xy)) (fun x =>
  rbind (py_float (snd xy)) (fun y =>
  if (256 <? strlen (encode_utf8 file))%nat then Raise ValueError else
  Ok (SimpleSymbol_image (encode_utf8 name) (encode_utf8 file) x y isGroup)))).

(** The outcome of [VaricolorSymbol(name, file1, file2, isGroup)]. *)
Definition VaricolorSymbol_outcome (fs : filesystem)
    (name file1 file2 : string) (isGroup : bool) : result bytes :=
  if (32 <? strlen (encode_utf8 name))%nat then Raise ValueError else
  rbind (png_dimensions fs file1) (fun xy1 =>
  rbind (py_float (fst xy1)) (fun x1 =>
  rbind (py_float (snd xy1)) (fun y1 =>
  if (256 <? strlen (encode_utf8 file1))%nat then Raise ValueError else
  if (256 <? strlen (encode_utf8 file2))%nat then Raise ValueError else
  rbind (png_dimensions fs file2) (fun xy2 =>
  rbind (py_float (fst xy2)) (fun x2 =>
  rbind (py_float (snd xy2)) (fun y2 =>
  Ok (VaricolorSymbol_image (encode_utf8 name) (encode_utf8 file1)
        (encode_utf8 file2) x1 y1 x2 y2 isGroup))))))).

(** A record whose length field, read back, is its own size. *)
Definition length_field_ok (cls : ctype) (path : list string)
    (record : bytes) : Prop :=
  field_value cls path record = Z.of_nat (List.length record)
  /\ List.length record = sizeof cls.

(** The four bytes of [float(n)/40] in a [c_float] field. *)
Definition scaled_bytes (n : Z) : bytes :=
  c_float_bytes (float_div (float_of_int n) (float_of_int 40)).

(** What holds of one picture record [pic] of a symbol of
    class [cls] whose bytes are [b], for an image of [w] by [h] pixels. *)
Definition picture_sizes (cls : ctype) (pic : string) (b : bytes) (w h : Z)
  : Prop :=
  field_value cls [pic; "bmwid"] b = 0
  /\ field_value cls [pic; "bmhgt"] b = 0
  /\ (forall i, (i < RESINFO_COUNT)%nat ->
        slot_value cls [pic; "ResInfo"] i "Present" b = 0
        /\ slot_value cls [pic; "ResInfo"] i "width" b = 0
        /\ slot_value cls [pic; "ResInfo"] i "height" b = 0)
  /\ Z.land (field_value cls [pic; "Flags"] b) PF_RESINFO_VALID
     = PF_RESINFO_VALID
  /\ field_bytes cls [pic; "RWid"] b = scaled_bytes w
  /\ field_bytes cls [pic; "RHgt"] b = scaled_bytes h.

(** No character of [s] is NUL. *)
Definition nul_free (s : string) : bool :=
  forallb (fun c => negb (c =? 0)) (codes s).

(* ------------------------------------------------------------------ *)
(** * The groups, read off the listing *)

(** The first loop keeps the PNG files whose name is ASCII. *)
Definition kept (filename : string) : bool :=
  str_endswith ".png" (lower filename)
  && check_filename_compatibility filename.

(** The name under which the first loop files a kept file. *)
Definition base_symbol_name (filename : string) : string :=
  match variant_pattern filename with
  | Some base => base
  | None => fst (splitext filename)
  end.

Definition is_variant (filename : string) : bool :=
  match variant_pattern filename with
  | Some _ => true
  | None => false
  end.

(** The key of a file in [groups], if it has one. *)
Definition group_key (filename : string) : option string :=
  if kept filename then Some (base_symbol_name filename) else None.

(** The key of a file in [subgroup_variant] ([variant = true]) or in
    [subgroup_normal] ([variant = false]), if it has one. *)
Definition subgroup_key (variant : bool) (filename : string) : option string :=
  if kept filename && Bool.eqb (is_variant filename) variant
  then subgroup_pattern (base_symbol_name filename)
  else None.

Definition has_key (key_of : string -> option string) (k : string)
    (filename : string) : bool :=
  match key_of filename with
  | Some k' => String.eqb k' k
  | None => false
  end.

(** The paths of the files of [listing] whose key is [k], in the order of
    the listing. *)
Definition members (key_of : string -> option string)
    (directory_path : string) (listing : list string) (k : string)
  : list string :=
  map (path_join directory_path) (filter (has_key key_of k) listing).

(** A dictionary filled the way the first loop fills its three. *)
Definition collect (key_of : string -> option string)
    (directory_path : string) (listing : list string) (d : dict) : dict :=
  fold_left
    (fun d filename =>
       match key_of filename with
       | Some k => dict_append k (path_join directory_path filename) d
       | None => d
       end)
    listing d.

(** [subgroup_variant] or [subgroup_normal]. *)
Definition subgroup_of (variant : bool) (g : grouping) : dict :=
  if variant then subgroup_variant g else subgroup_normal g.

Definition dict_values (k : string) (d : dict) : list string :=
  match dict_get k d with
  | Some vs => vs
  | None => []
  end.

Definition key_is (k : string) (kv : string * list string) : bool :=
  String.eqb (fst kv) k.

Definition request_name (r : request) : string :=
  match r with
  | VariantPair n _ _ _ => n
  | SingleSymbol n _ _ => n
  | Unhandled n _ => n
  end.

Definition is_symbol (r : request) : bool :=
  match r with
  | Unhandled _ _ => false
  | _ => true
  end.

(** The symbols a run emits under the name [key]. *)
Definition symbols_for (key : string) (rs : list request) : list request :=
  filter (fun r => is_symbol r && String.eqb (request_name r) key) rs.

(** The grouped flag, read off the listing: the name has a numbered prefix
    and the subgroup of that prefix has more than [n] members. *)
Definition grouped (variant : bool) (n : nat) (directory_path : string)
    (listing : list string) (symbol_name : string) : bool :=
  match subgroup_pattern symbol_name with
  | Some prefix =>
      (n <? List.length
              (members (subgroup_key variant) directory_path listing prefix))%nat
  | None => false
  end.

(** No character of [s] is a newline. *)
Fixpoint no_newline (s : string) : bool :=
  match s with
  | EmptyString => true
  | String c s' => negb (is_newline c) && no_newline s'
  end.

(** Every character of [s] is white space. *)
Fixpoint all_space (s : string) : bool :=
  match s with
  | EmptyString => true
  | String c s' => is_space c && all_space s'
  end.

(** The last character of [s] is white space. *)
Fixpoint ends_with_space (s : string) : bool :=
  match s with
  | EmptyString => false
  | String c EmptyString => is_space c
  | String _ s' => ends_with_space s'
  end.

(* ------------------------------------------------------------------ *)
(** * A small directory, for running the definitions *)

(** The first 24 bytes of a PNG file of [w] by [h] pixels. *)
Definition png_header (w h : Z) : bytes :=
  PNG_MAGIC ++ [0; 0; 0; 13] ++ IHDR ++ rev (le_bytes 4 w) ++ rev (le_bytes 4 h).

Definition example_fs : filesystem := fun p =>
  if String.eqb p "d/Tower 01.png" then Some (png_header 80 120 ++ [8; 6; 0; 0; 0])
  else if String.eqb p "d/Tower vari_01.png" then Some (png_header 541 200 ++ [8; 6])
  else if String.eqb p "d/Tower vari_02.png" then Some (png_header 64 32 ++ [8; 6])
  else if String.eqb p "d/broken.png" then Some [71; 73; 70; 56]
  else None.

Definition unwrap (r : result bytes) : bytes :=
  match r with
  | Ok b => b
  | Raise _ => []
  end.

Definition example_simple : bytes :=
  Eval vm_compute in
    unwrap (SimpleSymbol_bytes example_fs "Tower 01" "d/Tower 01.png" true).

Definition example_varicolor : bytes :=
  Eval vm_compute in
    unwrap (VaricolorSymbol_bytes example_fs "Tower" "d/Tower vari_01.png"
              "d/Tower vari_02.png" true).

Definition long_name : string := "Abcdefghijklmnopqrstuvwxyz 123456".

Definition broken_listing : string -> list string :=
  fun _ => ["broken.png"; "Tower 01.png"].

Definition sound_listing : string -> list string :=
  fun _ => ["Tower 01.png"].

Definition example_catalog : bytes :=
  Eval vm_compute in
    unwrap (catalog_file example_fs sound_listing ["d"] [1; 2; 3]).

Definition pair_listing : list string :=
  ["Tower 01.png"; "Tower vari_02.png"; "Tower 02.png"; "Tower vari_01.png"].

Definition crowded_listing : list string :=
  ["Tower vari_01.png"; "Tower vari_02.png"; "Tower.png"].

(** The example directory with [Tower 02.png] in place as well, so that
    every picture of [pair_listing] can be read. *)
Definition full_fs : filesystem := fun p =>
  if String.eqb p "d/Tower 02.png" then Some (png_header 96 64 ++ [8; 6])
  else example_fs p.

(* ------------------------------------------------------------------ *)
(** * Reading text fields, and well-formed files *)

(** The getter of a [c_char * n] field (ctypes [s_get]): the bytes of the
    field before its first NUL. *)
Definition s_get (field : bytes) : bytes := firstn (strlen field) field.

(** [obj.path] for a [c_char] array field of an object whose bytes are
    [buf]. *)
Definition field_string (cls : ctype) (path : list string) (buf : bytes)
  : bytes :=
  s_get (field_bytes cls path buf).

(** The C string a [bytes] value holds: what precedes its first NUL. *)
Definition c_str (data : bytes) : bytes := firstn (strlen data) data.

Definition is_byte (b : Z) : bool := (0 <=? b) && (b <? 256).

(** The start of a PNG file: signature, four bytes of chunk length, the
    chunk type, width and height. *)
Definition png_start (chunk_length : bytes) (w h : Z) : bytes :=
  PNG_MAGIC ++ chunk_length ++ IHDR
  ++ rev (le_bytes 4 w) ++ rev (le_bytes 4 h).

(** The lookup of [file] gives [(None, None)]: there is no such file, or
    its first bytes are not a PNG signature followed by an IHDR chunk. *)
Definition unreadable (fs : filesystem) (file : string) : Prop :=
  fs file = None
  \/ exists content,
       fs file = Some content
       /\ startswith PNG_MAGIC (firstn 24 content)
          && bytes_eqb (slice 12 16 (firstn 24 content)) IHDR = false.

(** The name or path [s] fits a [c_char * n] field. *)
Definition fits (n : nat) (s : string) : Prop :=
  (strlen (encode_utf8 s) <= n)%nat.

(** The lookup of [file] gives two integers. *)
Definition readable (fs : filesystem) (file : string) : Prop :=
  exists w h, png_dimensions fs file = Ok (PyInt w, PyInt h).

(** A file cut short inside its header, and a path too long for its field. *)
Definition cut_fs : filesystem := fun p =>
  if String.eqb p "cut.png"
  then Some (PNG_MAGIC ++ [0; 0; 0; 13] ++ IHDR ++ [0; 0; 2])
  else None.

Definition long_path : string :=
  "0123456789012345678901234567890123456789012345678901234567890123"
  ++ "0123456789012345678901234567890123456789012345678901234567890123"
  ++ "0123456789012345678901234567890123456789012345678901234567890123"
  ++ "0123456789012345678901234567890123456789012345678901234567890123"
  ++ ".png".

(* ------------------------------------------------------------------ *)
(** * Statements about the records of a symbol *)

(** The entity header of the record [rec] of a symbol of class [cls]
    holds the values [CSTUFF.__init__] gives it. *)
Definition header_defaults (cls : ctype) (rec : string) (b : bytes) : Prop :=
  field_value cls [rec; "CStuff"; "EFlags2"] b = 0
  /\ field_value cls [rec; "CStuff"; "EColor"] b = 224
  /\ field_value cls [rec; "CStuff"; "EColor2"] b = 224
  /\ field_value cls [rec; "CStuff"; "EThick"] b = 0
  /\ field_value cls [rec; "CStuff"; "WPlane"] b = 0
  /\ field_value cls [rec; "CStuff"; "ELayer"] b = 256
  /\ field_value cls [rec; "CStuff"; "ELStyle"] b = 0
  /\ field_value cls [rec; "CStuff"; "GroupID"] b = 0
  /\ field_value cls [rec; "CStuff"; "EFStyle"] b = 1
  /\ field_bytes cls [rec; "CStuff"; "LWidth"] b = [0; 0; 0; 0]
  /\ field_value cls [rec; "CStuff"; "Tag"] b = 0.

(** The picture record [pic] holds the constants of [PICTR.__init__], and
    nothing in the fields no constructor assigns. *)
Definition picture_constants (cls : ctype) (pic : string) (b : bytes) : Prop :=
  field_value cls [pic; "XType"] b = XT_PICTR
  /\ field_value cls [pic; "Version"] b = PICTR_VERSION
  /\ field_value cls [pic; "Flags"] b
     = Z.lor (Z.lor PF_NO_OUTLINE PF_RESINFO_ONLY1) PF_RESINFO_VALID
  /\ field_value cls [pic; "Mode"] b = IMGX_ALPHA
  /\ field_bytes cls [pic; "Cen"] b = zeros 8
  /\ field_bytes cls [pic; "Bearing"] b = zeros 4
  /\ field_value cls [pic; "TColor"] b = 0
  /\ field_value cls [pic; "Alpha"] b = 0
  /\ field_bytes cls [pic; "Reserve"] b = zeros 128.

(** The symbol-info record holds the constants of [SYMINFO.__init__], unit
    scales, and nothing in the fields no constructor assigns. *)
Definition symbol_info_constants (cls : ctype) (b : bytes) : Prop :=
  field_value cls ["symbol_info"; "XType"] b = XT_SYMINFO
  /\ field_value cls ["symbol_info"; "Version"] b = SYMINFO_VERSION
  /\ field_value cls ["symbol_info"; "Flags2"] b = 0
  /\ field_value cls ["symbol_info"; "TFlags"] b = 0
  /\ field_bytes cls ["symbol_info"; "ScaleAX"] b = c_float_bytes float_one
  /\ field_bytes cls ["symbol_info"; "ScaleBX"] b = c_float_bytes float_one
  /\ field_bytes cls ["symbol_info"; "ScaleAY"] b = c_float_bytes float_one
  /\ field_bytes cls ["symbol_info"; "ScaleBY"] b = c_float_bytes float_one
  /\ field_bytes cls ["symbol_info"; "RotA"] b = zeros 4
  /\ field_bytes cls ["symbol_info"; "RotB"] b = zeros 4
  /\ field_bytes cls ["symbol_info"; "ShearA"] b = zeros 4
  /\ field_bytes cls ["symbol_info"; "ShearB"] b = zeros 4
  /\ field_string cls ["symbol_info"; "Sheet"] b = []
  /\ field_string cls ["symbol_info"; "DrawToolName"] b = [].

(** The number of bytes a request adds to the output of a directory. *)
Definition request_size (r : request) : nat :=
  match r with
  | VariantPair _ _ _ _ => sizeof VaricolorSymbol
  | SingleSymbol _ _ _ => sizeof SimpleSymbol
  | Unhandled _ _ => 0
  end.

Definition is_single (r : request) : bool :=
  match r with
  | SingleSymbol _ _ _ => true
  | _ => false
  end.

Definition is_pair (r : request) : bool :=
  match r with
  | VariantPair _ _ _ _ => true
  | _ => false
  end.

(* ------------------------------------------------------------------ *)
(** * Statements about the two loops *)

(** A PNG file the first loop counts as skipped. *)
Definition skipped (filename : string) : bool :=
  str_endswith ".png" (lower filename)
  && negb (check_filename_compatibility filename).

(** What [dict_get] gives for a list of members: no entry when there is
    none. *)
Definition entry (vs : list string) : option (list string) :=
  match vs with
  | [] => None
  | _ => Some vs
  end.

(** What the second loop did with the group [n], read off a request. *)
Definition request_sound (directory_path : string) (listing : list string)
    (r : request) : Prop :=
  match r with
  | SingleSymbol n p g =>
      members group_key directory_path listing n = [p]
      /\ contains "vari_" p = false
      /\ g = grouped false 1 directory_path listing n
  | VariantPair n p1 p2 g =>
      (members group_key directory_path listing n = [p1; p2]
       \/ members group_key directory_path listing n = [p2; p1])
      /\ contains "vari_" p1 = true
      /\ contains "vari_" p2 = true
      /\ String.leb p1 p2 = true
      /\ g = grouped true 2 directory_path listing n
  | Unhandled n files =>
      members group_key directory_path listing n = files /\ files <> []
  end.

Definition junk_listing : list string := ["notes.txt"; "Tower.gif"; "png"].





(** [process_symbol_images] succeeds on the directory [d] with the bytes
    [p]. *)
Definition directory_gives (fs : filesystem) (listdir : string -> list string)
    (d : string) (p : bytes) : Prop :=
  process_symbol_images fs listdir d = Ok p.

(** The request [r] is served with the symbols [bs] (one, or none for an
    unhandled group). *)
Definition request_gives (fs : filesystem) (r : request) (bs : list bytes)
  : Prop :=
  emit fs r = Ok bs.

(** Every character of [s] is a decimal digit. *)
Fixpoint all_digits (s : string) : bool :=
  match s with
  | EmptyString => true
  | String c s' => is_digit c && all_digits s'
  end.

(** The last character of [s] is a decimal digit. *)
Fixpoint ends_with_digit (s : string) : bool :=
  match s with
  | EmptyString => false
  | String c EmptyString => is_digit c
  | String _ s' => ends_with_digit s'
  end.

(** The character [c] does not occur in [s]. *)
Fixpoint no_char (c : ascii) (s : string) : bool :=
  match s with
  | EmptyString => true
  | String a s' => negb (Ascii.eqb a c) && no_char c s'
  end.

(** Every character of [s] is a dot. *)
Fixpoint all_dots (s : string) : bool :=
  match s with
  | EmptyString => true
  | String a s' => Ascii.eqb a "." && all_dots s'
  end.

(* ------------------------------------------------------------------ *)
(** * The main block of FSC_create_symbol_catalog.py

    [glob] is [glob.glob] and [isdir] is [os.path.isdir]; the info blocks
    are taken as given, as in [catalog_file]. *)








(* ------------------------------------------------------------------ *)
(** * What a symbol takes from a picture *)

(** Two file systems agree on the existence of [file] and on its first 24
    bytes. *)
Definition same_header (fs fs' : filesystem) (file : string) : Prop :=
  option_map (firstn 24) (fs file) = option_map (firstn 24) (fs' file).

(** The example directory with every picture repainted: same headers,
    other pixels. *)
Definition repainted_fs : filesystem := fun p =>
  option_map (fun content => firstn 24 content ++ [7; 7; 7]) (example_fs p).

(* ================================================================== *)
(** * Properties *)

(** ** Running the constructors

    The constructors are run on a zeroed buffer whose bytes stay explicit;
    what depends on the arguments stays folded: the bytes copied from the
    name and the paths, and the bytes of the floats. *)

Ltac run := lazy -[Nat.ltb strlen encode_utf8 copied_byte byte_at
                   bits_of_binary32 to_binary32
                   float_div float_40 float_one float_zero float_of_int].

Lemma s_set_too_long addr n data :
  (n <? strlen data)%nat = true -> s_set addr n data = raise ValueError.
Proof. intros H. unfold s_set. rewrite H. reflexivity. Qed.

Lemma s_set_fits addr n data :
  (n <? strlen data)%nat = false ->
  s_set addr n data
  = (old <- load addr n ;;
     store addr
       (memcpy data
          (if (strlen data <? n)%nat then S (strlen data) else strlen data)
          0 old)).
Proof. intros H. unfold s_set. rewrite H. reflexivity. Qed.

Lemma bind_lift_ok {A B} (a : A) (k : A -> M B) :
  bind (lift (Ok a)) k = fun buf => k a buf.
Proof. reflexivity. Qed.

Lemma SimpleSymbol_bytes_outcome fs name file isGroup :
  SimpleSymbol_bytes fs name file isGroup
  = SimpleSymbol_outcome fs name file isGroup.
Proof.
  unfold SimpleSymbol_outcome, SimpleSymbol_bytes, construct,
    SimpleSymbol_init, scaled.
  cbv zeta.
  change (setattr (attr (View SimpleSymbol 0) "symbol_definition") "SName"
            (PyBytes (encode_utf8 name)))
    with (s_set 56 32 (encode_utf8 name)).
  change (setattr (attr (View SimpleSymbol 0) "picture_info") "BMPName"
            (PyBytes (encode_utf8 file)))
    with (s_set 348 256 (encode_utf8 file)).
  destruct (32 <? strlen (encode_utf8 name))%nat eqn:E1.
  { rewrite (s_set_too_long _ _ _ E1). reflexivity. }
  rewrite (s_set_fits _ _ _ E1).
  destruct (png_dimensions fs file) as [[x y]|e]; [|reflexivity].
  rewrite (bind_lift_ok (x, y)). cbv beta iota. cbn [rbind fst snd].
  destruct (py_float x) as [fx|e]; [|reflexivity].
  destruct (py_float y) as [fy|e]; [|reflexivity].
  cbn [rbind].
  destruct (256 <? strlen (encode_utf8 file))%nat eqn:E2.
  { rewrite (s_set_too_long _ _ _ E2). reflexivity. }
  rewrite (s_set_fits _ _ _ E2).
  destruct isGroup; run; reflexivity.
Qed.

Lemma VaricolorSymbol_bytes_outcome fs name file1 file2 isGroup :
  VaricolorSymbol_bytes fs name file1 file2 isGroup
  = VaricolorSymbol_outcome fs name file1 file2 isGroup.
Proof.
  unfold VaricolorSymbol_outcome, VaricolorSymbol_bytes, construct,
    VaricolorSymbol_init, scaled.
  cbv zeta.
  change (setattr (attr (View VaricolorSymbol 0) "symbol_definition") "SName"
            (PyBytes (encode_utf8 name)))
    with (s_set 56 32 (encode_utf8 name)).
  change (setattr (attr (View VaricolorSymbol 0) "picture1_info") "BMPName"
            (PyBytes (encode_utf8 file1)))
    with (s_set 348 256 (encode_utf8 file1)).
  change (setattr (attr (View VaricolorSymbol 0) "picture2_info") "BMPName"
            (PyBytes (encode_utf8 file2)))
    with (s_set 859 256 (encode_utf8 file2)).
  destruct (32 <? strlen (encode_utf8 name))%nat eqn:E1.
  { rewrite (s_set_too_long _ _ _ E1). reflexivity. }
  rewrite (s_set_fits _ _ _ E1).
  destruct (png_dimensions fs file1) as [[x1 y1]|e] eqn:D1.
  2:{ reflexivity. }
  rewrite (bind_lift_ok (x1, y1)). cbv beta iota. cbn [rbind fst snd].
  destruct (py_float x1) as [fx1|e]; [|reflexivity].
  destruct (py_float y1) as [fy1|e]; [|reflexivity].
  cbn [rbind].
  destruct (256 <? strlen (encode_utf8 file1))%nat eqn:E2.
  { rewrite (s_set_too_long 348 _ _ E2). reflexivity. }
  rewrite (s_set_fits 348 _ _ E2).
  destruct (256 <? strlen (encode_utf8 file2))%nat eqn:E3.
  { rewrite (s_set_too_long 859 _ _ E3). reflexivity. }
  rewrite (s_set_fits 859 _ _ E3).
  destruct (png_dimensions fs file2) as [[x2 y2]|e] eqn:D2.
  2:{ reflexivity. }
  rewrite (bind_lift_ok (x2, y2)). cbv beta iota. cbn [rbind fst snd].
  destruct (py_float x2) as [fx2|e]; [|reflexivity].
  destruct (py_float y2) as [fy2|e]; [|reflexivity].
  cbn [rbind].
  destruct isGroup; run; reflexivity.
Qed.

(** [png_dimensions] returns a pair of integers, or a pair of [None]s, or
    lets [struct.error] through. *)
Lemma png_dimensions_cases fs p :
  png_dimensions fs p = Ok (PyNone, PyNone)
  \/ (exists w h, png_dimensions fs p = Ok (PyInt w, PyInt h))
  \/ png_dimensions fs p = Raise StructError.
Proof.
  unfold png_dimensions, read_file.
  destruct (fs p) as [content|]; cbn [rbind try_except]; [|now left].
  destruct (startswith PNG_MAGIC (firstn 24 content)
            && bytes_eqb (slice 12 16 (firstn 24 content)) IHDR);
    cbn [try_except]; [|now left].
  unfold unpack_LL.
  destruct (List.length (slice 16 24 (firstn 24 content)) =? 8)%nat;
    cbn [try_except].
  - right; left. eauto.
  - now right; right.
Qed.

Lemma SimpleSymbol_built fs name file isGroup b :
  SimpleSymbol_bytes fs name file isGroup = Ok b ->
  exists w h,
    png_dimensions fs file = Ok (PyInt w, PyInt h)
    /\ b = SimpleSymbol_image (encode_utf8 name) (encode_utf8 file)
             (float_of_int w) (float_of_int h) isGroup.
Proof.
  rewrite SimpleSymbol_bytes_outcome. unfold SimpleSymbol_outcome.
  destruct (32 <? strlen (encode_utf8 name))%nat; [discriminate|].
  destruct (png_dimensions_cases fs file) as [D|[(w & h & D)|D]];
    rewrite D; cbn [rbind fst snd py_float]; try discriminate.
  destruct (256 <? strlen (encode_utf8 file))%nat; [discriminate|].
  intros [= <-]. eauto.
Qed.

Lemma VaricolorSymbol_built fs name file1 file2 isGroup b :
  VaricolorSymbol_bytes fs name file1 file2 isGroup = Ok b ->
  exists w1 h1 w2 h2,
    png_dimensions fs file1 = Ok (PyInt w1, PyInt h1)
    /\ png_dimensions fs file2 = Ok (PyInt w2, PyInt h2)
    /\ b = VaricolorSymbol_image (encode_utf8 name) (encode_utf8 file1)
             (encode_utf8 file2) (float_of_int w1) (float_of_int h1)
             (float_of_int w2) (float_of_int h2) isGroup.
Proof.
  rewrite VaricolorSymbol_bytes_outcome. unfold VaricolorSymbol_outcome.
  destruct (32 <? strlen (encode_utf8 name))%nat; [discriminate|].
  destruct (png_dimensions_cases fs file1) as [D|[(w1 & h1 & D)|D]];
    rewrite D; cbn [rbind fst snd py_float]; try discriminate.
  destruct (256 <? strlen (encode_utf8 file1))%nat; [discriminate|].
  destruct (256 <? strlen (encode_utf8 file2))%nat; [discriminate|].
  destruct (png_dimensions_cases fs file2) as [D2|[(w2 & h2 & D2)|D2]];
    rewrite D2; cbn [rbind fst snd py_float]; try discriminate.
  intros [= <-]. exists w1, h1, w2, h2. auto.
Qed.

Lemma le_value_le_bytes n v :
  le_value (le_bytes n v) = v mod 256 ^ Z.of_nat n.
Proof.
  revert v. induction n as [|n IH]; intros v.
  - cbn [le_bytes le_value]. now rewrite Z.mod_1_r.
  - cbn [le_bytes le_value]. rewrite IH, Nat2Z.inj_succ, Z.pow_succ_r by lia.
    rewrite Z.rem_mul_r by lia. reflexivity.
Qed.

(** The constructors do build a symbol when the name and the paths fit
    their fields and the images have a PNG header. *)
Lemma SimpleSymbol_succeeds fs name file isGroup w h :
  (strlen (encode_utf8 name) <= 32)%nat ->
  (strlen (encode_utf8 file) <= 256)%nat ->
  png_dimensions fs file = Ok (PyInt w, PyInt h) ->
  SimpleSymbol_bytes fs name file isGroup
  = Ok (SimpleSymbol_image (encode_utf8 name) (encode_utf8 file)
          (float_of_int w) (float_of_int h) isGroup).
Proof.
  intros Hn Hf D. rewrite SimpleSymbol_bytes_outcome.
  unfold SimpleSymbol_outcome.
  apply Nat.ltb_ge in Hn, Hf. now rewrite Hn, D, Hf.
Qed.

Lemma VaricolorSymbol_succeeds fs name file1 file2 isGroup w1 h1 w2 h2 :
  (strlen (encode_utf8 name) <= 32)%nat ->
  (strlen (encode_utf8 file1) <= 256)%nat ->
  (strlen (encode_utf8 file2) <= 256)%nat ->
  png_dimensions fs file1 = Ok (PyInt w1, PyInt h1) ->
  png_dimensions fs file2 = Ok (PyInt w2, PyInt h2) ->
  VaricolorSymbol_bytes fs name file1 file2 isGroup
  = Ok (VaricolorSymbol_image (encode_utf8 name) (encode_utf8 file1)
          (encode_utf8 file2) (float_of_int w1) (float_of_int h1)
          (float_of_int w2) (float_of_int h2) isGroup).
Proof.
  intros Hn Hf1 Hf2 D1 D2. rewrite VaricolorSymbol_bytes_outcome.
  unfold VaricolorSymbol_outcome.
  apply Nat.ltb_ge in Hn, Hf1, Hf2. rewrite Hn, D1. cbn [rbind fst snd py_float].
  now rewrite Hf1, Hf2, D2.
Qed.

(** The lookup reads back what a PNG header declares. *)
Lemma png_dimensions_of_header fs p w h rest :
  0 <= w < 2 ^ 32 -> 0 <= h < 2 ^ 32 ->
  fs p = Some (png_header w h ++ rest) ->
  png_dimensions fs p = Ok (PyInt w, PyInt h).
Proof.
  intros Hw Hh Hp. unfold png_dimensions, read_file. rewrite Hp.
  cbn [rbind].
  change (firstn 24 (png_header w h ++ rest)) with (png_header w h).
  change (startswith PNG_MAGIC (png_header w h)) with true.
  change (bytes_eqb (slice 12 16 (png_header w h)) IHDR) with true.
  change (slice 16 24 (png_header w h))
    with (rev (le_bytes 4 w) ++ rev (le_bytes 4 h)).
  cbn [andb]. unfold unpack_LL.
  change (List.length (rev (le_bytes 4 w) ++ rev (le_bytes 4 h)) =? 8)%nat
    with true.
  change (firstn 4 (rev (le_bytes 4 w) ++ rev (le_bytes 4 h)))
    with (rev (le_bytes 4 w)).
  change (skipn 4 (rev (le_bytes 4 w) ++ rev (le_bytes 4 h)))
    with (rev (le_bytes 4 h)).
  cbn [try_except]. unfold be_value.
  rewrite !rev_involutive, !le_value_le_bytes.
  change (256 ^ Z.of_nat 4) with (2 ^ 32).
  now rewrite !Z.mod_small by assumption.
Qed.

Ltac fields := repeat split; run; reflexivity.

(* ------------------------------------------------------------------ *)
(** ** Record lengths *)

(** C1. The record-length field of every record that embeds the entity
    header (SYMDEF, PICTR, SYMINFO) and of the two markers is the byte size
    of that record: built on their own, and inside a simple or a varicolor
    symbol, encoding the record and reading its length field back gives
    the number of bytes of the record, which is [sizeof] of its class. *)
Theorem record_length_roundtrip :
  (exists b, construct SYMDEF SYMDEF_init = Ok b
             /\ length_field_ok SYMDEF ["CStuff"; "ERLen"] b)
  /\ (exists b, construct PICTR PICTR_init = Ok b
                /\ length_field_ok PICTR ["CStuff"; "ERLen"] b)
  /\ (exists b, construct SYMINFO SYMINFO_init = Ok b
                /\ length_field_ok SYMINFO ["CStuff"; "ERLen"] b)
  /\ (exists b, construct Marker0 Marker0_init = Ok b
                /\ length_field_ok Marker0 ["ERLen"] b)
  /\ (exists b, construct Marker1 Marker1_init = Ok b
                /\ length_field_ok Marker1 ["ERLen"] b)
  /\ (forall fs name file isGroup b,
        SimpleSymbol_bytes fs name file isGroup = Ok b ->
        length_field_ok SYMDEF ["CStuff"; "ERLen"]
          (field_bytes SimpleSymbol ["symbol_definition"] b)
        /\ length_field_ok Marker0 ["ERLen"]
             (field_bytes SimpleSymbol ["start_marker"] b)
        /\ length_field_ok PICTR ["CStuff"; "ERLen"]
             (field_bytes SimpleSymbol ["picture_info"] b)
        /\ length_field_ok SYMINFO ["CStuff"; "ERLen"]
             (field_bytes SimpleSymbol ["symbol_info"] b)
        /\ length_field_ok Marker1 ["ERLen"]
             (field_bytes SimpleSymbol ["end_marker"] b))
  /\ (forall fs name file1 file2 isGroup b,
        VaricolorSymbol_bytes fs name file1 file2 isGroup = Ok b ->
        length_field_ok SYMDEF ["CStuff"; "ERLen"]
          (field_bytes VaricolorSymbol ["symbol_definition"] b)
        /\ length_field_ok Marker0 ["ERLen"]
             (field_bytes VaricolorSymbol ["start_marker"] b)
        /\ length_field_ok PICTR ["CStuff"; "ERLen"]
             (field_bytes VaricolorSymbol ["picture1_info"] b)
        /\ length_field_ok PICTR ["CStuff"; "ERLen"]
             (field_bytes VaricolorSymbol ["picture2_info"] b)
        /\ length_field_ok SYMINFO ["CStuff"; "ERLen"]
             (field_bytes VaricolorSymbol ["symbol_info"] b)
        /\ length_field_ok Marker1 ["ERLen"]
             (field_bytes VaricolorSymbol ["end_marker"] b)).
Proof.
  repeat apply conj.
  1-5: eexists; split; [vm_compute; reflexivity | split; vm_compute; reflexivity].
  - intros fs name file isGroup b H.
    destruct (SimpleSymbol_built _ _ _ _ _ H) as (w & h & _ & ->).
    unfold length_field_ok. destruct isGroup; fields.
  - intros fs name file1 file2 isGroup b H.
    destruct (VaricolorSymbol_built _ _ _ _ _ _ H)
      as (w1 & h1 & w2 & h2 & _ & _ & ->).
    unfold length_field_ok. destruct isGroup; fields.
Qed.

Lemma record_length_roundtrip_witness :
  SimpleSymbol_bytes example_fs "Tower 01" "d/Tower 01.png" true
  = Ok example_simple
  /\ length_field_ok SYMDEF ["CStuff"; "ERLen"]
       (field_bytes SimpleSymbol ["symbol_definition"] example_simple).
Proof.
  split; [vm_compute; reflexivity|].
  destruct record_length_roundtrip as (_ & _ & _ & _ & _ & H & _).
  apply (H example_fs "Tower 01" "d/Tower 01.png" true example_simple).
  vm_compute; reflexivity.
Defined.

(* ------------------------------------------------------------------ *)
(** ** Layout of a symbol *)

(** C2. The bytes of a simple symbol are its SYMDEF, start marker, PICTR,
    SYMINFO and end marker, in that order and with nothing between them;
    those of a varicolor symbol are the same with two PICTR records.
    Walking the bytes by the self-declared record lengths separates exactly
    these records.  Each marker is five bytes: the length 5 on four bytes,
    then the type code, 0 for the start marker and 1 for the end marker. *)
Theorem symbol_record_sequence :
  (forall fs name file isGroup b,
      SimpleSymbol_bytes fs name file isGroup = Ok b ->
      let part f := field_bytes SimpleSymbol [f] b in
      b = part "symbol_definition" ++ part "start_marker"
          ++ part "picture_info" ++ part "symbol_info" ++ part "end_marker"
      /\ split_records 5 b
         = Some [part "symbol_definition"; part "start_marker";
                 part "picture_info"; part "symbol_info"; part "end_marker"]
      /\ field_value SYMDEF ["CStuff"; "EType"] (part "symbol_definition")
         = ET_SYMDEF
      /\ part "start_marker" = [5; 0; 0; 0; 0]
      /\ field_value PICTR ["CStuff"; "EType"] (part "picture_info") = ET_XP
      /\ field_value PICTR ["XPId"] (part "picture_info") = XPID_PICTR
      /\ field_value SYMINFO ["CStuff"; "EType"] (part "symbol_info") = ET_XP
      /\ field_value SYMINFO ["XPId"] (part "symbol_info") = XPID_SYMINFO
      /\ part "end_marker" = [5; 0; 0; 0; 1])
  /\ (forall fs name file1 file2 isGroup b,
      VaricolorSymbol_bytes fs name file1 file2 isGroup = Ok b ->
      let part f := field_bytes VaricolorSymbol [f] b in
      b = part "symbol_definition" ++ part "start_marker"
          ++ part "picture1_info" ++ part "picture2_info"
          ++ part "symbol_info" ++ part "end_marker"
      /\ split_records 6 b
         = Some [part "symbol_definition"; part "start_marker";
                 part "picture1_info"; part "picture2_info";
                 part "symbol_info"; part "end_marker"]
      /\ field_value SYMDEF ["CStuff"; "EType"] (part "symbol_definition")
         = ET_SYMDEF
      /\ part "start_marker" = [5; 0; 0; 0; 0]
      /\ field_value PICTR ["CStuff"; "EType"] (part "picture1_info") = ET_XP
      /\ field_value PICTR ["XPId"] (part "picture1_info") = XPID_PICTR
      /\ field_value PICTR ["CStuff"; "EType"] (part "picture2_info") = ET_XP
      /\ field_value PICTR ["XPId"] (part "picture2_info") = XPID_PICTR
      /\ field_value SYMINFO ["CStuff"; "EType"] (part "symbol_info") = ET_XP
      /\ field_value SYMINFO ["XPId"] (part "symbol_info") = XPID_SYMINFO
      /\ part "end_marker" = [5; 0; 0; 0; 1]).
Proof.
  split.
  - intros fs name file isGroup b H.
    destruct (SimpleSymbol_built _ _ _ _ _ H) as (w & h & _ & ->).
    cbv zeta. destruct isGroup; fields.
  - intros fs name file1 file2 isGroup b H.
    destruct (VaricolorSymbol_built _ _ _ _ _ _ H)
      as (w1 & h1 & w2 & h2 & _ & _ & ->).
    cbv zeta. destruct isGroup; fields.
Qed.

Lemma symbol_record_sequence_witness :
  VaricolorSymbol_bytes example_fs "Tower" "d/Tower vari_01.png"
    "d/Tower vari_02.png" true = Ok example_varicolor
  /\ field_bytes VaricolorSymbol ["end_marker"] example_varicolor
     = [5; 0; 0; 0; 1].
Proof.
  split; [vm_compute; reflexivity|].
  destruct symbol_record_sequence as (_ & H).
  apply (H example_fs "Tower" "d/Tower vari_01.png" "d/Tower vari_02.png"
           true example_varicolor).
  vm_compute; reflexivity.
Defined.

(* ------------------------------------------------------------------ *)
(** ** Flags of a varicolor symbol *)

(** C5. In every varicolor symbol the symbol-info record has SF_VARICOLOR
    set, and the entity header of the second picture record carries the
    flag byte EF_CSREF that makes it the colour mask (the first picture's
    flag byte is zero).  Built with the grouped flag, the symbol-info also
    has SF_GROUPED set, and both SGF_VARICOLOR and SGF_RANDOM in its group
    flags; built without it, SF_GROUPED is clear and the group flags are
    zero. *)
Theorem varicolor_flags fs name file1 file2 isGroup b :
  VaricolorSymbol_bytes fs name file1 file2 isGroup = Ok b ->
  let flags := field_value VaricolorSymbol ["symbol_info"; "Flags"] b in
  let gflags := field_value VaricolorSymbol ["symbol_info"; "GFlags"] b in
  Z.land flags SF_VARICOLOR = SF_VARICOLOR
  /\ field_value VaricolorSymbol ["picture2_info"; "CStuff"; "EFlags"] b
     = EF_CSREF
  /\ field_value VaricolorSymbol ["picture1_info"; "CStuff"; "EFlags"] b = 0
  /\ (isGroup = true ->
      Z.land flags SF_GROUPED = SF_GROUPED
      /\ Z.land gflags SGF_VARICOLOR = SGF_VARICOLOR
      /\ Z.land gflags SGF_RANDOM = SGF_RANDOM)
  /\ (isGroup = false -> Z.land flags SF_GROUPED = 0 /\ gflags = 0).
Proof.
  intros H.
  destruct (VaricolorSymbol_built _ _ _ _ _ _ H)
    as (w1 & h1 & w2 & h2 & _ & _ & ->).
  cbv zeta. destruct isGroup.
  - repeat apply conj; try discriminate; try intros _; fields.
  - repeat apply conj; try discriminate; try intros _; fields.
Qed.

Lemma varicolor_flags_witness :
  VaricolorSymbol_bytes example_fs "Tower" "d/Tower vari_01.png"
    "d/Tower vari_02.png" true = Ok example_varicolor
  /\ Z.land (field_value VaricolorSymbol ["symbol_info"; "Flags"]
               example_varicolor) SF_VARICOLOR = SF_VARICOLOR
  /\ Z.land (field_value VaricolorSymbol ["symbol_info"; "GFlags"]
               example_varicolor) SGF_RANDOM = SGF_RANDOM.
Proof.
  assert (E : VaricolorSymbol_bytes example_fs "Tower" "d/Tower vari_01.png"
                "d/Tower vari_02.png" true = Ok example_varicolor)
    by (vm_compute; reflexivity).
  destruct (varicolor_flags _ _ _ _ _ _ E) as (V & _ & _ & G & _).
  destruct (G eq_refl) as (_ & _ & R).
  exact (conj E (conj V R)).
Defined.

(* ------------------------------------------------------------------ *)
(** ** Extents *)


(** C6. For a symbol built from an image whose dimension lookup gives
    [(w, h)], the high extent of the symbol definition is
    [(float(w)/40, float(h)/40, 0.0)] and the low extent is the origin; a
    varicolor symbol takes them from its first image, whatever the second
    image is. *)
Theorem extents_from_first_image :
  (forall fs name file isGroup b w h,
      png_dimensions fs file = Ok (PyInt w, PyInt h) ->
      SimpleSymbol_bytes fs name file isGroup = Ok b ->
      let hi c := field_bytes SimpleSymbol ["symbol_definition"; "Hi"; c] b in
      let low c := field_bytes SimpleSymbol ["symbol_definition"; "Low"; c] b in
      hi "x" = scaled_bytes w /\ hi "y" = scaled_bytes h
      /\ hi "z" = [0; 0; 0; 0]
      /\ low "x" = [0; 0; 0; 0] /\ low "y" = [0; 0; 0; 0]
      /\ low "z" = [0; 0; 0; 0])
  /\ (forall fs name file1 file2 isGroup b w h,
      png_dimensions fs file1 = Ok (PyInt w, PyInt h) ->
      VaricolorSymbol_bytes fs name file1 file2 isGroup = Ok b ->
      let hi c :=
        field_bytes VaricolorSymbol ["symbol_definition"; "Hi"; c] b in
      let low c :=
        field_bytes VaricolorSymbol ["symbol_definition"; "Low"; c] b in
      hi "x" = scaled_bytes w /\ hi "y" = scaled_bytes h
      /\ hi "z" = [0; 0; 0; 0]
      /\ low "x" = [0; 0; 0; 0] /\ low "y" = [0; 0; 0; 0]
      /\ low "z" = [0; 0; 0; 0]).
Proof.
  split.
  - intros fs name file isGroup b w h D H.
    destruct (SimpleSymbol_built _ _ _ _ _ H) as (w' & h' & D' & ->).
    rewrite D in D'. injection D' as <- <-.
    cbv zeta. unfold scaled_bytes. destruct isGroup; fields.
  - intros fs name file1 file2 isGroup b w h D H.
    destruct (VaricolorSymbol_built _ _ _ _ _ _ H)
      as (w1 & h1 & w2 & h2 & D1 & _ & ->).
    rewrite D in D1. injection D1 as <- <-.
    cbv zeta. unfold scaled_bytes. destruct isGroup; fields.
Qed.

Lemma extents_from_first_image_witness :
  png_dimensions example_fs "d/Tower vari_01.png" = Ok (PyInt 541, PyInt 200)
  /\ png_dimensions example_fs "d/Tower vari_02.png" = Ok (PyInt 64, PyInt 32)
  /\ field_bytes VaricolorSymbol ["symbol_definition"; "Hi"; "x"]
       example_varicolor = scaled_bytes 541
  /\ field_bytes VaricolorSymbol ["symbol_definition"; "Hi"; "y"]
       example_varicolor = scaled_bytes 200.
Proof.
  assert (D : png_dimensions example_fs "d/Tower vari_01.png"
              = Ok (PyInt 541, PyInt 200)) by (vm_compute; reflexivity).
  assert (E : VaricolorSymbol_bytes example_fs "Tower" "d/Tower vari_01.png"
                "d/Tower vari_02.png" true = Ok example_varicolor)
    by (vm_compute; reflexivity).
  destruct extents_from_first_image as (_ & V).
  destruct (V _ _ _ _ _ _ _ _ D E) as (X & Y & _).
  split; [exact D|]. split; [vm_compute; reflexivity|].
  exact (conj X Y).
Defined.

(** An image of 80 by 120 pixels spans 2.0 by 3.0 drawing units. *)
Example scaled_bytes_80_120 :
  scaled_bytes 80 = [0; 0; 0; 64] /\ scaled_bytes 120 = [0; 0; 64; 64].
Proof. split; vm_compute; reflexivity. Qed.

(* ------------------------------------------------------------------ *)
(** ** Picture records *)


(** C10. In every picture record of a simple or varicolor symbol the
    bitmap width and height are 0 and the four resolution-info slots are
    zero (presence flag, width, height), although the flags say the
    resolution info is valid; the image dimensions appear only in the
    real-world width and height, as [float(pixels)/40]. *)
Theorem picture_sizes_only_real_world :
  (forall fs name file isGroup b w h,
      png_dimensions fs file = Ok (PyInt w, PyInt h) ->
      SimpleSymbol_bytes fs name file isGroup = Ok b ->
      picture_sizes SimpleSymbol "picture_info" b w h)
  /\ (forall fs name file1 file2 isGroup b w1 h1 w2 h2,
      png_dimensions fs file1 = Ok (PyInt w1, PyInt h1) ->
      png_dimensions fs file2 = Ok (PyInt w2, PyInt h2) ->
      VaricolorSymbol_bytes fs name file1 file2 isGroup = Ok b ->
      picture_sizes VaricolorSymbol "picture1_info" b w1 h1
      /\ picture_sizes VaricolorSymbol "picture2_info" b w2 h2).
Proof.
  split.
  - intros fs name file isGroup b w h D H.
    destruct (SimpleSymbol_built _ _ _ _ _ H) as (w' & h' & D' & ->).
    rewrite D in D'. injection D' as <- <-.
    unfold picture_sizes, scaled_bytes, RESINFO_COUNT.
    repeat apply conj;
      try (intros i Hi;
           destruct i as [|[|[|[|i]]]]; [| | | |exfalso; lia]);
      destruct isGroup; fields.
  - intros fs name file1 file2 isGroup b w1 h1 w2 h2 D1 D2 H.
    destruct (VaricolorSymbol_built _ _ _ _ _ _ H)
      as (w1' & h1' & w2' & h2' & D1' & D2' & ->).
    rewrite D1 in D1'. injection D1' as <- <-.
    rewrite D2 in D2'. injection D2' as <- <-.
    unfold picture_sizes, scaled_bytes, RESINFO_COUNT.
    repeat apply conj;
      try (intros i Hi;
           destruct i as [|[|[|[|i]]]]; [| | | |exfalso; lia]);
      destruct isGroup; fields.
Qed.

Lemma picture_sizes_only_real_world_witness :
  png_dimensions example_fs "d/Tower 01.png" = Ok (PyInt 80, PyInt 120)
  /\ picture_sizes SimpleSymbol "picture_info" example_simple 80 120.
Proof.
  assert (D : png_dimensions example_fs "d/Tower 01.png"
              = Ok (PyInt 80, PyInt 120)) by (vm_compute; reflexivity).
  split; [exact D|].
  destruct picture_sizes_only_real_world as (S & _).
  apply (S example_fs "Tower 01" "d/Tower 01.png" true example_simple 80 120 D).
  vm_compute; reflexivity.
Defined.

(* ------------------------------------------------------------------ *)
(** ** Names longer than the name field *)


Lemma encode_utf8_ascii s :
  ascii_encodable s = true -> encode_utf8 s = codes s.
Proof.
  unfold ascii_encodable, encode_utf8.
  induction s as [|c s IH]; cbn [codes forallb flat_map]; [reflexivity|].
  intros H. apply andb_prop in H as [Hc Hs].
  unfold utf8_char at 1. rewrite Hc, (IH Hs). reflexivity.
Qed.

Lemma strlen_nul_free l :
  forallb (fun c => negb (c =? 0)) l = true -> strlen l = List.length l.
Proof.
  induction l as [|c l IH]; cbn [forallb strlen List.length]; [reflexivity|].
  intros H. apply andb_prop in H as [Hc Hl].
  destruct (c =? 0); [discriminate|]. now rewrite IH.
Qed.

Lemma length_codes s : List.length (codes s) = String.length s.
Proof. induction s as [|c s IH]; cbn; congruence. Qed.

Lemma strlen_of_name s :
  ascii_encodable s = true -> nul_free s = true ->
  strlen (encode_utf8 s) = String.length s.
Proof.
  intros Ha Hn. rewrite (encode_utf8_ascii _ Ha).
  rewrite (strlen_nul_free _ Hn). apply length_codes.
Qed.

(** The name field refuses what does not fit: the general form. *)
Lemma name_too_long fs name :
  (32 < strlen (encode_utf8 name))%nat ->
  (forall file isGroup,
      SimpleSymbol_bytes fs name file isGroup = Raise ValueError)
  /\ (forall file1 file2 isGroup,
      VaricolorSymbol_bytes fs name file1 file2 isGroup = Raise ValueError).
Proof.
  intros H. apply Nat.ltb_lt in H. split; intros.
  - rewrite SimpleSymbol_bytes_outcome. unfold SimpleSymbol_outcome.
    now rewrite H.
  - rewrite VaricolorSymbol_bytes_outcome. unfold VaricolorSymbol_outcome.
    now rewrite H.
Qed.

(** C8, as stated, fails: an ASCII name of 33 characters and a readable
    image; the construction does not complete, it raises [ValueError]. *)
Lemma long_name_counterexample :
  ascii_encodable long_name = true
  /\ (32 < List.length (encode_utf8 long_name))%nat
  /\ png_dimensions example_fs "d/Tower 01.png" = Ok (PyInt 80, PyInt 120)
  /\ SimpleSymbol_bytes example_fs long_name "d/Tower 01.png" false
     = Raise ValueError
  /\ ~ (exists b, SimpleSymbol_bytes example_fs long_name "d/Tower 01.png"
                    false = Ok b).
Proof.
  assert (E : SimpleSymbol_bytes example_fs long_name "d/Tower 01.png" false
              = Raise ValueError) by (vm_compute; reflexivity).
  repeat apply conj; try exact E.
  - vm_compute; reflexivity.
  - apply Nat.ltb_lt. vm_compute; reflexivity.
  - vm_compute; reflexivity.
  - intros (b & Hb). rewrite E in Hb. discriminate.
Qed.

(** C8, amended. For every ASCII name longer than 32 bytes and free of NUL
    characters, constructing a simple or a varicolor symbol raises
    [ValueError] when the name is assigned to the 32-byte name field: no
    symbol is built, and the name is neither truncated nor corrupted. *)
Theorem long_name_rejected fs name file file2 isGroup :
  ascii_encodable name = true ->
  nul_free name = true ->
  (32 < String.length name)%nat ->
  SimpleSymbol_bytes fs name file isGroup = Raise ValueError
  /\ VaricolorSymbol_bytes fs name file file2 isGroup = Raise ValueError.
Proof.
  intros Ha Hn Hl. rewrite <- (strlen_of_name _ Ha Hn) in Hl.
  destruct (name_too_long fs name Hl) as (S & V). split; [apply S|apply V].
Qed.

Lemma long_name_rejected_witness :
  SimpleSymbol_bytes example_fs long_name "d/Tower vari_01.png" true
  = Raise ValueError
  /\ VaricolorSymbol_bytes example_fs long_name "d/Tower vari_01.png"
       "d/Tower vari_02.png" true = Raise ValueError.
Proof.
  apply (long_name_rejected example_fs long_name).
  - vm_compute; reflexivity.
  - vm_compute; reflexivity.
  - apply Nat.ltb_lt. vm_compute; reflexivity.
Defined.

Lemma length_memcpy data size i old :
  List.length (memcpy data size i old) = List.length old.
Proof.
  revert i. induction old as [|o old IH]; intros i; cbn; [reflexivity|].
  now rewrite IH.
Qed.

Lemma nth_memcpy data size old : forall i j,
  (j < List.length old)%nat ->
  nth j (memcpy data size i old) 0
  = copied_byte data size (i + j) (nth j old 0).
Proof.
  induction old as [|o old IH]; intros i j Hj; cbn in Hj; [lia|].
  destruct j as [|j]; cbn [memcpy nth].
  - now rewrite Nat.add_0_r.
  - rewrite IH by lia. f_equal. lia.
Qed.

(** A value that fits and holds no NUL is stored as it is, NUL-padded to
    the width of the field. *)
Lemma char_array_image_fits n data :
  strlen data = List.length data -> (List.length data <= n)%nat ->
  char_array_image n data = data ++ zeros (n - List.length data).
Proof.
  intros Hs Hl. unfold char_array_image. rewrite Hs.
  set (size := if (List.length data <? n)%nat
               then S (List.length data) else List.length data).
  assert (Hsize : (List.length data <= size)%nat).
  { subst size. destruct (List.length data <? n)%nat; lia. }
  clearbody size.
  apply (nth_ext _ _ 0 0).
  - rewrite length_memcpy, length_app. unfold zeros.
    rewrite !repeat_length. lia.
  - intros j Hj. rewrite length_memcpy in Hj. unfold zeros in Hj.
    rewrite repeat_length in Hj.
    rewrite nth_memcpy by (unfold zeros; now rewrite repeat_length).
    unfold zeros at 1. rewrite nth_repeat. cbn [Nat.add].
    unfold copied_byte.
    destruct (Nat.lt_ge_cases j (List.length data)) as [Hlt|Hge].
    + rewrite app_nth1 by assumption.
      assert (E : (j <? size)%nat = true) by (apply Nat.ltb_lt; lia).
      now rewrite E.
    + rewrite app_nth2 by assumption. unfold zeros. rewrite nth_repeat.
      destruct (j <? size)%nat; [|reflexivity].
      now apply nth_overflow.
Qed.

(* ------------------------------------------------------------------ *)
(** ** A failed dimension lookup *)

(** When the lookup gives [(None, None)] the constructor raises
    [TypeError] at [float(x)], once the name is stored. *)
Lemma failed_lookup_raises fs name file isGroup :
  (strlen (encode_utf8 name) <= 32)%nat ->
  png_dimensions fs file = Ok (PyNone, PyNone) ->
  SimpleSymbol_bytes fs name file isGroup = Raise TypeError.
Proof.
  intros Hn D. rewrite SimpleSymbol_bytes_outcome. unfold SimpleSymbol_outcome.
  apply Nat.ltb_ge in Hn. rewrite Hn, D. reflexivity.
Qed.


(** C7 on the code: a directory with one file that is not a PNG and one
    sound image.  The lookup of the broken file gives [(None, None)], the
    constructor raises [TypeError], and nothing catches it:
    [process_symbol_images] and the whole catalog fail, the sound symbol
    is lost with the broken one.  Without the broken file the same
    directory yields its symbol. *)
Theorem failed_lookup_aborts_batch :
  png_dimensions example_fs "d/broken.png" = Ok (PyNone, PyNone)
  /\ SimpleSymbol_bytes example_fs "broken" "d/broken.png" false
     = Raise TypeError
  /\ process_symbol_images example_fs broken_listing "d" = Raise TypeError
  /\ catalog_file example_fs broken_listing ["d"] [] = Raise TypeError
  /\ (exists b, process_symbol_images example_fs sound_listing "d" = Ok b
                /\ SimpleSymbol_bytes example_fs "Tower 01" "d/Tower 01.png"
                     false = Ok b).
Proof.
  repeat apply conj; try (vm_compute; reflexivity).
  eexists. split; vm_compute; reflexivity.
Qed.

(* ------------------------------------------------------------------ *)
(** ** The catalog header *)

(** C9. The catalog header is 128 bytes, its compressed-flag byte is 0 and
    its last byte is the 0xFF sentinel; the catalog file starts with these
    very bytes, followed by the info blocks and then the symbols. *)
Theorem catalog_header_first :
  exists hdr,
    construct FileID FileID_init = Ok hdr
    /\ List.length hdr = 128%nat
    /\ field_value FileID ["Compressed"] hdr = 0
    /\ field_value FileID ["EndMarker"] hdr = 0xFF
    /\ last hdr 0 = 0xFF
    /\ forall fs listdir dirs infoblocks out,
         catalog_file fs listdir dirs infoblocks = Ok out ->
         firstn 128 out = hdr
         /\ exists symbol_list,
              process_directories fs listdir dirs [] = Ok symbol_list
              /\ out = hdr ++ infoblocks ++ List.concat symbol_list.
Proof.
  eexists. split; [vm_compute; reflexivity|].
  do 4 (split; [vm_compute; reflexivity|]).
  intros fs listdir dirs infoblocks out H. unfold catalog_file in H.
  destruct (process_directories fs listdir dirs []) as [symbol_list|e];
    [|discriminate].
  cbn [rbind] in H.
  change (construct FileID FileID_init) with
    (Ok (unwrap (construct FileID FileID_init))) in H.
  cbn [rbind] in H. injection H as <-.
  split; [reflexivity|]. exists symbol_list. split; reflexivity.
Qed.


Lemma catalog_header_first_witness :
  catalog_file example_fs sound_listing ["d"] [1; 2; 3] = Ok example_catalog
  /\ construct FileID FileID_init = Ok (firstn 128 example_catalog).
Proof.
  assert (E : catalog_file example_fs sound_listing ["d"] [1; 2; 3]
              = Ok example_catalog) by (vm_compute; reflexivity).
  split; [exact E|].
  destruct catalog_header_first as (hdr & C & _ & _ & _ & _ & F).
  destruct (F _ _ _ _ _ E) as (P & _).
  rewrite P. exact C.
Defined.

(* ------------------------------------------------------------------ *)
(** ** Dictionaries in insertion order *)

Lemma dict_get_append k v d k' :
  dict_get k' (dict_append k v d)
  = if String.eqb k k' then Some (dict_values k d ++ [v]) else dict_get k' d.
Proof.
  unfold dict_values.
  induction d as [|[k0 vs] d IH]; cbn [dict_append dict_get].
  - destruct (String.eqb_spec k k'); reflexivity.
  - destruct (String.eqb_spec k0 k) as [->|Hk0]; cbn [dict_get].
    + destruct (String.eqb_spec k k'); reflexivity.
    + rewrite IH.
      destruct (String.eqb_spec k0 k') as [->|Hk0'];
        destruct (String.eqb_spec k k'); try reflexivity; congruence.
Qed.

Lemma in_keys_append x k v d :
  In x (map fst (dict_append k v d)) -> x = k \/ In x (map fst d).
Proof.
  induction d as [|[k0 vs] d IH]; cbn [dict_append map fst In].
  - intros [<-|[]]. now left.
  - destruct (String.eqb k0 k); cbn [map fst In]; intuition.
Qed.

Lemma NoDup_keys_append k v d :
  NoDup (map fst d) -> NoDup (map fst (dict_append k v d)).
Proof.
  induction d as [|[k0 vs] d IH]; cbn [dict_append map fst]; intros H.
  - repeat constructor. intros [].
  - inversion H as [|? ? Hin Hd]; subst.
    destruct (String.eqb_spec k0 k) as [->|Hk0]; cbn [map fst].
    + now constructor.
    + constructor; [|now apply IH].
      intros Hx. apply in_keys_append in Hx as [?|?]; congruence.
Qed.

Section Collect.

Variable key_of : string -> option string.
Variable dir : string.

Lemma NoDup_keys_collect l : forall d,
  NoDup (map fst d) -> NoDup (map fst (collect key_of dir l d)).
Proof.
  induction l as [|f l IH]; intros d H; [exact H|].
  change (collect key_of dir (f :: l) d)
    with (collect key_of dir l
            match key_of f with
            | Some k => dict_append k (path_join dir f) d
            | None => d
            end).
  apply IH. destruct (key_of f); [now apply NoDup_keys_append|exact H].
Qed.

(** After the loop, the entry of a key holds what it held before and then
    the members of the listing with that key, in the order of the listing. *)
Lemma dict_get_collect l : forall d k,
  dict_get k (collect key_of dir l d)
  = match members key_of dir l k with
    | [] => dict_get k d
    | vs => Some (dict_values k d ++ vs)
    end.
Proof.
  induction l as [|f l IH]; intros d k; [reflexivity|].
  change (collect key_of dir (f :: l) d)
    with (collect key_of dir l
            match key_of f with
            | Some k => dict_append k (path_join dir f) d
            | None => d
            end).
  rewrite IH. unfold members. cbn [filter]. unfold has_key at 2.
  destruct (key_of f) as [k'|]; [|reflexivity].
  unfold dict_values. rewrite !dict_get_append.
  destruct (String.eqb_spec k' k) as [->|Hk]; cbn [map].
  - fold (dict_values k d).
    destruct (map (path_join dir) (filter (has_key key_of k) l));
      [reflexivity|].
    now rewrite <- app_assoc.
  - reflexivity.
Qed.

End Collect.

Lemma filter_key_absent k d :
  ~ In k (map fst d) -> filter (key_is k) d = [].
Proof.
  induction d as [|[k0 vs] d IH]; cbn [map fst In filter]; [reflexivity|].
  intros H. unfold key_is at 1. cbn [fst].
  destruct (String.eqb_spec k0 k) as [->|_]; [tauto|].
  apply IH. tauto.
Qed.

Lemma dict_get_absent k d : dict_get k d = None -> ~ In k (map fst d).
Proof.
  induction d as [|[k0 vs] d IH]; cbn [dict_get map fst In]; [tauto|].
  destruct (String.eqb_spec k0 k); [discriminate|]. intuition.
Qed.

Lemma filter_key k d :
  NoDup (map fst d) ->
  filter (key_is k) d
  = match dict_get k d with
    | Some vs => [(k, vs)]
    | None => []
    end.
Proof.
  induction d as [|[k0 vs] d IH]; cbn [map fst filter dict_get];
    [reflexivity|].
  intros H. inversion H as [|? ? Hin Hd]; subst.
  unfold key_is at 1. cbn [fst].
  destruct (String.eqb_spec k0 k) as [->|_].
  - f_equal. now apply filter_key_absent.
  - now apply IH.
Qed.

(* ------------------------------------------------------------------ *)
(** ** The first loop *)

Lemma first_pass_step_groups dir g f :
  groups (first_pass_step dir g f)
  = match group_key f with
    | Some k => dict_append k (path_join dir f) (groups g)
    | None => groups g
    end.
Proof.
  unfold first_pass_step, group_key, kept, base_symbol_name.
  destruct (str_endswith ".png" (lower f)); cbn [negb andb]; [|reflexivity].
  destruct (check_filename_compatibility f); cbn [negb]; [|reflexivity].
  destruct (variant_pattern f) as [base|];
    match goal with
    | |- context [subgroup_pattern ?n] => destruct (subgroup_pattern n)
    end; reflexivity.
Qed.

Lemma first_pass_step_subgroup dir g f (variant : bool) :
  subgroup_of variant (first_pass_step dir g f)
  = match subgroup_key variant f with
    | Some k => dict_append k (path_join dir f) (subgroup_of variant g)
    | None => subgroup_of variant g
    end.
Proof.
  unfold subgroup_of, first_pass_step, subgroup_key, kept, base_symbol_name,
    is_variant.
  destruct (str_endswith ".png" (lower f)); cbn [negb andb];
    [|now destruct variant].
  destruct (check_filename_compatibility f); cbn [negb];
    [|now destruct variant].
  destruct (variant_pattern f) as [base|];
    match goal with
    | |- context [subgroup_pattern ?n] => destruct (subgroup_pattern n)
    end; destruct variant; reflexivity.
Qed.

Lemma first_pass_groups dir l :
  groups (first_pass dir l) = collect group_key dir l [].
Proof.
  unfold first_pass, collect.
  change (@nil (string * list string)) with (groups empty_grouping).
  generalize empty_grouping.
  induction l as [|f l IH]; intros g; [reflexivity|].
  cbn [fold_left]. rewrite IH, first_pass_step_groups. reflexivity.
Qed.

Lemma first_pass_subgroup (variant : bool) dir l :
  subgroup_of variant (first_pass dir l)
  = collect (subgroup_key variant) dir l [].
Proof.
  unfold first_pass, collect.
  replace (@nil (string * list string))
    with (subgroup_of variant empty_grouping) by now destruct variant.
  generalize empty_grouping.
  induction l as [|f l IH]; intros g; [reflexivity|].
  cbn [fold_left]. rewrite IH, first_pass_step_subgroup. reflexivity.
Qed.

(** The grouped flag of the code is the one read off the listing. *)
Lemma in_subgroup_grouped (variant : bool) n dir l name :
  in_subgroup (subgroup_of variant (first_pass dir l)) n name
  = grouped variant n dir l name.
Proof.
  unfold in_subgroup, grouped. destruct (subgroup_pattern name) as [p|];
    [|reflexivity].
  rewrite first_pass_subgroup, dict_get_collect.
  destruct (members (subgroup_key variant) dir l p); [|reflexivity].
  cbn [dict_get List.length]. symmetry. apply Nat.ltb_ge. lia.
Qed.

(* ------------------------------------------------------------------ *)
(** ** The second loop *)

Lemma request_name_of g k files : request_name (request_of g k files) = k.
Proof.
  unfold request_of.
  destruct ((List.length files =? 2)%nat && forallb (contains "vari_") files);
    [reflexivity|].
  destruct ((List.length files =? 1)%nat
            && negb (contains "vari_" (nth 0 files "")));
    reflexivity.
Qed.

Lemma symbols_for_map g key (d : dict) :
  symbols_for key (map (fun kv => request_of g (fst kv) (snd kv)) d)
  = filter is_symbol
      (map (fun kv => request_of g (fst kv) (snd kv)) (filter (key_is key) d)).
Proof.
  unfold symbols_for.
  induction d as [|[k vs] d IH]; cbn [map filter fst snd]; [reflexivity|].
  rewrite request_name_of. unfold key_is at 1. cbn [fst].
  destruct (String.eqb k key); cbn [map filter fst snd].
  - rewrite IH. now destruct (is_symbol (request_of g k vs)).
  - rewrite andb_false_r. exact IH.
Qed.

(** The second loop emits the symbols of the requests, in order. *)
Lemma second_pass_emit_all fs g (todo : dict) : forall all_symbols,
  second_pass fs g todo all_symbols
  = rbind (emit_all fs (map (fun kv => request_of g (fst kv) (snd kv)) todo))
      (fun rest => Ok (all_symbols ++ rest)).
Proof.
  induction todo as [|[k files] todo IH]; intros acc;
    cbn [second_pass emit_all map fst snd rbind].
  - now rewrite app_nil_r.
  - destruct (emit fs (request_of g k files)) as [new|e]; cbn [rbind];
      [|reflexivity].
    rewrite IH. destruct (emit_all fs _) as [rest|e]; cbn [rbind];
      [|reflexivity].
    now rewrite app_assoc.
Qed.

Lemma process_symbol_images_requests fs listdir dir :
  process_symbol_images fs listdir dir
  = rbind (emit_all fs (requests dir (listdir dir)))
      (fun all_symbols => Ok (List.concat all_symbols)).
Proof.
  unfold process_symbol_images, requests. cbv zeta.
  rewrite second_pass_emit_all.
  now destruct (emit_all fs _).
Qed.

(** The symbols emitted under a name come from the one group of that
    name, whose files are the members of the listing with that key. *)
Lemma symbols_for_requests dir listing key :
  symbols_for key (requests dir listing)
  = match members group_key dir listing key with
    | [] => []
    | files =>
        filter is_symbol [request_of (first_pass dir listing) key files]
    end.
Proof.
  unfold requests. rewrite symbols_for_map, first_pass_groups.
  rewrite filter_key by (apply NoDup_keys_collect; constructor).
  rewrite dict_get_collect. cbn [dict_get].
  destruct (members group_key dir listing key); reflexivity.
Qed.

(* ------------------------------------------------------------------ *)
(** ** Lists with one or two hits *)

Lemma filter_zero {A} (p : A -> bool) l :
  (forall x, In x l -> p x = false) -> filter p l = [].
Proof.
  induction l as [|y l IH]; cbn [filter]; intros H; [reflexivity|].
  rewrite (H y) by now left. apply IH. intros x Hx. apply H. now right.
Qed.

Lemma filter_one {A} (p : A -> bool) l a :
  NoDup l -> In a l -> p a = true ->
  (forall x, In x l -> x <> a -> p x = false) ->
  filter p l = [a].
Proof.
  induction l as [|y l IH]; intros Hnd Ha Hpa Hrest; [destruct Ha|].
  inversion Hnd as [|? ? Hy Hl]; subst. cbn [filter].
  destruct Ha as [->|Ha].
  - rewrite Hpa. f_equal. apply filter_zero. intros x Hx.
    apply Hrest; [now right|]. intros ->. contradiction.
  - rewrite (Hrest y) by (now left || (intros ->; contradiction)).
    apply IH; auto. intros x Hx. apply Hrest. now right.
Qed.

Lemma filter_two {A} (p : A -> bool) l a b :
  NoDup l -> In a l -> In b l -> a <> b -> p a = true -> p b = true ->
  (forall x, In x l -> x <> a -> x <> b -> p x = false) ->
  filter p l = [a; b] \/ filter p l = [b; a].
Proof.
  induction l as [|y l IH]; intros Hnd Ha Hb Hab Hpa Hpb Hrest; [destruct Ha|].
  inversion Hnd as [|? ? Hy Hl]; subst. cbn [filter].
  destruct Ha as [->|Ha]; [|destruct Hb as [->|Hb]].
  - destruct Hb as [->|Hb]; [congruence|].
    left. rewrite Hpa. f_equal. apply filter_one; auto.
    intros x Hx Hxb. apply Hrest; [now right| |assumption].
    intros ->. contradiction.
  - right. rewrite Hpb. f_equal. apply filter_one; auto.
    intros x Hx Hxa. apply Hrest; [now right|assumption|].
    intros ->. contradiction.
  - rewrite (Hrest y); [|now left|intros ->; contradiction
                         |intros ->; contradiction].
    apply IH; auto. intros x Hx. apply Hrest. now right.
Qed.

(* ------------------------------------------------------------------ *)
(** ** Strings *)

Lemma append_assoc (a b c : string) :
  ((a ++ b) ++ c = a ++ (b ++ c))%string.
Proof. induction a as [|x a IH]; cbn; [reflexivity|now rewrite IH]. Qed.

Lemma length_append (a b : string) :
  String.length (a ++ b) = (String.length a + String.length b)%nat.
Proof. induction a as [|x a IH]; cbn; [reflexivity|now rewrite IH]. Qed.

Lemma lower_app a b : lower (a ++ b) = (lower a ++ lower b)%string.
Proof. induction a as [|x a IH]; cbn; [reflexivity|now rewrite IH]. Qed.

Lemma codes_app a b : codes (a ++ b) = codes a ++ codes b.
Proof. induction a as [|x a IH]; cbn; [reflexivity|now rewrite IH]. Qed.

Lemma ascii_encodable_app a b :
  ascii_encodable (a ++ b) = ascii_encodable a && ascii_encodable b.
Proof. unfold ascii_encodable. now rewrite codes_app, forallb_app. Qed.

Lemma str_endswith_app suffix a s :
  str_endswith suffix s = true -> str_endswith suffix (a ++ s) = true.
Proof.
  intros H. induction a as [|x a IH]; [exact H|].
  cbn [append str_endswith]. rewrite IH. apply orb_true_r.
Qed.

Lemma contains_app p a s :
  contains p s = true -> contains p (a ++ s) = true.
Proof.
  intros H. induction a as [|x a IH]; [exact H|].
  cbn [append contains]. rewrite IH. apply orb_true_r.
Qed.

Lemma compare_app p a b :
  String.compare (p ++ a) (p ++ b) = String.compare a b.
Proof.
  induction p as [|x p IH]; [reflexivity|].
  cbn [append String.compare]. unfold Ascii.compare.
  now rewrite N.compare_refl.
Qed.

Lemma append_inv_head p a b : (p ++ a = p ++ b)%string -> a = b.
Proof.
  induction p as [|x p IH]; [trivial|]. cbn [append]. intros [= H]. auto.
Qed.

(* ------------------------------------------------------------------ *)
(** ** The variant pattern on [X vari_01.png] and [X vari_02.png] *)

Lemma variant_literal_length s :
  variant_literal s = true -> (String.length s <= 12)%nat.
Proof.
  intros H.
  do 13 (destruct s as [|? s]; [cbn [String.length]; lia|]).
  exfalso. unfold variant_literal in H.
  cbn [literal_ci one_or_two at_end] in H.
  repeat (apply andb_prop in H; destruct H as [_ H]).
  discriminate.
Qed.

Lemma variant_suffix_all_space X t :
  String.length t = 12%nat -> variant_literal t = false ->
  variant_suffix (X ++ t) = true -> all_space X = true.
Proof.
  intros Ht Hlit. unfold variant_suffix.
  induction X as [|c X IH]; [reflexivity|].
  cbn [append one_or_more all_space]. intros H.
  apply andb_prop in H as [Hc H]. rewrite Hc. cbn [andb].
  apply orb_prop in H as [H|H]; [now apply IH|].
  apply variant_literal_length in H. rewrite length_append, Ht in H.
  destruct X; [reflexivity|cbn in H; lia].
Qed.

Lemma all_space_ends c X :
  all_space (String c X) = true -> ends_with_space (String c X) = true.
Proof.
  revert c. induction X as [|d X IH]; intros c H; cbn [all_space] in H.
  - cbn. now rewrite andb_true_r in H.
  - apply andb_prop in H as [_ H]. cbn [ends_with_space]. now apply IH.
Qed.

(** The pattern matches [X ++ t], and its group is [X], when [X] has no
    newline and does not end in white space. *)
Lemma variant_pattern_base X t :
  t = " vari_01.png" \/ t = " vari_02.png" ->
  no_newline X = true -> ends_with_space X = false ->
  variant_pattern (X ++ t) = Some X.
Proof.
  intros Ht. unfold variant_pattern.
  induction X as [|c X IH]; intros Hn He.
  - destruct Ht as [-> | ->]; reflexivity.
  - cbn [append lazy_group].
    destruct (variant_suffix (String c (X ++ t))) eqn:Hs.
    + apply (variant_suffix_all_space (String c X) t) in Hs.
      * apply all_space_ends in Hs. congruence.
      * destruct Ht as [-> | ->]; reflexivity.
      * destruct Ht as [-> | ->]; reflexivity.
    + cbn [no_newline] in Hn. apply andb_prop in Hn as [Hc Hn].
      apply negb_true_iff in Hc. rewrite Hc.
      rewrite IH; [reflexivity|assumption|].
      destruct X; [reflexivity|exact He].
Qed.

Lemma kept_variant X t :
  t = " vari_01.png" \/ t = " vari_02.png" ->
  ascii_encodable X = true -> kept (X ++ t) = true.
Proof.
  intros Ht Ha. unfold kept, check_filename_compatibility.
  rewrite lower_app, ascii_encodable_app, Ha.
  rewrite str_endswith_app; destruct Ht as [-> | ->]; reflexivity.
Qed.

Lemma group_key_variant X t :
  t = " vari_01.png" \/ t = " vari_02.png" ->
  ascii_encodable X = true -> no_newline X = true ->
  ends_with_space X = false ->
  group_key (X ++ t) = Some X.
Proof.
  intros Ht Ha Hn He. unfold group_key, base_symbol_name.
  now rewrite (kept_variant _ _ Ht Ha), (variant_pattern_base _ _ Ht Hn He).
Qed.

(** Both paths of the pair are one prefix followed by the file name. *)
Lemma path_join_pair dir X :
  exists pre,
    path_join dir (X ++ " vari_01.png") = (pre ++ X ++ " vari_01.png")%string
    /\ path_join dir (X ++ " vari_02.png")
       = (pre ++ X ++ " vari_02.png")%string.
Proof.
  unfold path_join.
  assert (E : str_startswith "/" (X ++ " vari_01.png")
              = str_startswith "/" (X ++ " vari_02.png"))
    by (destruct X; reflexivity).
  rewrite <- E.
  destruct (str_startswith "/" (X ++ " vari_01.png")).
  - exists EmptyString. split; reflexivity.
  - destruct (String.eqb dir "" || str_endswith "/" dir).
    + exists dir. split; reflexivity.
    + exists (dir ++ "/")%string. now rewrite !append_assoc.
Qed.

(* ------------------------------------------------------------------ *)
(** ** Variant pairs *)

Lemma has_key_hit key_of k f : key_of f = Some k -> has_key key_of k f = true.
Proof. intros H. unfold has_key. rewrite H. apply String.eqb_refl. Qed.

Lemma has_key_miss key_of k f : key_of f <> Some k -> has_key key_of k f = false.
Proof.
  intros H. unfold has_key. destruct (key_of f) as [k'|]; [|reflexivity].
  apply String.eqb_neq. congruence.
Qed.

Lemma NoDup_groups dir l : NoDup (map fst (groups (first_pass dir l))).
Proof. rewrite first_pass_groups. apply NoDup_keys_collect. constructor. Qed.

Lemma names_of_requests dir l :
  map request_name (requests dir l) = map fst (groups (first_pass dir l)).
Proof.
  unfold requests. cbv zeta. rewrite map_map. apply map_ext.
  intros kv. apply request_name_of.
Qed.

Lemma emit_all_app fs rs1 rs2 :
  emit_all fs (rs1 ++ rs2)
  = rbind (emit_all fs rs1) (fun a =>
    rbind (emit_all fs rs2) (fun b => Ok (a ++ b))).
Proof.
  induction rs1 as [|r rs1 IH]; cbn [app emit_all].
  - cbn [rbind]. now destruct (emit_all fs rs2).
  - rewrite IH. destruct (emit fs r); cbn [rbind]; [|reflexivity].
    destruct (emit_all fs rs1); cbn [rbind]; [|reflexivity].
    destruct (emit_all fs rs2); cbn [rbind]; [|reflexivity].
    now rewrite app_assoc.
Qed.

(** Where the symbols of one request end up in the bytes of a converted
    directory: after the symbols of the requests before it and before
    those of the requests after it, none of which bears its name. *)
Lemma emitted_in_place fs listdir dir listing r out :
  listdir dir = listing ->
  In r (requests dir listing) ->
  process_symbol_images fs listdir dir = Ok out ->
  exists rs1 rs2 s1 bs s2,
    requests dir listing = rs1 ++ r :: rs2
    /\ ~ In (request_name r) (map request_name rs1)
    /\ ~ In (request_name r) (map request_name rs2)
    /\ emit_all fs rs1 = Ok s1
    /\ emit fs r = Ok bs
    /\ emit_all fs rs2 = Ok s2
    /\ out = List.concat s1 ++ List.concat bs ++ List.concat s2.
Proof.
  intros <- Hin H. destruct (in_split _ _ Hin) as (rs1 & rs2 & E).
  assert (N : NoDup (map request_name (requests dir (listdir dir))))
    by (rewrite names_of_requests; apply NoDup_groups).
  rewrite E, map_app in N. cbn [map] in N. apply NoDup_remove_2 in N.
  rewrite in_app_iff in N.
  rewrite process_symbol_images_requests, E, emit_all_app in H.
  cbn [emit_all] in H.
  destruct (emit_all fs rs1) as [s1|] eqn:E1; cbn [rbind] in H;
    [|discriminate].
  destruct (emit fs r) as [bs|] eqn:Er; cbn [rbind] in H; [|discriminate].
  destruct (emit_all fs rs2) as [s2|] eqn:E2; cbn [rbind] in H;
    [|discriminate].
  injection H as <-. exists rs1, rs2, s1, bs, s2.
  rewrite !concat_app. tauto.
Qed.

(** C3, as stated, fails: the directory holds the pair [Tower vari_01.png],
    [Tower vari_02.png] and a third file of the same key, [Tower.png]; the
    group has three files, it is reported as unhandled and no symbol is
    emitted for [Tower]. *)
Lemma variant_pair_counterexample :
  In "Tower vari_01.png" crowded_listing
  /\ In "Tower vari_02.png" crowded_listing
  /\ requests "d" crowded_listing
     = [Unhandled "Tower"
          ["d/Tower vari_01.png"; "d/Tower vari_02.png"; "d/Tower.png"]]
  /\ symbols_for "Tower" (requests "d" crowded_listing) = [].
Proof.
  repeat apply conj; try (vm_compute; reflexivity); cbn; tauto.
Qed.

(** A pair alone under its key is requested as one varicolor symbol, the
    [vari_01] file first, whatever the order of the listing. *)
Lemma variant_pair_requested dir listing X :
  NoDup listing ->
  In (X ++ " vari_01.png")%string listing ->
  In (X ++ " vari_02.png")%string listing ->
  ascii_encodable X = true ->
  no_newline X = true ->
  ends_with_space X = false ->
  (forall f, In f listing ->
             f <> (X ++ " vari_01.png")%string ->
             f <> (X ++ " vari_02.png")%string ->
             group_key f <> Some X) ->
  symbols_for X (requests dir listing)
  = [VariantPair X
       (path_join dir (X ++ " vari_01.png"))
       (path_join dir (X ++ " vari_02.png"))
       (grouped true 2 dir listing X)].
Proof.
  intros Hnd H1 H2 Ha Hn He Hrest.
  assert (K1 := group_key_variant X _ (or_introl eq_refl) Ha Hn He).
  assert (K2 := group_key_variant X _ (or_intror eq_refl) Ha Hn He).
  assert (Hne : (X ++ " vari_01.png")%string <> (X ++ " vari_02.png")%string).
  { intros E. apply append_inv_head in E. discriminate. }
  destruct (path_join_pair dir X) as (pre & P1 & P2).
  assert (C1 : contains "vari_" (path_join dir (X ++ " vari_01.png")) = true).
  { rewrite P1. now do 2 apply contains_app. }
  assert (C2 : contains "vari_" (path_join dir (X ++ " vari_02.png")) = true).
  { rewrite P2. now do 2 apply contains_app. }
  assert (L12 : String.leb (path_join dir (X ++ " vari_01.png"))
                           (path_join dir (X ++ " vari_02.png")) = true).
  { rewrite P1, P2. unfold String.leb. now rewrite !compare_app. }
  assert (L21 : String.leb (path_join dir (X ++ " vari_02.png"))
                           (path_join dir (X ++ " vari_01.png")) = false).
  { rewrite P1, P2. unfold String.leb. now rewrite !compare_app. }
  rewrite symbols_for_requests. unfold members.
  assert (F : forall a b,
             request_of (first_pass dir listing) X [a; b]
             = if contains "vari_" a && (contains "vari_" b && true)
               then VariantPair X (nth 0 (sort [a; b]) "")
                      (nth 1 (sort [a; b]) "")
                      (grouped true 2 dir listing X)
               else Unhandled X [a; b]).
  { intros a b. unfold request_of. cbn [List.length Nat.eqb forallb andb].
    change (subgroup_variant (first_pass dir listing))
      with (subgroup_of true (first_pass dir listing)).
    now rewrite in_subgroup_grouped. }
  destruct (filter_two (has_key group_key X) listing _ _ Hnd H1 H2 Hne
              (has_key_hit _ _ _ K1) (has_key_hit _ _ _ K2)) as [E|E].
  { intros f Hf N1 N2. apply has_key_miss. auto. }
  - rewrite E. cbn [map]. rewrite F, C1, C2. cbn [andb].
    unfold sort. cbn [fold_right insert_sorted]. rewrite L12. reflexivity.
  - rewrite E. cbn [map]. rewrite F, C1, C2. cbn [andb].
    unfold sort. cbn [fold_right insert_sorted]. rewrite L21. reflexivity.
Qed.

(** C3, amended. Let a directory listing hold [X vari_01.png] and
    [X vari_02.png], where [X] is ASCII, has no newline and does not end in
    white space, and let no other file of the listing have the group key
    [X].  Then the second loop makes exactly one request under the key
    [X]: a varicolor symbol whose image 1 is the [vari_01] file and whose
    image 2 is the [vari_02] file, in whatever order the listing gives the
    two files, grouped when [X] has a numbered prefix whose variant
    subgroup has more than 2 members.  Whenever the directory is
    converted, the bytes returned hold that symbol, built by
    [VaricolorSymbol] from [X] and the two normalised paths in that order,
    exactly once: between the symbols of the requests before it and those
    of the requests after it, none of which bears the name [X].  When the
    constructor raises for this pair, the directory is not converted. *)
Theorem variant_pair_request dir listing X :
  NoDup listing ->
  In (X ++ " vari_01.png")%string listing ->
  In (X ++ " vari_02.png")%string listing ->
  ascii_encodable X = true ->
  no_newline X = true ->
  ends_with_space X = false ->
  (forall f, In f listing ->
             f <> (X ++ " vari_01.png")%string ->
             f <> (X ++ " vari_02.png")%string ->
             group_key f <> Some X) ->
  let p1 := path_join dir (X ++ " vari_01.png") in
  let p2 := path_join dir (X ++ " vari_02.png") in
  let g := grouped true 2 dir listing X in
  symbols_for X (requests dir listing) = [VariantPair X p1 p2 g]
  /\ (forall fs listdir out,
      listdir dir = listing ->
      process_symbol_images fs listdir dir = Ok out ->
      exists rs1 rs2 s1 b s2,
        requests dir listing = rs1 ++ VariantPair X p1 p2 g :: rs2
        /\ ~ In X (map request_name rs1)
        /\ ~ In X (map request_name rs2)
        /\ emit_all fs rs1 = Ok s1
        /\ emit_all fs rs2 = Ok s2
        /\ VaricolorSymbol_bytes fs X (normpath p1) (normpath p2) g = Ok b
        /\ out = List.concat s1 ++ b ++ List.concat s2)
  /\ (forall fs listdir e,
      listdir dir = listing ->
      VaricolorSymbol_bytes fs X (normpath p1) (normpath p2) g = Raise e ->
      forall out, process_symbol_images fs listdir dir <> Ok out).
Proof.
  intros Hnd H1 H2 Ha Hn He Hrest. cbv zeta.
  pose proof (variant_pair_requested dir listing X Hnd H1 H2 Ha Hn He Hrest)
    as R.
  assert (Hin : In (VariantPair X (path_join dir (X ++ " vari_01.png"))
                      (path_join dir (X ++ " vari_02.png"))
                      (grouped true 2 dir listing X))
                   (requests dir listing)).
  { assert (Hs : In (VariantPair X (path_join dir (X ++ " vari_01.png"))
                       (path_join dir (X ++ " vari_02.png"))
                       (grouped true 2 dir listing X))
                    (symbols_for X (requests dir listing)))
      by (rewrite R; now left).
    unfold symbols_for in Hs. now apply filter_In in Hs. }
  assert (P : forall fs listdir out,
             listdir dir = listing ->
             process_symbol_images fs listdir dir = Ok out ->
             exists rs1 rs2 s1 b s2,
               requests dir listing
               = rs1 ++ VariantPair X (path_join dir (X ++ " vari_01.png"))
                          (path_join dir (X ++ " vari_02.png"))
                          (grouped true 2 dir listing X) :: rs2
               /\ ~ In X (map request_name rs1)
               /\ ~ In X (map request_name rs2)
               /\ emit_all fs rs1 = Ok s1
               /\ emit_all fs rs2 = Ok s2
               /\ VaricolorSymbol_bytes fs X
                    (normpath (path_join dir (X ++ " vari_01.png")))
                    (normpath (path_join dir (X ++ " vari_02.png")))
                    (grouped true 2 dir listing X) = Ok b
               /\ out = List.concat s1 ++ b ++ List.concat s2).
  { intros fs listdir out El H.
    destruct (emitted_in_place _ _ _ _ _ _ El Hin H)
      as (rs1 & rs2 & s1 & bs & s2 & E & N1 & N2 & E1 & Er & E2 & ->).
    cbn [request_name] in N1, N2.
    cbn [emit] in Er. unfold handle_variant_pair in Er.
    destruct (VaricolorSymbol_bytes fs X
                (normpath (path_join dir (X ++ " vari_01.png")))
                (normpath (path_join dir (X ++ " vari_02.png")))
                (grouped true 2 dir listing X)) as [b|e] eqn:B;
      cbn [rbind] in Er; [|discriminate].
    injection Er as <-. exists rs1, rs2, s1, b, s2.
    cbn [List.concat]. rewrite app_nil_r. tauto. }
  split; [exact R|]. split; [exact P|].
  intros fs listdir e El B out H.
  destruct (P fs listdir out El H) as (_ & _ & _ & b & _ & _ & _ & _ & _ & _ & B' & _).
  congruence.
Qed.

Lemma variant_pair_request_witness :
  symbols_for "Tower" (requests "d" pair_listing)
  = [VariantPair "Tower" "d/Tower vari_01.png" "d/Tower vari_02.png" false]
  /\ exists s1 b s2,
       process_symbol_images full_fs (fun _ => pair_listing) "d"
       = Ok (s1 ++ b ++ s2)
       /\ VaricolorSymbol_bytes full_fs "Tower" "d/Tower vari_01.png"
            "d/Tower vari_02.png" false = Ok b.
Proof.
  destruct (variant_pair_request "d" pair_listing "Tower") as (R & P & _).
  - unfold pair_listing.
    repeat (constructor; [cbn; intuition discriminate|]). constructor.
  - cbn. tauto.
  - cbn. tauto.
  - reflexivity.
  - reflexivity.
  - reflexivity.
  - intros f [<-|[<-|[<-|[<-|[]]]]] N1 N2;
      try (exfalso; apply N1; reflexivity);
      try (exfalso; apply N2; reflexivity);
      vm_compute; discriminate.
  - split; [exact R|].
    destruct (P full_fs (fun _ => pair_listing)
                (unwrap (process_symbol_images full_fs
                           (fun _ => pair_listing) "d")) eq_refl)
      as (rs1 & rs2 & s1 & b & s2 & _ & _ & _ & _ & _ & B & E);
      [vm_compute; reflexivity|].
    exists (List.concat s1), b, (List.concat s2). split; [|exact B].
    rewrite <- E. vm_compute; reflexivity.
Defined.

(** The scenario of the specification: two numbered plain files and one
    variant pair. *)
Example tower_scenario :
  requests "d" pair_listing
  = [SingleSymbol "Tower 01" "d/Tower 01.png" true;
     VariantPair "Tower" "d/Tower vari_01.png" "d/Tower vari_02.png" false;
     SingleSymbol "Tower 02" "d/Tower 02.png" true].
Proof. vm_compute; reflexivity. Qed.

(* ------------------------------------------------------------------ *)
(** ** Single files *)

(** C4, as stated, fails: [X VARI_01.png] does not contain [vari_] and is
    alone in its directory, hence alone in its group; the pattern, which
    ignores letter case, files it under [X], and the simple symbol emitted
    is keyed [X], not by the stem [X VARI_01]. *)
Lemma single_symbol_counterexample :
  contains "vari_" "X VARI_01.png" = false
  /\ contains "vari_" (path_join "d" "X VARI_01.png") = false
  /\ fst (splitext "X VARI_01.png") = "X VARI_01"
  /\ requests "d" ["X VARI_01.png"]
     = [SingleSymbol "X" "d/X VARI_01.png" false]
  /\ symbols_for "X VARI_01" (requests "d" ["X VARI_01.png"]) = [].
Proof. repeat apply conj; vm_compute; reflexivity. Qed.

(** A plain file alone under its stem is requested as one simple
    symbol. *)
Lemma single_symbol_requested dir listing f :
  NoDup listing ->
  In f listing ->
  kept f = true ->
  variant_pattern f = None ->
  contains "vari_" (path_join dir f) = false ->
  (forall f', In f' listing -> f' <> f ->
              group_key f' <> Some (fst (splitext f))) ->
  symbols_for (fst (splitext f)) (requests dir listing)
  = [SingleSymbol (fst (splitext f)) (path_join dir f)
       (grouped false 1 dir listing (fst (splitext f)))].
Proof.
  intros Hnd Hf Hk Hv Hc Hrest.
  assert (K : group_key f = Some (fst (splitext f))).
  { unfold group_key, base_symbol_name. now rewrite Hk, Hv. }
  rewrite symbols_for_requests. unfold members.
  rewrite (filter_one (has_key group_key (fst (splitext f))) listing f Hnd Hf
             (has_key_hit _ _ _ K)).
  2:{ intros f' Hf' N. apply has_key_miss. auto. }
  cbn [map]. unfold request_of.
  cbn [List.length Nat.eqb forallb andb nth]. rewrite Hc. cbn [negb andb].
  change (subgroup_normal (first_pass dir listing))
    with (subgroup_of false (first_pass dir listing)).
  now rewrite in_subgroup_grouped.
Qed.

(** C4, amended. Let [f] be a file of the listing that is a PNG with an
    ASCII name, that the variant pattern does not match, whose path in the
    directory does not contain [vari_], and whose stem is the group key of
    no other file.  Then the second loop makes exactly one request under
    the stem of [f]: a simple symbol for that file, whose grouped flag is
    set exactly when the stem has a numbered prefix whose plain subgroup
    has more than 1 member.  Whenever the directory is converted, the
    bytes returned hold that symbol, built by [SimpleSymbol] from the stem
    and the normalised path, exactly once: between the symbols of the
    requests before it and those of the requests after it, none of which
    bears the stem as name.  When the constructor raises for this file,
    the directory is not converted. *)
Theorem single_symbol_request dir listing f :
  NoDup listing ->
  In f listing ->
  kept f = true ->
  variant_pattern f = None ->
  contains "vari_" (path_join dir f) = false ->
  (forall f', In f' listing -> f' <> f ->
              group_key f' <> Some (fst (splitext f))) ->
  let stem := fst (splitext f) in
  let p := path_join dir f in
  let g := grouped false 1 dir listing stem in
  symbols_for stem (requests dir listing) = [SingleSymbol stem p g]
  /\ (forall fs listdir out,
      listdir dir = listing ->
      process_symbol_images fs listdir dir = Ok out ->
      exists rs1 rs2 s1 b s2,
        requests dir listing = rs1 ++ SingleSymbol stem p g :: rs2
        /\ ~ In stem (map request_name rs1)
        /\ ~ In stem (map request_name rs2)
        /\ emit_all fs rs1 = Ok s1
        /\ emit_all fs rs2 = Ok s2
        /\ SimpleSymbol_bytes fs stem (normpath p) g = Ok b
        /\ out = List.concat s1 ++ b ++ List.concat s2)
  /\ (forall fs listdir e,
      listdir dir = listing ->
      SimpleSymbol_bytes fs stem (normpath p) g = Raise e ->
      forall out, process_symbol_images fs listdir dir <> Ok out).
Proof.
  intros Hnd Hf Hk Hv Hc Hrest. cbv zeta.
  pose proof (single_symbol_requested dir listing f Hnd Hf Hk Hv Hc Hrest)
    as R.
  set (stem := fst (splitext f)) in *.
  set (g := grouped false 1 dir listing stem) in *.
  assert (Hin : In (SingleSymbol stem (path_join dir f) g)
                   (requests dir listing)).
  { assert (Hs : In (SingleSymbol stem (path_join dir f) g)
                    (symbols_for stem (requests dir listing)))
      by (rewrite R; now left).
    unfold symbols_for in Hs. now apply filter_In in Hs. }
  assert (P : forall fs listdir out,
             listdir dir = listing ->
             process_symbol_images fs listdir dir = Ok out ->
             exists rs1 rs2 s1 b s2,
               requests dir listing
               = rs1 ++ SingleSymbol stem (path_join dir f) g :: rs2
               /\ ~ In stem (map request_name rs1)
               /\ ~ In stem (map request_name rs2)
               /\ emit_all fs rs1 = Ok s1
               /\ emit_all fs rs2 = Ok s2
               /\ SimpleSymbol_bytes fs stem (normpath (path_join dir f)) g
                  = Ok b
               /\ out = List.concat s1 ++ b ++ List.concat s2).
  { intros fs listdir out El H.
    destruct (emitted_in_place _ _ _ _ _ _ El Hin H)
      as (rs1 & rs2 & s1 & bs & s2 & E & N1 & N2 & E1 & Er & E2 & ->).
    cbn [request_name] in N1, N2.
    cbn [emit] in Er. unfold handle_single_symbol in Er.
    destruct (SimpleSymbol_bytes fs stem (normpath (path_join dir f)) g)
      as [b|e] eqn:B; cbn [rbind] in Er; [|discriminate].
    injection Er as <-. exists rs1, rs2, s1, b, s2.
    cbn [List.concat]. rewrite app_nil_r. tauto. }
  split; [exact R|]. split; [exact P|].
  intros fs listdir e El B out H.
  destruct (P fs listdir out El H) as (_ & _ & _ & b & _ & _ & _ & _ & _ & _ & B' & _).
  congruence.
Qed.

Lemma single_symbol_request_witness :
  symbols_for "Tower 01" (requests "d" pair_listing)
  = [SingleSymbol "Tower 01" "d/Tower 01.png" true]
  /\ exists s1 b s2,
       process_symbol_images full_fs (fun _ => pair_listing) "d"
       = Ok (s1 ++ b ++ s2)
       /\ SimpleSymbol_bytes full_fs "Tower 01" "d/Tower 01.png" true = Ok b.
Proof.
  destruct (single_symbol_request "d" pair_listing "Tower 01.png")
    as (R & P & _).
  - unfold pair_listing.
    repeat (constructor; [cbn; intuition discriminate|]). constructor.
  - cbn. tauto.
  - reflexivity.
  - reflexivity.
  - reflexivity.
  - intros f [<-|[<-|[<-|[<-|[]]]]] N;
      try (exfalso; apply N; reflexivity); vm_compute; discriminate.
  - split; [exact R|].
    destruct (P full_fs (fun _ => pair_listing)
                (unwrap (process_symbol_images full_fs
                           (fun _ => pair_listing) "d")) eq_refl)
      as (rs1 & rs2 & s1 & b & s2 & _ & _ & _ & _ & _ & B & E);
      [vm_compute; reflexivity|].
    exists (List.concat s1), b, (List.concat s2). split; [|exact B].
    rewrite <- E. vm_compute; reflexivity.
Defined.

(* ================================================================== *)
(** * Further properties of the encoder *)

(** ** The dimension lookup *)

(** X1. A file that starts with the PNG signature, any four bytes of chunk
    length, [IHDR], and the big-endian width and height gives back exactly
    that width and height, whatever the chunk length says and whatever
    follows. *)
Theorem png_dimensions_round_trip fs p chunk_length w h rest :
  List.length chunk_length = 4%nat ->
  0 <= w < 2 ^ 32 -> 0 <= h < 2 ^ 32 ->
  fs p = Some (png_start chunk_length w h ++ rest) ->
  png_dimensions fs p = Ok (PyInt w, PyInt h).
Proof.
  intros Hl Hw Hh Hp.
  destruct chunk_length as [|a [|b [|c [|d [|? ?]]]]]; try discriminate.
  unfold png_dimensions, read_file. rewrite Hp. cbn [rbind].
  change (firstn 24 (png_start [a; b; c; d] w h ++ rest))
    with (png_start [a; b; c; d] w h).
  change (startswith PNG_MAGIC (png_start [a; b; c; d] w h)) with true.
  change (bytes_eqb (slice 12 16 (png_start [a; b; c; d] w h)) IHDR) with true.
  change (slice 16 24 (png_start [a; b; c; d] w h))
    with (rev (le_bytes 4 w) ++ rev (le_bytes 4 h)).
  cbn [andb]. unfold unpack_LL.
  change (List.length (rev (le_bytes 4 w) ++ rev (le_bytes 4 h)) =? 8)%nat
    with true.
  change (firstn 4 (rev (le_bytes 4 w) ++ rev (le_bytes 4 h)))
    with (rev (le_bytes 4 w)).
  change (skipn 4 (rev (le_bytes 4 w) ++ rev (le_bytes 4 h)))
    with (rev (le_bytes 4 h)).
  cbn [try_except]. unfold be_value.
  rewrite !rev_involutive, !le_value_le_bytes.
  change (256 ^ Z.of_nat 4) with (2 ^ 32).
  now rewrite !Z.mod_small by assumption.
Qed.

Lemma png_dimensions_round_trip_witness :
  png_dimensions example_fs "d/Tower vari_01.png" = Ok (PyInt 541, PyInt 200).
Proof.
  apply (png_dimensions_round_trip example_fs "d/Tower vari_01.png"
           [0; 0; 0; 13] 541 200 [8; 6]).
  - reflexivity.
  - lia.
  - lia.
  - reflexivity.
Defined.

Lemma forallb_firstn {A} (p : A -> bool) n l :
  forallb p l = true -> forallb p (firstn n l) = true.
Proof.
  revert l. induction n as [|n IH]; intros [|x l]; cbn; auto.
  intros H. apply andb_prop in H as [-> H]. now apply IH.
Qed.

Lemma forallb_skipn {A} (p : A -> bool) n l :
  forallb p l = true -> forallb p (skipn n l) = true.
Proof.
  revert l. induction n as [|n IH]; intros [|x l]; cbn; auto.
  intros H. apply andb_prop in H as [_ H]. now apply IH.
Qed.

Lemma forallb_rev {A} (p : A -> bool) l :
  forallb p l = true -> forallb p (rev l) = true.
Proof.
  intros H. apply forallb_forall. intros x Hx. apply in_rev in Hx.
  revert x Hx. now apply forallb_forall.
Qed.

Lemma le_value_range l :
  forallb is_byte l = true ->
  0 <= le_value l < 256 ^ Z.of_nat (List.length l).
Proof.
  induction l as [|b l IH]; intros H.
  - cbn. lia.
  - cbn [forallb] in H. apply andb_prop in H as [Hb Hl].
    specialize (IH Hl). unfold is_byte in Hb.
    apply andb_prop in Hb as [H0 H1].
    apply Z.leb_le in H0. apply Z.ltb_lt in H1.
    cbn [le_value List.length]. rewrite Nat2Z.inj_succ, Z.pow_succ_r by lia.
    lia.
Qed.

(** X2. On a file made of bytes, the lookup gives either [(None, None)] or
    two integers, each in the range of an unsigned 32-bit word; it never
    gives one integer and one [None], and never a negative size. *)
Theorem png_dimensions_range fs p content x y :
  fs p = Some content ->
  forallb is_byte content = true ->
  png_dimensions fs p = Ok (x, y) ->
  (x = PyNone /\ y = PyNone)
  \/ exists w h, x = PyInt w /\ y = PyInt h
                 /\ 0 <= w < 2 ^ 32 /\ 0 <= h < 2 ^ 32.
Proof.
  intros Hp Hb. unfold png_dimensions, read_file. rewrite Hp. cbn [rbind].
  destruct (startswith PNG_MAGIC (firstn 24 content)
            && bytes_eqb (slice 12 16 (firstn 24 content)) IHDR);
    cbn [try_except]; [|intros [= <- <-]; now left].
  unfold unpack_LL.
  destruct (List.length (slice 16 24 (firstn 24 content)) =? 8)%nat eqn:E;
    cbn [try_except]; [|discriminate].
  intros [= <- <-]. right. do 2 eexists. do 2 (split; [reflexivity|]).
  apply Nat.eqb_eq in E.
  set (data := slice 16 24 (firstn 24 content)) in *.
  assert (Hd : forallb is_byte data = true).
  { subst data. unfold slice. now apply forallb_firstn, forallb_skipn,
      forallb_firstn. }
  unfold be_value. split.
  - pose proof (le_value_range (rev (firstn 4 data))
                  (forallb_rev _ _ (forallb_firstn _ 4 _ Hd))) as R.
    rewrite length_rev, length_firstn, E in R. exact R.
  - pose proof (le_value_range (rev (skipn 4 data))
                  (forallb_rev _ _ (forallb_skipn _ 4 _ Hd))) as R.
    rewrite length_rev, length_skipn, E in R. exact R.
Qed.

Lemma png_dimensions_range_witness :
  (PyInt 541 = PyNone /\ PyInt 200 = PyNone)
  \/ exists w h, PyInt 541 = PyInt w /\ PyInt 200 = PyInt h
                 /\ 0 <= w < 2 ^ 32 /\ 0 <= h < 2 ^ 32.
Proof.
  apply (png_dimensions_range example_fs "d/Tower vari_01.png"
           (png_header 541 200 ++ [8; 6])).
  - reflexivity.
  - reflexivity.
  - vm_compute; reflexivity.
Defined.

Lemma unreadable_lookup fs file :
  unreadable fs file -> png_dimensions fs file = Ok (PyNone, PyNone).
Proof.
  intros [H|(content & H & E)]; unfold png_dimensions, read_file; rewrite H.
  - reflexivity.
  - cbn [rbind]. rewrite E. reflexivity.
Qed.

(** X3. A header cut short after the chunk type (a file of 16 to 23 bytes
    with the signature and [IHDR] in place) is not reported as
    [(None, None)]: [struct.unpack] raises [struct.error], which
    [png_dimensions] does not catch, and a constructor whose name fits
    ends with that same exception. *)
Theorem truncated_header_raises_struct_error
    fs p chunk_length partial name other isGroup :
  List.length chunk_length = 4%nat ->
  (List.length partial < 8)%nat ->
  fs p = Some (PNG_MAGIC ++ chunk_length ++ IHDR ++ partial) ->
  fits 32 name ->
  png_dimensions fs p = Raise StructError
  /\ SimpleSymbol_bytes fs name p isGroup = Raise StructError
  /\ VaricolorSymbol_bytes fs name p other isGroup = Raise StructError.
Proof.
  intros Hl Hpart Hp Hn.
  assert (D : png_dimensions fs p = Raise StructError).
  { destruct chunk_length as [|a [|b [|c [|d [|? ?]]]]]; try discriminate.
    unfold png_dimensions, read_file. rewrite Hp. cbn [rbind].
    change (firstn 24 (PNG_MAGIC ++ [a; b; c; d] ++ IHDR ++ partial))
      with (PNG_MAGIC ++ [a; b; c; d] ++ IHDR ++ firstn 8 partial).
    change (startswith PNG_MAGIC
              (PNG_MAGIC ++ [a; b; c; d] ++ IHDR ++ firstn 8 partial))
      with true.
    change (bytes_eqb
              (slice 12 16
                 (PNG_MAGIC ++ [a; b; c; d] ++ IHDR ++ firstn 8 partial))
              IHDR)
      with true.
    change (slice 16 24
              (PNG_MAGIC ++ [a; b; c; d] ++ IHDR ++ firstn 8 partial))
      with (firstn 8 (firstn 8 partial)).
    cbn [andb]. unfold unpack_LL.
    assert (E : (List.length (firstn 8 (firstn 8 partial)) =? 8)%nat = false).
    { apply Nat.eqb_neq. rewrite !length_firstn. lia. }
    rewrite E. reflexivity. }
  unfold fits in Hn. apply Nat.ltb_ge in Hn.
  repeat split; [exact D| |].
  - rewrite SimpleSymbol_bytes_outcome. unfold SimpleSymbol_outcome.
    now rewrite Hn, D.
  - rewrite VaricolorSymbol_bytes_outcome. unfold VaricolorSymbol_outcome.
    now rewrite Hn, D.
Qed.

Lemma truncated_header_raises_struct_error_witness :
  png_dimensions cut_fs "cut.png" = Raise StructError
  /\ SimpleSymbol_bytes cut_fs "cut" "cut.png" false = Raise StructError
  /\ VaricolorSymbol_bytes cut_fs "cut" "cut.png" "x.png" false
     = Raise StructError.
Proof.
  apply (truncated_header_raises_struct_error cut_fs "cut.png"
           [0; 0; 0; 13] [0; 0; 2]).
  - reflexivity.
  - cbn. lia.
  - reflexivity.
  - unfold fits. vm_compute. lia.
Defined.

(** ** Outcomes of the constructors *)

(** X4. When the lookup of an image gives [(None, None)] (no such file, or
    no PNG signature) and the name fits, both constructors raise
    [TypeError] at [float(None)]: with the image as the only or the first
    image whatever else is given, and with it as the second image of a
    varicolor symbol whose first image is readable and whose paths fit. *)
Theorem unreadable_image_raises_TypeError fs name file other isGroup :
  fits 32 name ->
  unreadable fs file ->
  SimpleSymbol_bytes fs name file isGroup = Raise TypeError
  /\ VaricolorSymbol_bytes fs name file other isGroup = Raise TypeError
  /\ (readable fs other -> fits 256 other -> fits 256 file ->
      VaricolorSymbol_bytes fs name other file isGroup = Raise TypeError).
Proof.
  intros Hn Hu. apply unreadable_lookup in Hu.
  unfold fits in *. apply Nat.ltb_ge in Hn.
  repeat split.
  - rewrite SimpleSymbol_bytes_outcome. unfold SimpleSymbol_outcome.
    now rewrite Hn, Hu.
  - rewrite VaricolorSymbol_bytes_outcome. unfold VaricolorSymbol_outcome.
    now rewrite Hn, Hu.
  - intros (w & h & D) Ho Hf. apply Nat.ltb_ge in Ho, Hf.
    rewrite VaricolorSymbol_bytes_outcome. unfold VaricolorSymbol_outcome.
    rewrite Hn, D. cbn [rbind fst snd py_float]. now rewrite Ho, Hf, Hu.
Qed.

Lemma unreadable_image_raises_TypeError_witness :
  SimpleSymbol_bytes example_fs "gone" "d/gone.png" true = Raise TypeError
  /\ VaricolorSymbol_bytes example_fs "gone" "d/gone.png" "d/Tower 01.png"
       true = Raise TypeError.
Proof.
  destruct (unreadable_image_raises_TypeError example_fs "gone" "d/gone.png"
              "d/Tower 01.png" true) as (S & V & _).
  - unfold fits. vm_compute. lia.
  - left. reflexivity.
  - exact (conj S V).
Defined.

(** X5. A simple symbol is built exactly when the name fits the 32-byte
    name field, the path fits the 256-byte path field and the lookup of the
    image gives two integers; a varicolor symbol, exactly when the name
    fits and both paths fit and both lookups give integers.  In every
    other case the constructor ends with an exception. *)
Theorem symbol_built_iff :
  (forall fs name file isGroup,
      (exists b, SimpleSymbol_bytes fs name file isGroup = Ok b)
      <-> fits 32 name /\ fits 256 file /\ readable fs file)
  /\ (forall fs name file1 file2 isGroup,
      (exists b, VaricolorSymbol_bytes fs name file1 file2 isGroup = Ok b)
      <-> fits 32 name /\ fits 256 file1 /\ fits 256 file2
          /\ readable fs file1 /\ readable fs file2).
Proof.
  unfold fits, readable. split.
  - intros fs name file isGroup. split.
    + intros (b & H). generalize H. rewrite SimpleSymbol_bytes_outcome.
      unfold SimpleSymbol_outcome.
      destruct (32 <? strlen (encode_utf8 name))%nat eqn:E1; [discriminate|].
      destruct (SimpleSymbol_built _ _ _ _ _ H) as (w & h & D & _).
      rewrite D. cbn [rbind fst snd py_float].
      destruct (256 <? strlen (encode_utf8 file))%nat eqn:E2; [discriminate|].
      intros _. apply Nat.ltb_ge in E1, E2. eauto.
    + intros (Hn & Hf & w & h & D). eexists.
      now apply (SimpleSymbol_succeeds fs name file isGroup w h).
  - intros fs name file1 file2 isGroup. split.
    + intros (b & H). generalize H. rewrite VaricolorSymbol_bytes_outcome.
      unfold VaricolorSymbol_outcome.
      destruct (32 <? strlen (encode_utf8 name))%nat eqn:E1; [discriminate|].
      destruct (VaricolorSymbol_built _ _ _ _ _ _ H)
        as (w1 & h1 & w2 & h2 & D1 & D2 & _).
      rewrite D1. cbn [rbind fst snd py_float].
      destruct (256 <? strlen (encode_utf8 file1))%nat eqn:E2; [discriminate|].
      destruct (256 <? strlen (encode_utf8 file2))%nat eqn:E3; [discriminate|].
      intros _. apply Nat.ltb_ge in E1, E2, E3. eauto 10.
    + intros (Hn & Hf1 & Hf2 & (w1 & h1 & D1) & (w2 & h2 & D2)). eexists.
      now apply (VaricolorSymbol_succeeds fs name file1 file2 isGroup
                   w1 h1 w2 h2).
Qed.

Lemma symbol_built_iff_witness :
  exists b, SimpleSymbol_bytes example_fs "Tower 01" "d/Tower 01.png" false
            = Ok b.
Proof.
  destruct symbol_built_iff as (S & _).
  apply (S example_fs "Tower 01" "d/Tower 01.png" false).
  unfold fits, readable. repeat split.
  - vm_compute. lia.
  - vm_compute. lia.
  - exists 80, 120. vm_compute; reflexivity.
Defined.

(** X6. A path of more than 256 bytes (ASCII, free of NUL) is refused with
    [ValueError] when it is assigned to the path field, for a name that
    fits and a readable first image: in a simple symbol, and as either
    path of a varicolor symbol. *)
Theorem long_path_rejected fs name file long isGroup :
  fits 32 name ->
  ascii_encodable long = true -> nul_free long = true ->
  (256 < String.length long)%nat ->
  (readable fs long ->
   SimpleSymbol_bytes fs name long isGroup = Raise ValueError
   /\ VaricolorSymbol_bytes fs name long file isGroup = Raise ValueError)
  /\ (readable fs file -> fits 256 file ->
      VaricolorSymbol_bytes fs name file long isGroup = Raise ValueError).
Proof.
  intros Hn Ha Hz Hl. rewrite <- (strlen_of_name _ Ha Hz) in Hl.
  apply Nat.ltb_lt in Hl. unfold fits in *. apply Nat.ltb_ge in Hn.
  split.
  - intros (w & h & D). split.
    + rewrite SimpleSymbol_bytes_outcome. unfold SimpleSymbol_outcome.
      rewrite Hn, D. cbn [rbind fst snd py_float]. now rewrite Hl.
    + rewrite VaricolorSymbol_bytes_outcome. unfold VaricolorSymbol_outcome.
      rewrite Hn, D. cbn [rbind fst snd py_float]. now rewrite Hl.
  - intros (w & h & D) Hf. apply Nat.ltb_ge in Hf.
    rewrite VaricolorSymbol_bytes_outcome. unfold VaricolorSymbol_outcome.
    rewrite Hn, D. cbn [rbind fst snd py_float]. now rewrite Hf, Hl.
Qed.

Lemma long_path_rejected_witness :
  VaricolorSymbol_bytes example_fs "Tower" "d/Tower vari_01.png" long_path
    true = Raise ValueError.
Proof.
  destruct (long_path_rejected example_fs "Tower" "d/Tower vari_01.png"
              long_path true) as (_ & V).
  - unfold fits. vm_compute. lia.
  - vm_compute; reflexivity.
  - vm_compute; reflexivity.
  - apply Nat.ltb_lt. vm_compute; reflexivity.
  - apply V.
    + exists 541, 200. vm_compute; reflexivity.
    + unfold fits. vm_compute. lia.
Defined.

(** ** Flags of a simple symbol *)

(** X7. In a simple symbol the symbol-info flags are exactly SF_GROUPED
    when the symbol is built grouped and 0 otherwise, so SF_VARICOLOR is
    never set; the group flags are exactly SGF_RANDOM when grouped and 0
    otherwise; the entity header of the picture is not flagged as a
    mask. *)
Theorem simple_flags fs name file isGroup b :
  SimpleSymbol_bytes fs name file isGroup = Ok b ->
  field_value SimpleSymbol ["symbol_info"; "Flags"] b
  = (if isGroup then SF_GROUPED else 0)
  /\ Z.land (field_value SimpleSymbol ["symbol_info"; "Flags"] b) SF_VARICOLOR
     = 0
  /\ field_value SimpleSymbol ["symbol_info"; "GFlags"] b
     = (if isGroup then SGF_RANDOM else 0)
  /\ field_value SimpleSymbol ["picture_info"; "CStuff"; "EFlags"] b = 0.
Proof.
  intros H. destruct (SimpleSymbol_built _ _ _ _ _ H) as (w & h & _ & ->).
  destruct isGroup; fields.
Qed.

Lemma simple_flags_witness :
  field_value SimpleSymbol ["symbol_info"; "Flags"] example_simple = SF_GROUPED
  /\ field_value SimpleSymbol ["symbol_info"; "GFlags"] example_simple
     = SGF_RANDOM.
Proof.
  destruct (simple_flags example_fs "Tower 01" "d/Tower 01.png" true
              example_simple) as (F & _ & G & _).
  - vm_compute; reflexivity.
  - exact (conj F G).
Defined.

(** ** Text fields *)

Lemma strlen_le_length l : (strlen l <= List.length l)%nat.
Proof.
  induction l as [|b l IH]; cbn [strlen List.length]; [lia|].
  destruct (b =? 0); lia.
Qed.

Lemma nth_strlen l : nth (strlen l) l 0 = 0.
Proof.
  induction l as [|b l IH]; cbn [strlen]; [reflexivity|].
  destruct (b =? 0) eqn:E; cbn [nth]; [now apply Z.eqb_eq in E|exact IH].
Qed.

Lemma strlen_c_str l : strlen (c_str l ++ zeros 0) = List.length (c_str l)
  /\ forall m, strlen (c_str l ++ zeros m) = List.length (c_str l).
Proof.
  assert (G : forall m, strlen (c_str l ++ zeros m) = List.length (c_str l)).
  { intros m. unfold c_str.
    induction l as [|b l IH]; cbn [strlen].
    - cbn [firstn app List.length]. destruct m; reflexivity.
    - destruct (b =? 0) eqn:E.
      + cbn [firstn app List.length]. destruct m; reflexivity.
      + cbn [firstn app List.length strlen]. rewrite E, IH. reflexivity. }
  split; [apply G|exact G].
Qed.

Lemma nth_c_str l j :
  (j < strlen l)%nat -> nth j (c_str l) 0 = nth j l 0.
Proof.
  unfold c_str. revert j.
  induction l as [|b l IH]; intros j Hj; cbn [strlen] in *; [lia|].
  destruct (b =? 0); [lia|]. cbn [firstn].
  destruct j as [|j]; [reflexivity|]. cbn [nth]. apply IH. lia.
Qed.

Lemma length_c_str l : List.length (c_str l) = strlen l.
Proof.
  unfold c_str. rewrite length_firstn. pose proof (strlen_le_length l). lia.
Qed.

(** A text field of a fresh object holds the C string of the value
    assigned, then NULs. *)
Lemma char_array_image_c_str n data :
  (strlen data <= n)%nat ->
  char_array_image n data = c_str data ++ zeros (n - strlen data).
Proof.
  intros Hl. unfold char_array_image.
  set (size := if (strlen data <? n)%nat then S (strlen data) else strlen data).
  assert (Hsize : (strlen data <= size <= S (strlen data))%nat).
  { subst size. destruct (strlen data <? n)%nat; lia. }
  clearbody size.
  apply (nth_ext _ _ 0 0).
  - rewrite length_memcpy, length_app, length_c_str. unfold zeros.
    rewrite !repeat_length. lia.
  - intros j Hj. rewrite length_memcpy in Hj. unfold zeros in Hj.
    rewrite repeat_length in Hj.
    rewrite nth_memcpy by (unfold zeros; now rewrite repeat_length).
    unfold zeros at 1. rewrite nth_repeat. cbn [Nat.add].
    unfold copied_byte.
    destruct (Nat.lt_ge_cases j (strlen data)) as [Hlt|Hge].
    + rewrite app_nth1 by (now rewrite length_c_str).
      assert (E : (j <? size)%nat = true) by (apply Nat.ltb_lt; lia).
      rewrite E. symmetry. now apply nth_c_str.
    + rewrite app_nth2 by (now rewrite length_c_str).
      unfold zeros. rewrite nth_repeat.
      destruct (j <? size)%nat eqn:E; [|reflexivity].
      apply Nat.ltb_lt in E. assert (j = strlen data) as -> by lia.
      apply nth_strlen.
Qed.

Lemma s_get_char_array_image n data :
  (strlen data <= n)%nat -> s_get (char_array_image n data) = c_str data.
Proof.
  intros Hl. rewrite (char_array_image_c_str _ _ Hl). unfold s_get.
  destruct (strlen_c_str data) as (_ & G). rewrite G.
  now rewrite firstn_app, firstn_all, Nat.sub_diag, app_nil_r.
Qed.

Lemma utf8_nonzero s :
  nul_free s = true ->
  forallb (fun b => negb (b =? 0)) (encode_utf8 s) = true.
Proof.
  unfold nul_free, encode_utf8.
  induction s as [|c s IH]; cbn [codes forallb flat_map]; [reflexivity|].
  intros H. apply andb_prop in H as [Hc Hs].
  rewrite forallb_app, (IH Hs), andb_true_r.
  unfold utf8_char. assert (0 <= code c) by (unfold code; lia).
  destruct (code c <? 128) eqn:E; cbn [forallb].
  - now rewrite Hc.
  - assert (0 <= code c / 64) by (apply Z.div_pos; lia).
    pose proof (Z.mod_pos_bound (code c) 64 ltac:(lia)).
    replace (192 + code c / 64 =? 0) with false
      by (symmetry; apply Z.eqb_neq; lia).
    replace (128 + code c mod 64 =? 0) with false
      by (symmetry; apply Z.eqb_neq; lia).
    reflexivity.
Qed.

Lemma c_str_nul_free s :
  nul_free s = true -> c_str (encode_utf8 s) = encode_utf8 s.
Proof.
  intros H. unfold c_str.
  rewrite (strlen_nul_free _ (utf8_nonzero _ H)). apply firstn_all.
Qed.

Lemma SimpleSymbol_built_fits fs name file isGroup b :
  SimpleSymbol_bytes fs name file isGroup = Ok b ->
  fits 32 name /\ fits 256 file.
Proof.
  intros H. generalize H. rewrite SimpleSymbol_bytes_outcome.
  unfold SimpleSymbol_outcome, fits.
  destruct (32 <? strlen (encode_utf8 name))%nat eqn:E1; [discriminate|].
  destruct (SimpleSymbol_built _ _ _ _ _ H) as (w & h & D & _).
  rewrite D. cbn [rbind fst snd py_float].
  destruct (256 <? strlen (encode_utf8 file))%nat eqn:E2; [discriminate|].
  intros _. apply Nat.ltb_ge in E1, E2. auto.
Qed.

Lemma VaricolorSymbol_built_fits fs name file1 file2 isGroup b :
  VaricolorSymbol_bytes fs name file1 file2 isGroup = Ok b ->
  fits 32 name /\ fits 256 file1 /\ fits 256 file2.
Proof.
  intros H. generalize H. rewrite VaricolorSymbol_bytes_outcome.
  unfold VaricolorSymbol_outcome, fits.
  destruct (32 <? strlen (encode_utf8 name))%nat eqn:E1; [discriminate|].
  destruct (VaricolorSymbol_built _ _ _ _ _ _ H)
    as (w1 & h1 & w2 & h2 & D1 & D2 & _).
  rewrite D1. cbn [rbind fst snd py_float].
  destruct (256 <? strlen (encode_utf8 file1))%nat eqn:E2; [discriminate|].
  destruct (256 <? strlen (encode_utf8 file2))%nat eqn:E3; [discriminate|].
  intros _. apply Nat.ltb_ge in E1, E2, E3. auto.
Qed.

Lemma SimpleSymbol_texts fs name file isGroup b :
  SimpleSymbol_bytes fs name file isGroup = Ok b ->
  field_string SimpleSymbol ["symbol_definition"; "SName"] b
  = c_str (encode_utf8 name)
  /\ field_string SimpleSymbol ["picture_info"; "BMPName"] b
     = c_str (encode_utf8 file).
Proof.
  intros H.
  destruct (SimpleSymbol_built_fits _ _ _ _ _ H) as (Hn & Hf).
  destruct (SimpleSymbol_built _ _ _ _ _ H) as (w & h & _ & ->).
  unfold field_string. split.
  - rewrite <- (s_get_char_array_image 32 _ Hn). apply (f_equal s_get).
    destruct isGroup; run; reflexivity.
  - rewrite <- (s_get_char_array_image 256 _ Hf). apply (f_equal s_get).
    destruct isGroup; run; reflexivity.
Qed.

Lemma VaricolorSymbol_texts fs name file1 file2 isGroup b :
  VaricolorSymbol_bytes fs name file1 file2 isGroup = Ok b ->
  field_string VaricolorSymbol ["symbol_definition"; "SName"] b
  = c_str (encode_utf8 name)
  /\ field_string VaricolorSymbol ["picture1_info"; "BMPName"] b
     = c_str (encode_utf8 file1)
  /\ field_string VaricolorSymbol ["picture2_info"; "BMPName"] b
     = c_str (encode_utf8 file2).
Proof.
  intros H.
  destruct (VaricolorSymbol_built_fits _ _ _ _ _ _ H) as (Hn & Hf1 & Hf2).
  destruct (VaricolorSymbol_built _ _ _ _ _ _ H)
    as (w1 & h1 & w2 & h2 & _ & _ & ->).
  unfold field_string. repeat split.
  - rewrite <- (s_get_char_array_image 32 _ Hn). apply (f_equal s_get).
    destruct isGroup; run; reflexivity.
  - rewrite <- (s_get_char_array_image 256 _ Hf1). apply (f_equal s_get).
    destruct isGroup; run; reflexivity.
  - rewrite <- (s_get_char_array_image 256 _ Hf2). apply (f_equal s_get).
    destruct isGroup; run; reflexivity.
Qed.

(** X8. Reading the text fields of a built symbol gives back what was
    assigned, as a C string: the name field gives the bytes of the name
    and each path field the bytes of its path, up to the first NUL; for a
    name or path without NUL character that is the whole of it, so nothing
    is cut or altered. *)
Theorem text_fields_round_trip :
  (forall fs name file isGroup b,
      SimpleSymbol_bytes fs name file isGroup = Ok b ->
      field_string SimpleSymbol ["symbol_definition"; "SName"] b
      = c_str (encode_utf8 name)
      /\ field_string SimpleSymbol ["picture_info"; "BMPName"] b
         = c_str (encode_utf8 file))
  /\ (forall fs name file1 file2 isGroup b,
      VaricolorSymbol_bytes fs name file1 file2 isGroup = Ok b ->
      field_string VaricolorSymbol ["symbol_definition"; "SName"] b
      = c_str (encode_utf8 name)
      /\ field_string VaricolorSymbol ["picture1_info"; "BMPName"] b
         = c_str (encode_utf8 file1)
      /\ field_string VaricolorSymbol ["picture2_info"; "BMPName"] b
         = c_str (encode_utf8 file2))
  /\ (forall s, nul_free s = true -> c_str (encode_utf8 s) = encode_utf8 s).
Proof.
  split; [exact SimpleSymbol_texts|].
  split; [exact VaricolorSymbol_texts|exact c_str_nul_free].
Qed.

Lemma text_fields_round_trip_witness :
  field_string SimpleSymbol ["symbol_definition"; "SName"] example_simple
  = encode_utf8 "Tower 01"
  /\ field_string SimpleSymbol ["picture_info"; "BMPName"] example_simple
     = encode_utf8 "d/Tower 01.png".
Proof.
  destruct text_fields_round_trip as (S & _ & N).
  destruct (S example_fs "Tower 01" "d/Tower 01.png" true example_simple)
    as (A & B); [vm_compute; reflexivity|].
  rewrite (N "Tower 01") in A by reflexivity.
  rewrite (N "d/Tower 01.png") in B by reflexivity.
  exact (conj A B).
Defined.

(** ** Sizes *)

Lemma SimpleSymbol_length fs name file isGroup b :
  SimpleSymbol_bytes fs name file isGroup = Ok b ->
  List.length b = sizeof SimpleSymbol.
Proof.
  intros H. destruct (SimpleSymbol_built _ _ _ _ _ H) as (w & h & _ & ->).
  destruct isGroup; run; reflexivity.
Qed.

Lemma VaricolorSymbol_length fs name file1 file2 isGroup b :
  VaricolorSymbol_bytes fs name file1 file2 isGroup = Ok b ->
  List.length b = sizeof VaricolorSymbol.
Proof.
  intros H.
  destruct (VaricolorSymbol_built _ _ _ _ _ _ H)
    as (w1 & h1 & w2 & h2 & _ & _ & ->).
  destruct isGroup; run; reflexivity.
Qed.

Lemma emit_length fs r bs :
  emit fs r = Ok bs -> List.length (List.concat bs) = request_size r.
Proof.
  destruct r as [n f1 f2 g|n f g|n fl]; cbn [emit request_size].
  - unfold handle_variant_pair.
    destruct (VaricolorSymbol_bytes fs n (normpath f1) (normpath f2) g)
      as [b|e] eqn:E; cbn [rbind]; [|discriminate].
    intros [= <-]. cbn [List.concat]. rewrite app_nil_r.
    exact (VaricolorSymbol_length _ _ _ _ _ _ E).
  - unfold handle_single_symbol.
    destruct (SimpleSymbol_bytes fs n (normpath f) g) as [b|e] eqn:E;
      cbn [rbind]; [|discriminate].
    intros [= <-]. cbn [List.concat]. rewrite app_nil_r.
    exact (SimpleSymbol_length _ _ _ _ _ E).
  - intros [= <-]. reflexivity.
Qed.

Lemma emit_all_length fs rs : forall bs,
  emit_all fs rs = Ok bs ->
  List.length (List.concat bs) = list_sum (map request_size rs).
Proof.
  induction rs as [|r rs IH]; intros bs; cbn [emit_all].
  - intros [= <-]. reflexivity.
  - change (list_sum (map request_size (r :: rs)))
      with (request_size r + list_sum (map request_size rs))%nat.
    destruct (emit fs r) as [new|e] eqn:E; cbn [rbind]; [|discriminate].
    destruct (emit_all fs rs) as [rest|e] eqn:R; cbn [rbind]; [|discriminate].
    intros [= <-]. rewrite concat_app, length_app.
    now rewrite (emit_length _ _ _ E), (IH _ eq_refl).
Qed.

Lemma sum_request_size rs :
  list_sum (map request_size rs)
  = (sizeof SimpleSymbol * List.length (filter is_single rs)
     + sizeof VaricolorSymbol * List.length (filter is_pair rs))%nat.
Proof.
  induction rs as [|r rs IH]; [cbn; lia|].
  change (list_sum (map request_size (r :: rs)))
    with (request_size r + list_sum (map request_size rs))%nat.
  rewrite IH. cbn [filter].
  destruct r; cbn [is_single is_pair request_size List.length]; lia.
Qed.

(** X9. Every simple symbol is 1015 bytes long and every varicolor symbol
    1526, whatever the name, the paths and the pictures; the bytes a
    directory yields are as long as its single-file symbols and its
    variant pairs add up to, the groups that are neither adding nothing. *)
Theorem output_length :
  (forall fs name file isGroup b,
      SimpleSymbol_bytes fs name file isGroup = Ok b ->
      List.length b = 1015%nat)
  /\ (forall fs name file1 file2 isGroup b,
      VaricolorSymbol_bytes fs name file1 file2 isGroup = Ok b ->
      List.length b = 1526%nat)
  /\ (forall fs listdir dir out,
      process_symbol_images fs listdir dir = Ok out ->
      let rs := requests dir (listdir dir) in
      List.length out
      = (1015 * List.length (filter is_single rs)
         + 1526 * List.length (filter is_pair rs))%nat).
Proof.
  split; [|split].
  - intros fs name file isGroup b H.
    now rewrite (SimpleSymbol_length _ _ _ _ _ H).
  - intros fs name file1 file2 isGroup b H.
    now rewrite (VaricolorSymbol_length _ _ _ _ _ _ H).
  - intros fs listdir dir out. rewrite process_symbol_images_requests.
    destruct (emit_all fs (requests dir (listdir dir))) as [bs|e] eqn:E;
      cbn [rbind]; [|discriminate].
    intros [= <-]. cbv zeta.
    rewrite (emit_all_length _ _ _ E), sum_request_size. reflexivity.
Qed.

Lemma output_length_witness :
  List.length example_simple = 1015%nat
  /\ List.length example_varicolor = 1526%nat.
Proof.
  destruct output_length as (S & V & _). split.
  - apply (S example_fs "Tower 01" "d/Tower 01.png" true).
    vm_compute; reflexivity.
  - apply (V example_fs "Tower" "d/Tower vari_01.png" "d/Tower vari_02.png"
             true).
    vm_compute; reflexivity.
Defined.

(** ** What the constructors leave alone *)

(** X10. The entity header of every record of a built symbol keeps the
    values the header's own constructor gave it (colours 224, layer 256,
    fill style 1, everything else zero): no later assignment of either
    symbol constructor, and no name or path stored next to it, reaches
    them. *)
Theorem entity_headers_keep_defaults :
  (forall fs name file isGroup b,
      SimpleSymbol_bytes fs name file isGroup = Ok b ->
      header_defaults SimpleSymbol "symbol_definition" b
      /\ header_defaults SimpleSymbol "picture_info" b
      /\ header_defaults SimpleSymbol "symbol_info" b)
  /\ (forall fs name file1 file2 isGroup b,
      VaricolorSymbol_bytes fs name file1 file2 isGroup = Ok b ->
      header_defaults VaricolorSymbol "symbol_definition" b
      /\ header_defaults VaricolorSymbol "picture1_info" b
      /\ header_defaults VaricolorSymbol "picture2_info" b
      /\ header_defaults VaricolorSymbol "symbol_info" b).
Proof.
  split.
  - intros fs name file isGroup b H.
    destruct (SimpleSymbol_built _ _ _ _ _ H) as (w & h & _ & ->).
    unfold header_defaults. destruct isGroup; fields.
  - intros fs name file1 file2 isGroup b H.
    destruct (VaricolorSymbol_built _ _ _ _ _ _ H)
      as (w1 & h1 & w2 & h2 & _ & _ & ->).
    unfold header_defaults. destruct isGroup; fields.
Qed.

Lemma entity_headers_keep_defaults_witness :
  header_defaults VaricolorSymbol "picture2_info" example_varicolor.
Proof.
  destruct entity_headers_keep_defaults as (_ & V).
  apply (V example_fs "Tower" "d/Tower vari_01.png" "d/Tower vari_02.png"
           true).
  vm_compute; reflexivity.
Defined.

(** X11. In a built symbol every picture record is a version-0 picture
    in alpha-blend mode with flags 13, centre, bearing, transparent colour
    and alpha left at zero and an empty reserve; the symbol-info record is
    a version-1 record with unit scales, no random transform, no extended
    flags and empty sheet and drawing-tool names. *)
Theorem record_constants :
  (forall fs name file isGroup b,
      SimpleSymbol_bytes fs name file isGroup = Ok b ->
      picture_constants SimpleSymbol "picture_info" b
      /\ symbol_info_constants SimpleSymbol b)
  /\ (forall fs name file1 file2 isGroup b,
      VaricolorSymbol_bytes fs name file1 file2 isGroup = Ok b ->
      picture_constants VaricolorSymbol "picture1_info" b
      /\ picture_constants VaricolorSymbol "picture2_info" b
      /\ symbol_info_constants VaricolorSymbol b).
Proof.
  split.
  - intros fs name file isGroup b H.
    destruct (SimpleSymbol_built _ _ _ _ _ H) as (w & h & _ & ->).
    unfold picture_constants, symbol_info_constants, field_string.
    destruct isGroup; fields.
  - intros fs name file1 file2 isGroup b H.
    destruct (VaricolorSymbol_built _ _ _ _ _ _ H)
      as (w1 & h1 & w2 & h2 & _ & _ & ->).
    unfold picture_constants, symbol_info_constants, field_string.
    destruct isGroup; fields.
Qed.

Lemma record_constants_witness :
  picture_constants SimpleSymbol "picture_info" example_simple
  /\ symbol_info_constants SimpleSymbol example_simple.
Proof.
  destruct record_constants as (S & _).
  apply (S example_fs "Tower 01" "d/Tower 01.png" true).
  vm_compute; reflexivity.
Defined.

(* ------------------------------------------------------------------ *)
(** * Further properties of the grouping *)

(** ** The first loop *)

(** X12. After the first loop, the entry of each of the three
    dictionaries under a key is the list of the paths of the files with
    that key, in the order of the listing, and there is no entry under a
    key no file has. *)
Theorem first_pass_contents dir listing k :
  dict_get k (groups (first_pass dir listing))
  = entry (members group_key dir listing k)
  /\ dict_get k (subgroup_variant (first_pass dir listing))
     = entry (members (subgroup_key true) dir listing k)
  /\ dict_get k (subgroup_normal (first_pass dir listing))
     = entry (members (subgroup_key false) dir listing k).
Proof.
  split; [|split].
  - rewrite first_pass_groups, dict_get_collect.
    now destruct (members group_key dir listing k).
  - change (subgroup_variant (first_pass dir listing))
      with (subgroup_of true (first_pass dir listing)).
    rewrite first_pass_subgroup, dict_get_collect.
    now destruct (members (subgroup_key true) dir listing k).
  - change (subgroup_normal (first_pass dir listing))
      with (subgroup_of false (first_pass dir listing)).
    rewrite first_pass_subgroup, dict_get_collect.
    now destruct (members (subgroup_key false) dir listing k).
Qed.

Lemma skip_count_step dir g f :
  skip_count (first_pass_step dir g f)
  = if skipped f then S (skip_count g) else skip_count g.
Proof.
  unfold first_pass_step, skipped.
  destruct (str_endswith ".png" (lower f)); cbn [negb andb]; [|reflexivity].
  destruct (check_filename_compatibility f); cbn [negb]; [|reflexivity].
  destruct (subgroup_pattern _); [destruct (variant_pattern f)|]; reflexivity.
Qed.

Lemma skip_count_fold dir l : forall g,
  skip_count (fold_left (first_pass_step dir) l g)
  = (skip_count g + List.length (filter skipped l))%nat.
Proof.
  induction l as [|f l IH]; intros g; cbn [fold_left filter].
  - cbn. lia.
  - rewrite IH, skip_count_step. destruct (skipped f); cbn [List.length]; lia.
Qed.

(** X13. The count of skipped files is the number of files of the listing
    whose name ends in [.png], in any letter case, and is not ASCII; every
    such file is either counted or filed in a group, never both. *)
Theorem skip_count_counts dir listing :
  skip_count (first_pass dir listing) = List.length (filter skipped listing)
  /\ (List.length (filter kept listing)
      + List.length (filter skipped listing)
      = List.length
          (filter (fun f => str_endswith ".png" (lower f)) listing))%nat
  /\ forall f, kept f && skipped f = false.
Proof.
  split; [|split].
  - unfold first_pass. now rewrite skip_count_fold.
  - induction listing as [|f l IH]; [reflexivity|]. cbn [filter].
    unfold kept at 1, skipped at 1.
    destruct (str_endswith ".png" (lower f)),
      (check_filename_compatibility f); cbn [negb andb List.length]; lia.
  - intros f. unfold kept, skipped.
    now destruct (str_endswith ".png" (lower f)),
      (check_filename_compatibility f).
Qed.

Lemma collect_filter key_of dir (p : string -> bool) l :
  (forall f, p f = false -> key_of f = None) ->
  forall d, collect key_of dir (filter p l) d = collect key_of dir l d.
Proof.
  intros Hp. unfold collect.
  induction l as [|f l IH]; intros d; cbn [filter fold_left]; [reflexivity|].
  destruct (p f) eqn:E; cbn [fold_left].
  - apply IH.
  - rewrite (Hp _ E). apply IH.
Qed.

Lemma group_key_unkept f : kept f = false -> group_key f = None.
Proof. unfold group_key. now intros ->. Qed.

Lemma subgroup_key_unkept variant f :
  kept f = false -> subgroup_key variant f = None.
Proof. unfold subgroup_key. now intros ->. Qed.

Lemma request_of_ext g g' k files :
  subgroup_variant g = subgroup_variant g' ->
  subgroup_normal g = subgroup_normal g' ->
  request_of g k files = request_of g' k files.
Proof. unfold request_of. now intros -> ->. Qed.

Lemma requests_filter_kept dir l :
  requests dir l = requests dir (filter kept l).
Proof.
  unfold requests.
  assert (G : groups (first_pass dir l)
              = groups (first_pass dir (filter kept l))).
  { rewrite !first_pass_groups. symmetry.
    apply collect_filter, group_key_unkept. }
  assert (S : forall variant,
             subgroup_of variant (first_pass dir l)
             = subgroup_of variant (first_pass dir (filter kept l))).
  { intros variant. rewrite !first_pass_subgroup. symmetry.
    apply collect_filter, subgroup_key_unkept. }
  cbv zeta. rewrite <- G. apply map_ext. intros kv.
  apply request_of_ext; [exact (S true)|exact (S false)].
Qed.

(** X14. Files that are not PNG files with an ASCII name play no part:
    the groups formed from a listing are those formed from its kept files
    alone; and a directory with no kept file yields no symbol and no
    bytes, whatever the file system holds. *)
Theorem unkept_files_ignored :
  (forall dir listing,
      requests dir listing = requests dir (filter kept listing))
  /\ (forall fs listdir dir,
      (forall f, In f (listdir dir) -> kept f = false) ->
      requests dir (listdir dir) = []
      /\ process_symbol_images fs listdir dir = Ok []).
Proof.
  split; [exact requests_filter_kept|].
  intros fs listdir dir H.
  assert (R : requests dir (listdir dir) = []).
  { rewrite requests_filter_kept, (filter_zero kept _ H). reflexivity. }
  split; [exact R|].
  rewrite process_symbol_images_requests, R. reflexivity.
Qed.

Lemma unkept_files_ignored_witness :
  process_symbol_images example_fs (fun _ => junk_listing) "d" = Ok [].
Proof.
  destruct unkept_files_ignored as (_ & E).
  apply (E example_fs (fun _ => junk_listing) "d").
  intros f [<-|[<-|[<-|[]]]]; reflexivity.
Defined.

(** ** The second loop *)

Lemma symbols_for_request_of g k files :
  (List.length (filter is_symbol [request_of g k files]) <= 1)%nat.
Proof. cbn [filter]. destruct (is_symbol _); cbn; lia. Qed.

(** X15. The second loop emits at most one symbol under a key, and none
    for a group of three files or more, for a lone file whose path
    contains [vari_], or for two files one of whose paths does not
    contain [vari_]. *)
Theorem unhandled_groups dir listing k :
  (List.length (symbols_for k (requests dir listing)) <= 1)%nat
  /\ ((2 < List.length (members group_key dir listing k))%nat ->
      symbols_for k (requests dir listing) = [])
  /\ (forall p,
      members group_key dir listing k = [p] ->
      contains "vari_" p = true ->
      symbols_for k (requests dir listing) = [])
  /\ (forall p1 p2,
      members group_key dir listing k = [p1; p2] ->
      contains "vari_" p1 && contains "vari_" p2 = false ->
      symbols_for k (requests dir listing) = []).
Proof.
  rewrite symbols_for_requests.
  destruct (members group_key dir listing k) as [|a [|b [|c m]]] eqn:M.
  - repeat split; try reflexivity; cbn; lia.
  - split; [apply symbols_for_request_of|].
    split; [cbn; lia|]. split; [|discriminate].
    intros p [= <-] C. unfold request_of.
    cbn [List.length Nat.eqb andb nth]. rewrite C. reflexivity.
  - split; [apply symbols_for_request_of|].
    split; [cbn; lia|]. split; [discriminate|].
    intros p1 p2 [= <- <-] C. unfold request_of.
    cbn [List.length Nat.eqb andb forallb]. rewrite andb_true_r, C.
    reflexivity.
  - split; [apply symbols_for_request_of|].
    split; [reflexivity|]. split; discriminate.
Qed.

Lemma unhandled_groups_witness :
  symbols_for "Tower" (requests "d" crowded_listing) = [].
Proof.
  destruct (unhandled_groups "d" crowded_listing "Tower") as (_ & T & _).
  apply T. vm_compute. lia.
Defined.

Lemma in_dict_get k vs (d : dict) :
  NoDup (map fst d) -> In (k, vs) d -> dict_get k d = Some vs.
Proof.
  induction d as [|[k' vs'] d IH]; cbn [map fst In dict_get]; [tauto|].
  intros Hnd [E|Hin].
  - injection E as -> ->. now rewrite String.eqb_refl.
  - inversion Hnd as [|? ? Hn Hnd']; subst.
    destruct (String.eqb k' k) eqn:E; [|now apply IH].
    apply String.eqb_eq in E. subst k'. exfalso. apply Hn.
    change k with (fst (k, vs)). now apply in_map.
Qed.

Lemma in_groups_members dir l k vs :
  In (k, vs) (groups (first_pass dir l)) ->
  members group_key dir l k = vs /\ vs <> [].
Proof.
  intros Hin. apply (in_dict_get _ _ _ (NoDup_groups dir l)) in Hin.
  rewrite first_pass_groups, dict_get_collect in Hin.
  destruct (members group_key dir l k); [discriminate|].
  cbn in Hin. injection Hin as <-. split; [reflexivity|discriminate].
Qed.

Lemma sort_pair a b :
  (sort [a; b] = [a; b] \/ sort [a; b] = [b; a])
  /\ String.leb (nth 0 (sort [a; b]) "") (nth 1 (sort [a; b]) "") = true.
Proof.
  unfold sort. cbn [fold_right insert_sorted].
  destruct (String.leb a b) eqn:E; cbn [nth].
  - auto.
  - split; [auto|]. destruct (String.leb_total a b); congruence.
Qed.

(** X16. Whatever the second loop does, it does with the files of the
    listing.  A simple symbol is requested only for a key with exactly
    one file, whose path does not contain [vari_], and for that path; a
    varicolor symbol only for a key with exactly two files, both paths
    containing [vari_], and for those two paths in ascending order; the
    grouped flag is the one the subgroup of the key's numbered prefix
    gives.  A group reported as unhandled is a whole group of the
    listing. *)
Theorem requests_sound dir listing r :
  In r (requests dir listing) -> request_sound dir listing r.
Proof.
  unfold requests. cbv zeta. rewrite in_map_iff.
  intros ([k vs] & <- & Hin). cbn [fst snd].
  destruct (in_groups_members _ _ _ _ Hin) as (M & Hne).
  unfold request_of.
  destruct ((List.length vs =? 2)%nat && forallb (contains "vari_") vs)
    eqn:E2.
  - apply andb_prop in E2 as (L & C). apply Nat.eqb_eq in L.
    destruct vs as [|a [|b [|c vs]]]; try discriminate.
    cbn [forallb] in C. apply andb_prop in C as (Ca & Cb).
    rewrite andb_true_r in Cb.
    destruct (sort_pair a b) as ([S|S] & Hle); rewrite S in *;
      cbn [nth request_sound] in *; rewrite M;
      change (subgroup_variant (first_pass dir listing))
        with (subgroup_of true (first_pass dir listing));
      rewrite in_subgroup_grouped; auto 10.
  - destruct ((List.length vs =? 1)%nat
              && negb (contains "vari_" (nth 0 vs ""))) eqn:E1.
    + apply andb_prop in E1 as (L & C). apply Nat.eqb_eq in L.
      destruct vs as [|a [|b vs]]; try discriminate.
      cbn [nth request_sound] in *. apply negb_true_iff in C.
      change (subgroup_normal (first_pass dir listing))
        with (subgroup_of false (first_pass dir listing)).
      rewrite in_subgroup_grouped. auto.
    + cbn [request_sound]. auto.
Qed.

Lemma requests_sound_witness :
  request_sound "d" pair_listing
    (VariantPair "Tower" "d/Tower vari_01.png" "d/Tower vari_02.png" false).
Proof.
  apply requests_sound. vm_compute. tauto.
Defined.

Lemma in_keys_dict_get k (d : dict) :
  In k (map fst d) <-> dict_get k d <> None.
Proof.
  induction d as [|[k' vs] d IH]; cbn [map fst In dict_get].
  - split; [tauto|congruence].
  - destruct (String.eqb k' k) eqn:E.
    + apply String.eqb_eq in E. split; [discriminate|auto].
    + apply String.eqb_neq in E. rewrite <- IH. tauto.
Qed.

Lemma length_dict_append k v d :
  (List.length (dict_append k v d) <= S (List.length d))%nat.
Proof.
  induction d as [|[k' vs] d IH]; cbn [dict_append List.length]; [lia|].
  destruct (String.eqb k' k); cbn [List.length]; lia.
Qed.

Lemma length_collect dir l : forall d,
  (List.length (collect group_key dir l d)
   <= List.length d + List.length (filter kept l))%nat.
Proof.
  unfold collect.
  induction l as [|f l IH]; intros d; cbn [fold_left filter]; [lia|].
  unfold group_key at 2.
  destruct (kept f); cbn [List.length].
  - etransitivity; [apply IH|]. pose proof (length_dict_append
      (base_symbol_name f) (path_join dir f) d). lia.
  - apply IH.
Qed.

(** X17. The second loop visits each key once: the names of its requests
    are pairwise distinct, they are exactly the keys of the kept files of
    the listing, and there are at most as many as kept files. *)
Theorem request_names dir listing :
  NoDup (map request_name (requests dir listing))
  /\ (forall n,
      In n (map request_name (requests dir listing))
      <-> exists f, In f listing /\ group_key f = Some n)
  /\ (List.length (requests dir listing)
      <= List.length (filter kept listing))%nat.
Proof.
  rewrite names_of_requests. split; [apply NoDup_groups|]. split.
  - intros n. rewrite in_keys_dict_get, first_pass_groups, dict_get_collect.
    unfold members. split.
    + intros H.
      destruct (filter (has_key group_key n) listing) as [|f fl] eqn:F;
        [now cbn in H|].
      assert (Hf : In f (filter (has_key group_key n) listing))
        by (rewrite F; now left).
      apply filter_In in Hf as (Hin & Hk). exists f. split; [exact Hin|].
      unfold has_key in Hk. destruct (group_key f); [|discriminate].
      apply String.eqb_eq in Hk. now subst.
    + intros (f & Hin & Hk).
      assert (Hf : In f (filter (has_key group_key n) listing)).
      { apply filter_In. split; [exact Hin|]. now apply has_key_hit. }
      destruct (filter (has_key group_key n) listing); [destruct Hf|].
      discriminate.
  - unfold requests. cbv zeta. rewrite length_map, first_pass_groups.
    apply (length_collect dir listing []).
Qed.

Lemma emit_all_ok fs rs : forall out,
  emit_all fs rs = Ok out
  <-> exists parts, Forall2 (request_gives fs) rs parts
                    /\ out = List.concat parts.
Proof.
  unfold request_gives.
  induction rs as [|r rs IH]; intros out; cbn [emit_all].
  - split.
    + intros [= <-]. exists []. split; [constructor|reflexivity].
    + intros (parts & F & ->). inversion F. reflexivity.
  - split.
    + destruct (emit fs r) as [new|e] eqn:E; cbn [rbind]; [|discriminate].
      destruct (emit_all fs rs) as [rest|e] eqn:R; cbn [rbind];
        [|discriminate].
      intros [= <-]. destruct (proj1 (IH rest) eq_refl) as (parts & F & ->).
      exists (new :: parts). split; [now constructor|reflexivity].
    + intros (parts & F & ->). inversion F as [|? new ? parts' E F']; subst.
      rewrite E. cbn [rbind].
      rewrite (proj2 (IH (List.concat parts')))
        by (exists parts'; split; [exact F'|reflexivity]).
      reflexivity.
Qed.

Lemma emit_all_raise fs before r after e :
  Forall (fun r' => exists bs, emit fs r' = Ok bs) before ->
  emit fs r = Raise e ->
  emit_all fs (before ++ r :: after) = Raise e.
Proof.
  intros F E. induction F as [|r' before (bs & Hr) F IH];
    cbn [app emit_all].
  - rewrite E. reflexivity.
  - rewrite Hr, IH. reflexivity.
Qed.

(** X18. A directory is converted all or nothing.  It yields bytes
    exactly when every request of the second loop is served, and the
    bytes are then the symbols of the requests one after the other, in
    the order of the requests; the exception of the first request that
    fails is the exception of the directory, and what the requests before
    it produced is lost. *)
Theorem directory_all_or_nothing fs listdir dir :
  (forall out,
      process_symbol_images fs listdir dir = Ok out
      <-> exists parts,
            Forall2 (request_gives fs) (requests dir (listdir dir)) parts
            /\ out = List.concat (List.concat parts))
  /\ (forall before r after e,
      requests dir (listdir dir) = before ++ r :: after ->
      Forall (fun r' => exists bs, request_gives fs r' bs) before ->
      emit fs r = Raise e ->
      process_symbol_images fs listdir dir = Raise e).
Proof.
  rewrite process_symbol_images_requests. split.
  - intros out. split.
    + destruct (emit_all fs (requests dir (listdir dir))) as [bs|e] eqn:E;
        cbn [rbind]; [|discriminate].
      intros [= <-]. apply emit_all_ok in E as (parts & F & ->).
      now exists parts.
    + intros (parts & F & ->).
      rewrite (proj2 (emit_all_ok fs _ (List.concat parts)))
        by now exists parts.
      reflexivity.
  - intros before r after e -> F E.
    now rewrite (emit_all_raise _ _ _ _ _ F E).
Qed.

Lemma directory_all_or_nothing_witness :
  process_symbol_images example_fs broken_listing "d" = Raise TypeError.
Proof.
  destruct (directory_all_or_nothing example_fs broken_listing "d")
    as (_ & R).
  apply (R [] (SingleSymbol "broken" "d/broken.png" false)
           [SingleSymbol "Tower 01" "d/Tower 01.png" false]).
  - vm_compute; reflexivity.
  - constructor.
  - vm_compute; reflexivity.
Defined.

(** ** The catalog *)

Lemma process_directories_ok fs listdir dirs : forall acc res,
  process_directories fs listdir dirs acc = Ok res
  <-> exists parts, Forall2 (directory_gives fs listdir) dirs parts
                    /\ res = acc ++ parts.
Proof.
  unfold directory_gives.
  induction dirs as [|d dirs IH]; intros acc res; cbn [process_directories].
  - split.
    + intros [= <-]. exists []. split; [constructor|now rewrite app_nil_r].
    + intros (parts & F & ->). inversion F. now rewrite app_nil_r.
  - split.
    + destruct (process_symbol_images fs listdir d) as [p|e] eqn:E;
        cbn [rbind]; [|discriminate].
      intros H. apply IH in H as (parts & F & ->).
      exists (p :: parts). split; [now constructor|].
      now rewrite <- app_assoc.
    + intros (parts & F & ->). inversion F as [|? p ? parts' E F']; subst.
      rewrite E. cbn [rbind]. apply IH. exists parts'.
      split; [exact F'|]. now rewrite <- app_assoc.
Qed.

Lemma process_directories_raise fs listdir before d after e : forall acc,
  Forall (fun d' => exists p, process_symbol_images fs listdir d' = Ok p)
    before ->
  process_symbol_images fs listdir d = Raise e ->
  process_directories fs listdir (before ++ d :: after) acc = Raise e.
Proof.
  intros acc F E. revert acc.
  induction F as [|d' before (p & Hd) F IH]; intros acc;
    cbn [app process_directories].
  - rewrite E. reflexivity.
  - rewrite Hd. cbn [rbind]. apply IH.
Qed.

Lemma FileID_built : exists hdr, construct FileID FileID_init = Ok hdr.
Proof. eexists. vm_compute. reflexivity. Qed.

(** X19. The catalog is written all or nothing.  There are bytes to
    write exactly when every source directory is converted, and they are
    then the header, the info blocks and the symbols of the directories in
    the order of the directories; the exception of the first directory
    that fails is the outcome of the whole catalog, which then has no
    bytes at all, not even those of the directories before it. *)
Theorem catalog_all_or_nothing fs listdir dirs infoblocks :
  (forall out,
      catalog_file fs listdir dirs infoblocks = Ok out
      <-> exists hdr parts,
            construct FileID FileID_init = Ok hdr
            /\ Forall2 (directory_gives fs listdir) dirs parts
            /\ out = hdr ++ infoblocks ++ List.concat parts)
  /\ (forall before d after e,
      dirs = before ++ d :: after ->
      Forall (fun d' => exists p, directory_gives fs listdir d' p) before ->
      process_symbol_images fs listdir d = Raise e ->
      catalog_file fs listdir dirs infoblocks = Raise e).
Proof.
  destruct FileID_built as (hdr & Hh). unfold catalog_file. split.
  - intros out. rewrite Hh. split.
    + destruct (process_directories fs listdir dirs []) as [sl|e] eqn:E;
        cbn [rbind]; [|discriminate].
      intros [= <-]. apply process_directories_ok in E as (parts & F & ->).
      exists hdr, parts. auto.
    + intros (hdr' & parts & Hh' & F & ->).
      assert (hdr' = hdr) as -> by congruence.
      rewrite (proj2 (process_directories_ok fs listdir dirs [] parts))
        by now exists parts.
      reflexivity.
  - intros before d after e -> F E.
    now rewrite (process_directories_raise _ _ _ _ _ _ [] F E).
Qed.

Lemma catalog_all_or_nothing_witness :
  catalog_file example_fs broken_listing ["d"] [1; 2; 3] = Raise TypeError.
Proof.
  destruct (catalog_all_or_nothing example_fs broken_listing ["d"] [1; 2; 3])
    as (_ & R).
  apply (R [] "d" []).
  - reflexivity.
  - constructor.
  - vm_compute; reflexivity.
Defined.

(** ** Paths *)

Lemma append_nil_r (s : string) : (s ++ "")%string = s.
Proof. induction s as [|c s IH]; cbn; [reflexivity|now rewrite IH]. Qed.










(** ** The two patterns *)

Lemma lazy_group_spec rest : forall s g,
  lazy_group rest s = Some g ->
  exists t,
    s = (g ++ t)%string /\ rest t = true /\ no_newline g = true
    /\ forall g1 g2, g = (g1 ++ g2)%string -> g2 <> EmptyString ->
                     rest (g2 ++ t)%string = false.
Proof.
  induction s as [|c s IH]; intros g; cbn [lazy_group].
  - destruct (rest EmptyString) eqn:R; [|discriminate].
    intros [= <-]. exists EmptyString. repeat split; try assumption.
    intros [|? ?] g2; cbn; [congruence|discriminate].
  - destruct (rest (String c s)) eqn:R.
    + intros [= <-]. exists (String c s). repeat split; try assumption.
      intros [|? ?] g2; cbn; [congruence|discriminate].
    + destruct (is_newline c) eqn:N; [discriminate|].
      destruct (lazy_group rest s) as [g'|] eqn:L; [|discriminate].
      intros [= <-]. destruct (IH g' eq_refl) as (t & -> & Rt & Ng & Min).
      exists t. split; [reflexivity|]. split; [exact Rt|].
      split; [cbn [no_newline]; now rewrite N|].
      intros [|a g1] g2; cbn [append].
      * intros <- _. exact R.
      * intros [= <- E] Hne. now apply (Min g1 g2).
Qed.

Lemma lazy_group_complete rest t : forall g,
  rest t = true -> no_newline g = true ->
  (forall g1 g2, g = (g1 ++ g2)%string -> g2 <> EmptyString ->
                 rest (g2 ++ t)%string = false) ->
  lazy_group rest (g ++ t) = Some g.
Proof.
  intros g Rt. induction g as [|c g IH]; intros Ng Min.
  - cbn [append]. destruct t; cbn [lazy_group]; now rewrite Rt.
  - cbn [append lazy_group].
    assert (R : rest (String c (g ++ t)) = false)
      by (apply (Min EmptyString (String c g) eq_refl); discriminate).
    rewrite R.
    cbn [no_newline] in Ng. apply andb_prop in Ng as (Nc & Ng).
    apply negb_true_iff in Nc. rewrite Nc, IH; [reflexivity|exact Ng|].
    intros g1 g2 -> Hne. now apply (Min (String c g1) g2).
Qed.

Lemma digits_then_end D :
  D <> EmptyString -> all_digits D = true ->
  one_or_more is_digit at_end D = true.
Proof.
  induction D as [|c D IH]; [congruence|]. intros _ H.
  cbn [all_digits] in H. apply andb_prop in H as (Hc & HD).
  cbn [one_or_more]. rewrite Hc. cbn [andb].
  destruct D as [|d D]; [reflexivity|].
  rewrite IH by (discriminate || assumption). reflexivity.
Qed.

Lemma digit_not_newline c : is_digit c = true -> is_newline c = false.
Proof.
  unfold is_digit, is_newline, chr_newline. intros H.
  apply Ascii.eqb_neq. intros ->. discriminate.
Qed.

Lemma digits_before_digits g D :
  D <> EmptyString -> all_digits D = true ->
  one_or_more is_digit at_end (g ++ D) = true -> all_digits g = true.
Proof.
  intros Hne HD. induction g as [|c g IH]; [reflexivity|].
  cbn [append one_or_more all_digits]. intros H.
  apply andb_prop in H as (Hc & H). rewrite Hc. cbn [andb].
  apply orb_prop in H as [H|H]; [now apply IH|].
  destruct g as [|d g]; [reflexivity|].
  cbn [append at_end] in H.
  destruct (g ++ D)%string eqn:E; [|discriminate].
  destruct g; [|discriminate]. cbn in E. congruence.
Qed.

Lemma ends_with_digit_app g1 g2 :
  g2 <> EmptyString -> all_digits g2 = true ->
  ends_with_digit (g1 ++ g2) = true.
Proof.
  intros Hne H.
  assert (E : ends_with_digit g2 = true).
  { induction g2 as [|c g2 IH]; [congruence|].
    cbn [all_digits] in H. apply andb_prop in H as (Hc & H).
    cbn [ends_with_digit]. destruct g2; [exact Hc|].
    apply IH; [discriminate|exact H]. }
  induction g1 as [|c g1 IH]; [exact E|].
  cbn [append ends_with_digit].
  destruct (g1 ++ g2)%string eqn:A; [|exact IH].
  destruct g1; [|discriminate]. cbn in A. congruence.
Qed.

Lemma one_or_more_split p k : forall t,
  one_or_more p k t = true ->
  exists a b, t = (a ++ b)%string /\ a <> EmptyString
              /\ (forall c, In c (list_ascii_of_string a) -> p c = true)
              /\ k b = true.
Proof.
  induction t as [|c t IH]; cbn [one_or_more]; [discriminate|].
  intros H. apply andb_prop in H as (Hc & H).
  apply orb_prop in H as [H|H].
  - destruct (IH H) as (a & b & -> & _ & Pa & Kb).
    exists (String c a), b. repeat split; try assumption; [discriminate|].
    intros x [<-|Hx]; auto.
  - exists (String c EmptyString), t.
    repeat split; try assumption; [discriminate|].
    intros x [<-|[]]; exact Hc.
Qed.

Lemma all_space_chars a :
  (forall c, In c (list_ascii_of_string a) -> is_space c = true) ->
  all_space a = true.
Proof.
  induction a as [|c a IH]; [reflexivity|]. cbn [list_ascii_of_string].
  intros H. cbn [all_space].
  rewrite (H c) by now left. apply IH. intros x Hx. apply H. now right.
Qed.

Lemma ends_with_space_last B :
  ends_with_space B = true ->
  exists B1 c, B = (B1 ++ String c EmptyString)%string /\ is_space c = true.
Proof.
  induction B as [|c B IH]; [discriminate|]. cbn [ends_with_space].
  destruct B as [|d B].
  - intros H. exists EmptyString, c. auto.
  - intros H. destruct (IH H) as (B1 & x & E & Hx).
    exists (String c B1), x. cbn [append]. rewrite <- E. auto.
Qed.

(** X21. The first-group pattern [^(.*?)(\d+)$] strips a whole trailing
    number: on a name made of a part free of newlines that does not end in
    a digit, followed by one or more digits, it matches and its first
    group is that part; conversely, when it matches, the name is the group
    followed by digits only (and a final newline at most), and the group
    does not end in a digit. *)
Theorem subgroup_pattern_strips_number :
  (forall P D,
      no_newline P = true -> ends_with_digit P = false ->
      D <> EmptyString -> all_digits D = true ->
      subgroup_pattern (P ++ D) = Some P)
  /\ (forall s P,
      subgroup_pattern s = Some P ->
      no_newline P = true /\ ends_with_digit P = false
      /\ exists D, D <> EmptyString /\ all_digits D = true
                   /\ (s = (P ++ D)%string
                       \/ s = (P ++ D ++ String chr_newline "")%string)).
Proof.
  split.
  - intros P D Hn He Hne HD. unfold subgroup_pattern.
    apply lazy_group_complete;
      [now apply digits_then_end|exact Hn|].
    intros g1 g2 -> Hg2.
    destruct (one_or_more is_digit at_end (g2 ++ D)) eqn:E; [|reflexivity].
    apply (digits_before_digits _ _ Hne HD) in E.
    now rewrite (ends_with_digit_app g1 g2 Hg2 E) in He.
  - intros s P H. unfold subgroup_pattern in H.
    apply lazy_group_spec in H as (t & -> & Rt & Nn & Min).
    split; [exact Nn|].
    destruct (one_or_more_split _ _ _ Rt) as (D & e & -> & HD & Dd & He).
    assert (AD : all_digits D = true).
    { clear - Dd. induction D as [|c D IH]; [reflexivity|].
      cbn [all_digits]. rewrite (Dd c) by now left.
      apply IH. intros x Hx. apply Dd. now right. }
    split.
    + destruct (ends_with_digit P) eqn:E; [|reflexivity].
      assert (L : exists P1 c, P = (P1 ++ String c "")%string
                               /\ is_digit c = true).
      { clear - E. induction P as [|c P IH]; [discriminate|].
        cbn [ends_with_digit] in E. destruct P as [|d P].
        - exists EmptyString, c. auto.
        - destruct (IH E) as (P1 & x & Ex & Hx).
          exists (String c P1), x. cbn [append]. rewrite <- Ex. auto. }
      destruct L as (P1 & c & -> & Hc).
      assert (F := Min P1 (String c "") eq_refl ltac:(discriminate)).
      cbn [append one_or_more] in F. rewrite Hc, Rt in F. discriminate.
    + exists D. split; [exact HD|]. split; [exact AD|].
      destruct e as [|x [|y e]]; cbn [at_end] in He; try discriminate.
      * left. now rewrite append_nil_r.
      * right. unfold is_newline in He. apply Ascii.eqb_eq in He. now subst.
Qed.

Lemma subgroup_pattern_strips_number_witness :
  subgroup_pattern "Tower 01" = Some "Tower ".
Proof.
  destruct subgroup_pattern_strips_number as (S & _).
  apply (S "Tower " "01"); [reflexivity|reflexivity|discriminate|reflexivity].
Defined.

(** X22. When the variant pattern matches a file name, the name is the
    first group, then one or more white-space characters, then
    [vari_01.png] or [vari_02.png] in some letter case; the group has no
    newline and, the group being as short as can be, it does not end in
    white space: all the white space before [vari_] belongs to the
    separator, none to the key. *)
Theorem variant_pattern_sound f B :
  variant_pattern f = Some B ->
  no_newline B = true
  /\ ends_with_space B = false
  /\ exists sp lit,
       f = (B ++ sp ++ lit)%string
       /\ sp <> EmptyString /\ all_space sp = true
       /\ variant_literal lit = true /\ (String.length lit <= 12)%nat.
Proof.
  unfold variant_pattern. intros H.
  apply lazy_group_spec in H as (t & -> & Rt & Nn & Min).
  split; [exact Nn|]. split.
  - destruct (ends_with_space B) eqn:E; [|reflexivity].
    destruct (ends_with_space_last _ E) as (B1 & c & -> & Hc).
    assert (F := Min B1 (String c "") eq_refl ltac:(discriminate)).
    unfold variant_suffix in F, Rt. cbn [append one_or_more] in F.
    rewrite Hc, Rt in F. discriminate.
  - unfold variant_suffix in Rt.
    destruct (one_or_more_split _ _ _ Rt) as (sp & lit & -> & Hsp & Ssp & L).
    exists sp, lit. split; [reflexivity|]. split; [exact Hsp|].
    split; [now apply all_space_chars|]. split; [exact L|].
    now apply variant_literal_length.
Qed.

Lemma variant_pattern_sound_witness :
  no_newline "Tower" = true /\ ends_with_space "Tower" = false.
Proof.
  destruct (variant_pattern_sound "Tower  VARI_02.PNG" "Tower")
    as (N & E & _); [reflexivity|exact (conj N E)].
Defined.

(** ** Stems and extensions *)

Lemma substring_all s : substring 0 (String.length s) s = s.
Proof. induction s as [|c s IH]; cbn; [reflexivity|now rewrite IH]. Qed.

Lemma take_drop s : forall n,
  (substring 0 n s ++ substring n (String.length s - n) s)%string = s.
Proof.
  induction s as [|c s IH]; intros [|n]; try reflexivity.
  - cbn [substring append String.length Nat.sub].
    change (substring 0 (S (String.length s)) (String c s))
      with (String c (substring 0 (String.length s) s)).
    now rewrite substring_all.
  - cbn [String.length Nat.sub].
    change (substring 0 (S n) (String c s))
      with (String c (substring 0 n s)).
    change (substring (S n) (String.length s - n) (String c s))
      with (substring n (String.length s - n) s).
    cbn [append]. now rewrite IH.
Qed.

Lemma take_app a b : substring 0 (String.length a) (a ++ b) = a.
Proof.
  induction a as [|c a IH]; cbn [String.length append].
  - now destruct b.
  - change (substring 0 (S (String.length a)) (String c (a ++ b)))
      with (String c (substring 0 (String.length a) (a ++ b))).
    now rewrite IH.
Qed.

Lemma drop_app a b :
  substring (String.length a)
    (String.length (a ++ b) - String.length a) (a ++ b) = b.
Proof.
  induction a as [|c a IH]; cbn [String.length append Nat.sub].
  - rewrite Nat.sub_0_r. apply substring_all.
  - exact IH.
Qed.

Lemma rfind_from_absent c s : forall i found,
  no_char c s = true -> rfind_from c s i found = found.
Proof.
  induction s as [|a s IH]; intros i found; cbn [no_char rfind_from];
    [reflexivity|].
  intros H. apply andb_prop in H as (Ha & Hs). apply negb_true_iff in Ha.
  rewrite Ha. now apply IH.
Qed.

Lemma rfind_from_last c a e : forall i found,
  no_char c e = true ->
  rfind_from c (a ++ String c e) i found = i + Z.of_nat (String.length a).
Proof.
  induction a as [|x a IH]; intros i found He;
    cbn [append rfind_from String.length].
  - rewrite Ascii.eqb_refl, (rfind_from_absent _ _ _ _ He). cbn. lia.
  - rewrite (IH _ _ He). lia.
Qed.

Lemma no_char_app c a b :
  no_char c (a ++ b) = no_char c a && no_char c b.
Proof.
  induction a as [|x a IH]; cbn [append no_char]; [reflexivity|].
  now rewrite IH, andb_assoc.
Qed.

Lemma first_non_dot_past s : forall i lo hi,
  hi <= i -> first_non_dot s i lo hi = false.
Proof.
  induction s as [|a s IH]; intros i lo hi H; cbn [first_non_dot];
    [reflexivity|].
  replace (i <? hi) with false by (symmetry; apply Z.ltb_ge; lia).
  rewrite andb_false_r. cbn [andb]. apply IH. lia.
Qed.

Lemma first_non_dot_prefix a rest : forall i,
  0 <= i ->
  first_non_dot (a ++ rest) i 0 (i + Z.of_nat (String.length a))
  = negb (all_dots a).
Proof.
  induction a as [|x a IH]; intros i Hi; cbn [append String.length all_dots].
  - apply first_non_dot_past. cbn. lia.
  - cbn [first_non_dot].
    replace (0 <=? i) with true by (symmetry; apply Z.leb_le; lia).
    replace (i <? i + Z.of_nat (S (String.length a))) with true
      by (symmetry; apply Z.ltb_lt; lia).
    cbn [andb]. destruct (Ascii.eqb x "."); cbn [negb andb]; [|reflexivity].
    replace (i + Z.of_nat (S (String.length a)))
      with ((i + 1) + Z.of_nat (String.length a)) by lia.
    apply IH. lia.
Qed.

Lemma splitext_stem stem ext :
  no_char "/" stem = true -> no_char "/" ext = true ->
  no_char "." ext = true -> all_dots stem = false ->
  splitext (stem ++ String "." ext) = (stem, String "." ext).
Proof.
  intros Hs He Hd Hn. unfold splitext, rfind.
  rewrite (rfind_from_last "." stem ext 0 (-1) Hd).
  rewrite (rfind_from_absent "/" (stem ++ String "." ext) 0 (-1))
    by (rewrite no_char_app; cbn [no_char]; now rewrite Hs, He).
  replace (-1 <? 0 + Z.of_nat (String.length stem)) with true
    by (symmetry; apply Z.ltb_lt; lia).
  change (-1 + 1) with 0.
  rewrite (first_non_dot_prefix stem (String "." ext) 0) by lia.
  rewrite Hn. cbn [negb andb]. unfold str_take, str_drop.
  replace (Z.to_nat (0 + Z.of_nat (String.length stem)))
    with (String.length stem) by lia.
  now rewrite take_app, drop_app.
Qed.

(** X23. [splitext] cuts a path in two without losing anything: stem and
    extension put together give the path back.  On a file name with no
    slash, whose part before the last dot is not made of dots only, the
    cut is at the last dot; so the key of a PNG file that the variant
    pattern does not match is the whole name before its last dot,
    whatever the letter case of the extension. *)
Theorem splitext_parts :
  (forall p, (fst (splitext p) ++ snd (splitext p))%string = p)
  /\ (forall stem ext,
      no_char "/" stem = true -> no_char "/" ext = true ->
      no_char "." ext = true -> all_dots stem = false ->
      splitext (stem ++ String "." ext) = (stem, String "." ext))
  /\ (forall stem ext,
      no_char "/" stem = true -> no_char "/" ext = true ->
      no_char "." ext = true -> all_dots stem = false ->
      variant_pattern (stem ++ String "." ext) = None ->
      base_symbol_name (stem ++ String "." ext) = stem).
Proof.
  split; [|split].
  - intros p. unfold splitext.
    destruct ((rfind "/" p <? rfind "." p)
              && first_non_dot p 0 (rfind "/" p + 1) (rfind "." p)).
    + cbn [fst snd]. unfold str_take, str_drop. apply take_drop.
    + cbn [fst snd]. apply append_nil_r.
  - exact splitext_stem.
  - intros stem ext Hs He Hd Hn Hv. unfold base_symbol_name.
    now rewrite Hv, (splitext_stem _ _ Hs He Hd Hn).
Qed.

Lemma splitext_parts_witness :
  splitext "Old.Tower 01.PNG" = ("Old.Tower 01", ".PNG")
  /\ base_symbol_name "Old.Tower 01.PNG" = "Old.Tower 01".
Proof.
  destruct splitext_parts as (_ & S & K). split.
  - apply (S "Old.Tower 01" "PNG"); reflexivity.
  - apply (K "Old.Tower 01" "PNG"); reflexivity.
Defined.

(** ** The catalog header, read back *)

(** X24. Every catalog written starts with a header whose text fields,
    read back, are the program text, the version [6.20] and sub-version
    [.0], each filling its field to the last byte, then the twelve bytes
    of padding and the CR, LF, EOF sequence, and the database version 24;
    the filler is all zero: its assigned value starts with a NUL, so none
    of the assigned bytes after it is stored. *)
Theorem catalog_header_fields fs listdir dirs infoblocks out :
  catalog_file fs listdir dirs infoblocks = Ok out ->
  field_bytes FileID ["ProgID"] out
  = bytes_of_string "FCW (FastCAD for Windows) "
  /\ field_bytes FileID ["VerText"] out = bytes_of_string "6.20"
  /\ field_bytes FileID ["VerTextS"] out = bytes_of_string ".0"
  /\ field_bytes FileID ["Padding"] out
     = [13; 10; 26; 105; 110; 103; 32; 102; 105; 108; 101; 46]
  /\ field_bytes FileID ["Special"] out = [13; 10; 26]
  /\ field_value FileID ["DBVer"] out = 24
  /\ field_bytes FileID ["Filler"] out = zeros 78.
Proof.
  intros H. unfold catalog_file in H.
  destruct (process_directories fs listdir dirs []) as [symbol_list|e];
    [|discriminate].
  cbn [rbind] in H.
  change (construct FileID FileID_init) with
    (Ok (unwrap (construct FileID FileID_init))) in H.
  cbn [rbind] in H. injection H as <-.
  set (tail := infoblocks ++ List.concat symbol_list). clearbody tail.
  repeat split; vm_compute; reflexivity.
Qed.

Lemma catalog_header_fields_witness :
  field_bytes FileID ["Filler"] example_catalog = zeros 78.
Proof.
  apply (catalog_header_fields example_fs sound_listing ["d"] [1; 2; 3]).
  vm_compute; reflexivity.
Defined.

(* ------------------------------------------------------------------ *)
(** * The main block *)





(* ------------------------------------------------------------------ *)
(** * What a symbol takes from a picture *)

Lemma png_dimensions_same_header fs fs' file :
  same_header fs fs' file -> png_dimensions fs file = png_dimensions fs' file.
Proof.
  unfold same_header, png_dimensions, read_file. intros H.
  destruct (fs file) as [c|], (fs' file) as [c'|]; unfold option_map in H;
    try discriminate; [|reflexivity].
  set (a := firstn 24 c) in *. set (b := firstn 24 c') in *.
  clearbody a b. now injection H as ->.
Qed.

Lemma emit_same_header fs fs' r :
  (forall p, same_header fs fs' p) -> emit fs r = emit fs' r.
Proof.
  intros H.
  destruct r as [n f1 f2 g|n f g|n fl]; cbn [emit]; [| |reflexivity].
  - unfold handle_variant_pair.
    rewrite !VaricolorSymbol_bytes_outcome. unfold VaricolorSymbol_outcome.
    now rewrite (png_dimensions_same_header fs fs' _ (H (normpath f1))),
      (png_dimensions_same_header fs fs' _ (H (normpath f2))).
  - unfold handle_single_symbol.
    rewrite !SimpleSymbol_bytes_outcome. unfold SimpleSymbol_outcome.
    now rewrite (png_dimensions_same_header fs fs' _ (H (normpath f))).
Qed.

(** X26. A symbol takes nothing from a picture but what its first 24
    bytes say: when two file systems agree on which picture files exist
    and on the first 24 bytes of each, the dimensions read, the symbols
    built, their failures, and the bytes of a whole directory are the
    same. *)
Theorem symbols_depend_on_headers fs fs' :
  (forall file, same_header fs fs' file ->
      png_dimensions fs file = png_dimensions fs' file
      /\ forall name isGroup,
           SimpleSymbol_bytes fs name file isGroup
           = SimpleSymbol_bytes fs' name file isGroup)
  /\ (forall file1 file2, same_header fs fs' file1 ->
      same_header fs fs' file2 ->
      forall name isGroup,
        VaricolorSymbol_bytes fs name file1 file2 isGroup
        = VaricolorSymbol_bytes fs' name file1 file2 isGroup)
  /\ ((forall p, same_header fs fs' p) ->
      forall listdir dir,
        process_symbol_images fs listdir dir
        = process_symbol_images fs' listdir dir).
Proof.
  split; [|split].
  - intros file H. split; [now apply png_dimensions_same_header|].
    intros name isGroup. rewrite !SimpleSymbol_bytes_outcome.
    unfold SimpleSymbol_outcome.
    now rewrite (png_dimensions_same_header _ _ _ H).
  - intros file1 file2 H1 H2 name isGroup.
    rewrite !VaricolorSymbol_bytes_outcome. unfold VaricolorSymbol_outcome.
    now rewrite (png_dimensions_same_header _ _ _ H1),
      (png_dimensions_same_header _ _ _ H2).
  - intros H listdir dir. rewrite !process_symbol_images_requests.
    f_equal. induction (requests dir (listdir dir)) as [|r rs IH];
      cbn [emit_all]; [reflexivity|].
    now rewrite IH, (emit_same_header fs fs' r H).
Qed.

Lemma symbols_depend_on_headers_witness :
  SimpleSymbol_bytes repainted_fs "Tower 01" "d/Tower 01.png" true
  = Ok example_simple.
Proof.
  destruct (symbols_depend_on_headers example_fs repainted_fs) as (S & _).
  destruct (S "d/Tower 01.png") as (_ & E); [vm_compute; reflexivity|].
  rewrite <- E. vm_compute; reflexivity.
Defined.

(* ------------------------------------------------------------------ *)
(** * The path a symbol stores *)







